(** * Rule-based scoring engines of the agentic insurtech pipeline

    A shallow embedding of the deterministic engines of the repository
    (document analyzer, risk model, fraud detector, sentiment analyzer,
    query categorizer) and of the claims processor that sequences them,
    together with the properties stated about them.

    Modelling conventions.
    - Python [str] values are [string]s of 8-bit characters; the texts are
      taken to be ASCII, so [lower] folds only [A-Z] and the white space
      class is the ASCII part of Python's ([\t\n\v\f\r], [\x1c-\x1f], space).
    - Python [float] scores are exact rationals ([Q]), compared up to [==].
    - A [dict] whose iteration order matters is an association list in
      insertion order.
    - A raised exception is a value of [outcome]; [datetime.now()] is an
      explicit argument. *)

From Stdlib Require Import Bool Arith ZArith QArith Qminmax Lia List.
From Stdlib Require Import Ascii String DecimalString DecimalN.
From Stdlib Require Import Permutation Sorted.
Import ListNotations.

Close Scope Q_scope.
Open Scope string_scope.
Open Scope list_scope.

(* ===================================================================== *)
(** * Python strings *)
(* ===================================================================== *)

Module PyStr.

Definition code (c : ascii) : nat := nat_of_ascii c.

Definition in_range (lo hi : nat) (c : ascii) : bool :=
  (lo <=? code c)%nat && (code c <=? hi)%nat.

(** [str.isspace] on one ASCII character; also the class [\s] of [re]. *)
Definition is_space (c : ascii) : bool :=
  in_range 9 13 c || in_range 28 32 c.

Definition is_upper (c : ascii) : bool := in_range 65 90 c.
Definition is_lower (c : ascii) : bool := in_range 97 122 c.
Definition is_alpha (c : ascii) : bool := is_upper c || is_lower c.
Definition is_digit (c : ascii) : bool := in_range 48 57 c.

(** The class [\w] of [re]. *)
Definition is_word (c : ascii) : bool :=
  is_alpha c || is_digit c || Ascii.eqb c "_".

Definition lower_char (c : ascii) : ascii :=
  if is_upper c then ascii_of_nat (code c + 32) else c.

(** [s.lower()] *)
Fixpoint lower (s : string) : string :=
  match s with
  | EmptyString => EmptyString
  | String c r => String (lower_char c) (lower r)
  end.

Definition is_empty (s : string) : bool :=
  match s with EmptyString => true | String _ _ => false end.

Definition snoc (s : string) (c : ascii) : string :=
  String.append s (String c EmptyString).

Fixpoint lstrip (s : string) : string :=
  match s with
  | EmptyString => EmptyString
  | String c r => if is_space c then lstrip r else s
  end.

Fixpoint rstrip (s : string) : string :=
  match s with
  | EmptyString => EmptyString
  | String c r =>
      let r' := rstrip r in
      if is_space c && is_empty r' then EmptyString else String c r'
  end.

(** [s.strip()] *)
Definition strip (s : string) : string := rstrip (lstrip s).

(** [needle in hay] *)
Fixpoint contains (needle hay : string) : bool :=
  String.prefix needle hay ||
  match hay with
  | EmptyString => false
  | String _ r => contains needle r
  end.

(** [s.split()]: the maximal runs of characters that are not white space. *)
Fixpoint split_ws_from (cur s : string) : list string :=
  match s with
  | EmptyString => if is_empty cur then [] else [cur]
  | String c r =>
      if is_space c
      then (if is_empty cur then split_ws_from EmptyString r
            else cur :: split_ws_from EmptyString r)
      else split_ws_from (snoc cur c) r
  end.

Definition split_ws (s : string) : list string := split_ws_from EmptyString s.

(** [s.split(sep)] for a one-character separator, and [re.split] on a
    character class: every separator ends a (possibly empty) field. *)
Fixpoint split_on_from (sep : ascii -> bool) (cur s : string) : list string :=
  match s with
  | EmptyString => [cur]
  | String c r =>
      if sep c then cur :: split_on_from sep EmptyString r
      else split_on_from sep (snoc cur c) r
  end.

Definition split_on (sep : ascii -> bool) (s : string) : list string :=
  split_on_from sep EmptyString s.

Definition newline : ascii := ascii_of_nat 10.

Definition split_lines (s : string) : list string :=
  split_on (Ascii.eqb newline) s.

(** The separators of [re.split(r'[.!?]', s)]. *)
Definition sentence_end (c : ascii) : bool :=
  Ascii.eqb c "." || Ascii.eqb c "!" || Ascii.eqb c "?".

(** [x in xs] for a list of strings. *)
Definition mem (x : string) (xs : list string) : bool :=
  existsb (String.eqb x) xs.

(** [any(word in s for word in words)] *)
Definition any_in (words : list string) (s : string) : bool :=
  existsb (fun w => contains w s) words.

(** Maximal runs of word characters: [re.findall(r'\b\w+\b', s)]. *)
Fixpoint words_from (cur s : string) : list string :=
  match s with
  | EmptyString => if is_empty cur then [] else [cur]
  | String c r =>
      if is_word c then words_from (snoc cur c) r
      else if is_empty cur then words_from EmptyString r
           else cur :: words_from EmptyString r
  end.

Definition words (s : string) : list string := words_from EmptyString s.

Fixpoint take (n : nat) (s : string) : string :=
  match n, s with
  | S k, String c r => String c (take k r)
  | _, _ => EmptyString
  end.

Fixpoint drop (n : nat) (s : string) : string :=
  match n, s with
  | S k, String _ r => drop k r
  | _, _ => s
  end.

(** Length of the longest prefix whose characters are all in [p]. *)
Fixpoint run_length (p : ascii -> bool) (s : string) : nat :=
  match s with
  | String c r => if p c then S (run_length p r) else 0
  | EmptyString => 0
  end.

End PyStr.

(* ===================================================================== *)
(** * The fragment of [re] the pattern tables use *)
(* ===================================================================== *)

Module Regex.
Import PyStr.

(** A pattern is a sequence of items; repetition is greedy and ranges over a
    character class, which is all the tables need. *)
Inductive item : Type :=
| Lit (ci : bool) (s : string)        (* literal text; [ci]: re.IGNORECASE *)
| One (p : ascii -> bool)             (* one character of a class *)
| Rep (p : ascii -> bool) (min : nat) (capture : bool)
                                      (* p{min,}, greedy; a group if [capture] *)
| EndOfLine.                          (* (?:\n|$) *)

Definition pattern := list item.

Fixpoint lit_prefix (ci : bool) (l s : string) : option string :=
  match l, s with
  | EmptyString, _ => Some s
  | String a l', String b s' =>
      if (if ci then Ascii.eqb (lower_char a) (lower_char b) else Ascii.eqb a b)
      then lit_prefix ci l' s' else None
  | String _ _, EmptyString => None
  end.

(** Tries [f k], [f (k-1)], ..., [f min]: the backtracking order of a greedy
    repetition. *)
Fixpoint try_down {A : Type} (f : nat -> option A) (min k : nat) : option A :=
  if (k <? min)%nat then None
  else match f k with
       | Some r => Some r
       | None => match k with
                 | O => None
                 | S k' => try_down f min k'
                 end
       end.

(** [match_here pat s]: the first way, in backtracking order, in which [pat]
    matches a prefix of [s]; gives the captured groups and the number of
    characters consumed. *)
Fixpoint match_here (pat : pattern) (s : string) : option (list string * nat) :=
  match pat with
  | [] => Some ([], 0)
  | Lit ci l :: rest =>
      match lit_prefix ci l s with
      | Some s' =>
          match match_here rest s' with
          | Some (caps, n) => Some (caps, String.length l + n)
          | None => None
          end
      | None => None
      end
  | One p :: rest =>
      match s with
      | String c s' =>
          if p c then
            match match_here rest s' with
            | Some (caps, n) => Some (caps, S n)
            | None => None
            end
          else None
      | EmptyString => None
      end
  | Rep p min capture :: rest =>
      try_down
        (fun k =>
           match match_here rest (drop k s) with
           | Some (caps, n) =>
               Some (if capture then take k s :: caps else caps, k + n)
           | None => None
           end)
        min (run_length p s)
  | EndOfLine :: rest =>
      let at_end :=
        if is_empty s || String.eqb s (String newline EmptyString)
        then match_here rest s else None in
      match s with
      | String c s' =>
          if Ascii.eqb c newline then
            match match_here rest s' with
            | Some (caps, n) => Some (caps, S n)
            | None => at_end
            end
          else at_end
      | EmptyString => at_end
      end
  end.

(** [re.search(pat, s)] as a truth value. *)
Fixpoint search (pat : pattern) (s : string) : bool :=
  match match_here pat s with
  | Some _ => true
  | None => match s with
            | EmptyString => false
            | String _ r => search pat r
            end
  end.

(** [re.findall(pat, s)] for patterns that consume at least one character:
    matches are taken left to right and do not overlap; [skip] counts the
    characters of the last match still to be passed over. *)
Fixpoint findall_from (pat : pattern) (skip : nat) (s : string)
  : list (list string) :=
  match s with
  | EmptyString => []
  | String _ r =>
      match skip with
      | S k => findall_from pat k r
      | O =>
          match match_here pat s with
          | Some (caps, n) => caps :: findall_from pat (pred n) r
          | None => findall_from pat 0 r
          end
      end
  end.

Definition findall (pat : pattern) (s : string) : list (list string) :=
  findall_from pat 0 s.

End Regex.

(* ===================================================================== *)
(** * Exceptions *)
(* ===================================================================== *)

(** An instance of Python's [Exception]; [str_of] is [str(e)]. *)
Inductive exn : Type :=
| ValueError (msg : string)
| KeyError (msg : string)
| ZeroDivisionError (msg : string)
| OtherError (msg : string).

Definition str_of (e : exn) : string :=
  match e with
  | ValueError m | KeyError m | ZeroDivisionError m | OtherError m => m
  end.

(** What evaluating a piece of code ends in. *)
Inductive outcome (A : Type) : Type :=
| Returned (a : A)
| Raised (e : exn).
Arguments Returned {A} a.
Arguments Raised {A} e.

(* ===================================================================== *)
(** * Dates ([datetime]) *)
(* ===================================================================== *)

Module PyDate.
Import PyStr.
Local Open Scope Z_scope.

Record date : Type := mk_date { year : Z; month : Z; day : Z }.

(** A naive [datetime]: a date and the microseconds since its midnight. *)
Record datetime : Type := mk_datetime { dt_date : date; dt_micro : Z }.

Definition is_leap (y : Z) : bool :=
  (y mod 4 =? 0) && (negb (y mod 100 =? 0) || (y mod 400 =? 0)).

Definition days_in_month (y m : Z) : Z :=
  if m =? 2 then (if is_leap y then 29 else 28)
  else if (m =? 4) || (m =? 6) || (m =? 9) || (m =? 11) then 30 else 31.

Definition days_before_year (y : Z) : Z :=
  let p := y - 1 in p * 365 + p / 4 - p / 100 + p / 400.

Definition days_before_month (y m : Z) : Z :=
  fold_right Z.add 0
    (map (days_in_month y) (map Z.of_nat (seq 1 (Z.to_nat (m - 1))))).

(** [d.toordinal()]: 1 is January 1 of year 1. *)
Definition toordinal (d : date) : Z :=
  days_before_year (year d) + days_before_month (year d) (month d) + day d.

(** [d.weekday()]: Monday is 0 and Sunday is 6. *)
Definition weekday (d : date) : Z := (toordinal d + 6) mod 7.

Definition valid_date (d : date) : bool :=
  (1 <=? year d) && (year d <=? 9999) &&
  (1 <=? month d) && (month d <=? 12) &&
  (1 <=? day d) && (day d <=? days_in_month (year d) (month d)).

Definition digit (c : ascii) : option Z :=
  if is_digit c then Some (Z.of_nat (code c) - 48) else None.

Definition digit_in (lo hi : Z) (c : ascii) : option Z :=
  match digit c with
  | Some v => if (lo <=? v) && (v <=? hi) then Some v else None
  | None => None
  end.

(** The directive [%m]: [1[0-2]|0[1-9]|[1-9]], first alternative first. *)
Definition parse_month (s : string) : option (Z * string) :=
  match s with
  | String a r =>
      match r with
      | String b r' =>
          match digit_in 1 1 a, digit_in 0 2 b with
          | Some _, Some v => Some (10 + v, r')
          | _, _ =>
              match digit_in 0 0 a, digit_in 1 9 b with
              | Some _, Some v => Some (v, r')
              | _, _ =>
                  match digit_in 1 9 a with
                  | Some v => Some (v, r)
                  | None => None
                  end
              end
          end
      | EmptyString =>
          match digit_in 1 9 a with
          | Some v => Some (v, r)
          | None => None
          end
      end
  | EmptyString => None
  end.

(** The directive [%d]: [3[0-1]|[1-2]\d|0[1-9]|[1-9]| [1-9]]. *)
Definition parse_day (s : string) : option (Z * string) :=
  match s with
  | String a r =>
      let one := match digit_in 1 9 a with
                 | Some v => Some (v, r)
                 | None => None
                 end in
      match r with
      | String b r' =>
          match digit_in 3 3 a, digit_in 0 1 b with
          | Some _, Some v => Some (30 + v, r')
          | _, _ =>
              match digit_in 1 2 a, digit b with
              | Some t, Some v => Some (10 * t + v, r')
              | _, _ =>
                  match digit_in 0 0 a, digit_in 1 9 b with
                  | Some _, Some v => Some (v, r')
                  | _, _ =>
                      match one with
                      | Some x => Some x
                      | None =>
                          if Ascii.eqb a " " then
                            match digit_in 1 9 b with
                            | Some v => Some (v, r')
                            | None => None
                            end
                          else None
                      end
                  end
              end
          end
      | EmptyString => one
      end
  | EmptyString => None
  end.

Definition expect (c : ascii) (s : string) : option string :=
  match s with
  | String a r => if Ascii.eqb a c then Some r else None
  | EmptyString => None
  end.

(** [datetime.strptime(s, "%Y-%m-%d")]; [None] stands for the [ValueError]
    raised when the text does not match, leaves data unconverted, or names
    a day that does not exist. *)
Definition strptime_Ymd (s : string) : option date :=
  match s with
  | String y1 (String y2 (String y3 (String y4 r))) =>
      match digit y1, digit y2, digit y3, digit y4 with
      | Some a, Some b, Some c, Some d =>
          match expect "-" r with
          | Some r1 =>
              match parse_month r1 with
              | Some (m, r2) =>
                  match expect "-" r2 with
                  | Some r3 =>
                      match parse_day r3 with
                      | Some (dd, EmptyString) =>
                          let dt := mk_date (1000 * a + 100 * b + 10 * c + d) m dd in
                          if valid_date dt then Some dt else None
                      | _ => None
                      end
                  | None => None
                  end
              | None => None
              end
          | None => None
          end
      | _, _, _, _ => None
      end
  | _ => None
  end.

Definition micros_per_day : Z := 86400 * 1000000.

(** [(a - datetime(b)).days], [b] taken at midnight. *)
Definition days_since (a : datetime) (b : date) : Z :=
  ((toordinal (dt_date a) - toordinal b) * micros_per_day + dt_micro a)
  / micros_per_day.

Definition dec (n : Z) : string := NilEmpty.string_of_uint (N.to_uint (Z.to_N n)).

Definition pad2 (n : Z) : string :=
  if n <? 10 then String.append "0" (dec n) else dec n.

(** [d.strftime("%Y-%m-%d")] *)
Definition strftime_Ymd (d : date) : string :=
  String.append (dec (year d))
    (String.append "-" (String.append (pad2 (month d))
       (String.append "-" (pad2 (day d))))).

End PyDate.

(* ===================================================================== *)
(** * Numbers *)
(* ===================================================================== *)

Module PyNum.
Local Open Scope Q_scope.

(** [a < b] as a truth value. *)
Definition Qltb (a b : Q) : bool := negb (Qle_bool b a).

(** [dict.get(key, default)] on an optional entry. *)
Definition get_or {A : Type} (entry : option A) (default : A) : A :=
  match entry with Some v => v | None => default end.

(** Lookup in a [dict] kept in insertion order. *)
Fixpoint dict_get {A : Type} (k : string) (d : list (string * A)) : option A :=
  match d with
  | [] => None
  | (k', v) :: r => if String.eqb k k' then Some v else dict_get k r
  end.

(** [d[k] = v]: replaces the value of a key already present, where it
    stands; appends the entry otherwise. *)
Fixpoint dict_set {A : Type} (k : string) (v : A) (d : list (string * A))
  : list (string * A) :=
  match d with
  | [] => [(k, v)]
  | (k', v') :: r =>
      if String.eqb k k' then (k', v) :: r else (k', v') :: dict_set k v r
  end.

End PyNum.

(* ===================================================================== *)
(** * Fraud detector (fraud_detector.py) *)
(* ===================================================================== *)

Module FraudDetector.
Import PyStr PyDate PyNum.
Local Open Scope Q_scope.

(** The dictionaries handed to [detect_fraud]; every key may be missing. *)
Record claim_data : Type := mk_claim_data {
  description : option string;
  report_date : option string;
  items : option (list string);
  image_analysis : option string;
  police_report : option bool
}.

Record policy_data : Type := mk_policy_data {
  start_date : option string;
  coverage_amount : option Q;
  deductible : option Q
}.

Record customer_history : Type := mk_customer_history {
  recent_claims : option Z
}.

Record fraud_result : Type := mk_fraud_result {
  fraud_score : Q;
  risk_category : string;
  indicators_found : list string;
  recommended_action : string
}.

(** [self.fraud_indicators] *)
Definition fraud_indicators : list (string * list (string * Q)) :=
  [ ("timing",
      [ ("recent_policy", 0.7); ("weekend_claim", 0.3);
        ("night_claim", 0.4); ("holiday_claim", 0.5) ]);
    ("content",
      [ ("vague_description", 0.6); ("excessive_items", 0.5);
        ("high_value_items", 0.4); ("no_receipts", 0.3); ("no_photos", 0.5) ]);
    ("history",
      [ ("multiple_claims", 0.7); ("previous_denials", 0.8);
        ("policy_changes", 0.5) ]);
    ("red_flags",
      [ ("water_damage_no_weather", 0.7); ("theft_no_police_report", 0.8);
        ("fire_no_fire_dept", 0.7); ("inconsistent_statements", 0.9) ]) ].

(** [self.fraud_indicators[group][name]]; every key [detect_fraud] uses is
    in the table, so the default is never taken. *)
Definition indicator (group name : string) : Q :=
  match dict_get group fraud_indicators with
  | Some g => get_or (dict_get name g) 0
  | None => 0
  end.

(** The [try] block turns every failure of [strptime] into [False];
    [now] is the reading of [datetime.now()]. *)
Definition _check_recent_policy (now : datetime) (pd : policy_data) : bool :=
  match strptime_Ymd (get_or (start_date pd) "") with
  | Some policy_start =>
      let days_active := days_since now policy_start in
      (days_active <? 30)%Z
  | None => false
  end.

Definition _check_weekend_claim (cd : claim_data) : bool :=
  match strptime_Ymd (get_or (report_date cd) "") with
  | Some claim_date => (5 <=? weekday claim_date)%Z
  | None => false
  end.

Definition _check_vague_description (cd : claim_data) : bool :=
  let word_count := List.length (split_ws (get_or (description cd) "")) in
  (word_count <? 20)%nat.

Definition _check_excessive_items (cd : claim_data) : bool :=
  (15 <? List.length (get_or (items cd) []))%nat.

Definition _check_multiple_claims (ch : customer_history) : bool :=
  (3 <=? get_or (recent_claims ch) 0%Z)%Z.

Definition _check_water_damage_no_weather (cd : claim_data) : bool :=
  let d := lower (get_or (description cd) "") in
  let has_water_damage := contains "water damage" d || contains "flood" d in
  let has_weather_event := contains "rain" d || contains "storm" d in
  has_water_damage && negb has_weather_event.

Definition _check_theft_no_police_report (cd : claim_data) : bool :=
  let d := lower (get_or (description cd) "") in
  let has_theft := contains "theft" d || contains "stolen" d in
  let has_police_report := get_or (police_report cd) false in
  has_theft && negb has_police_report.

(** One triggered rule: [fraud_score += w] and
    [fraud_indicators_found.append(label)]. *)
Definition found (st : Q * list string) (w : Q) (label : string)
  : Q * list string :=
  (fst st + w, snd st ++ [label]).

Definition categorize (normalized_score : Q) : string :=
  if Qltb 0.7 normalized_score then "High"
  else if Qltb 0.3 normalized_score then "Medium"
  else "Low".

Definition action_for (risk_category : string) : string :=
  if String.eqb risk_category "High" then "Escalate for investigation"
  else if String.eqb risk_category "Medium" then "Request additional documentation"
  else "Process claim normally".

Definition detect_fraud (now : datetime) (cd : claim_data) (pd : policy_data)
    (ch : customer_history) : fraud_result :=
  let st := (0, []) in
  let st := if _check_recent_policy now pd
            then found st (indicator "timing" "recent_policy")
                   "Recent policy creation" else st in
  let st := if _check_weekend_claim cd
            then found st (indicator "timing" "weekend_claim")
                   "Claim filed on weekend" else st in
  let st := if _check_vague_description cd
            then found st (indicator "content" "vague_description")
                   "Vague claim description" else st in
  let st := if _check_excessive_items cd
            then found st (indicator "content" "excessive_items")
                   "Excessive number of items claimed" else st in
  let st := if _check_multiple_claims ch
            then found st (indicator "history" "multiple_claims")
                   "Multiple recent claims" else st in
  let st := if _check_water_damage_no_weather cd
            then found st (indicator "red_flags" "water_damage_no_weather")
                   "Water damage claim without weather event" else st in
  let st := if _check_theft_no_police_report cd
            then found st (indicator "red_flags" "theft_no_police_report")
                   "Theft claim without police report" else st in
  let normalized_score := Qmin (fst st / 5) 1 in
  let risk_category := categorize normalized_score in
  mk_fraud_result normalized_score risk_category (snd st)
    (action_for risk_category).

(** The rule table as the specification lists it: trigger and weight, in
    evaluation order. *)
Definition spec_rules (now : datetime) (cd : claim_data) (pd : policy_data)
    (ch : customer_history) : list (bool * Q) :=
  [ (_check_recent_policy now pd, 0.7);
    (_check_weekend_claim cd, 0.3);
    (_check_vague_description cd, 0.6);
    (_check_excessive_items cd, 0.5);
    (_check_multiple_claims ch, 0.7);
    (_check_water_damage_no_weather cd, 0.7);
    (_check_theft_no_police_report cd, 0.8) ].

(** The raw score of the specification: the weights of the triggered rules
    added up. *)
Definition spec_raw_score (now : datetime) (cd : claim_data)
    (pd : policy_data) (ch : customer_history) : Q :=
  fold_right (fun (r : bool * Q) acc => if fst r then snd r + acc else acc) 0
    (spec_rules now cd pd ch).

(** The "Recent policy" trigger as the specification words it: fewer than
    30 days between [policy.start_date] and [claim.report_date]. *)
Definition spec_recent_policy (cd : claim_data) (pd : policy_data) : bool :=
  match strptime_Ymd (get_or (start_date pd) ""),
        strptime_Ymd (get_or (report_date cd) "") with
  | Some s, Some r => (toordinal r - toordinal s <? 30)%Z
  | _, _ => false
  end.

End FraudDetector.

(* ===================================================================== *)
(** * Claims processor (claims.py) *)
(* ===================================================================== *)

Module ClaimsProcessor.
Import PyStr PyDate PyNum.
Local Open Scope Q_scope.

(** What [_fraud_detection_tool] hands back once its JSON text is parsed:
    the dictionary of [detect_fraud], or the one-key dictionary
    [{"error": ...}]. *)
Inductive tool_reply : Type :=
| Reply (r : FraudDetector.fraud_result)
| ErrorReply (msg : string).

(** The entries of the dictionary [claim_assessment] that the decision is
    made of; the claim number, the rendered text and the timing are
    presentation and are left out. *)
Record claim_assessment : Type := mk_claim_assessment {
  policy_number : string;
  status : string;
  fraud_score : Q;
  fraud_indicators : list string;
  claim_amount : Q;
  items_claimed : list string;
  next_steps : list string
}.

(** The dictionary [process_claim] returns. *)
Record claim_result : Type := mk_claim_result {
  success : bool;
  assessment : option claim_assessment;
  error : option string
}.

(** The record handed to [db_client.create_claim]. *)
Record db_claim : Type := mk_db_claim {
  db_policy_id : string;
  db_description : string;
  db_status : string;
  db_amount_requested : Q;
  db_amount_approved : Q;
  db_fraud_score : Q
}.

(** The record handed to [db_client.log_agent_activity]. *)
Record log_data : Type := mk_log_data {
  log_action : string;
  log_input : string * string * string;
  log_output : claim_assessment + string;
  log_success : bool
}.

(** [_get_policy_data]: the fixed record every policy number gets. *)
Definition _get_policy_data (policy_number : string)
  : FraudDetector.policy_data :=
  FraudDetector.mk_policy_data (Some "2025-01-01") (Some 250000) (Some 1000).

(** [_get_customer_history] *)
Definition _get_customer_history (email : string)
  : FraudDetector.customer_history :=
  FraudDetector.mk_customer_history (Some 1%Z).

Definition item_words : list string :=
  ["item"; "object"; "damaged"; "broken"; "stolen"].

Definition sentence_words : list string :=
  ["see"; "visible"; "appears"; "showing"; "contains"].

Definition is_nil {A : Type} (l : list A) : bool :=
  match l with [] => true | _ :: _ => false end.

Definition _extract_items_from_analysis (analysis_text : string)
  : list string :=
  let items :=
    filter (fun line => negb (is_empty line) && any_in item_words (lower line))
      (map strip (split_lines analysis_text)) in
  let items :=
    if is_nil items
    then filter (fun sentence => any_in sentence_words (lower sentence))
           (map strip (split_on sentence_end analysis_text))
    else items in
  firstn 10 items.

(** [_fraud_detection_tool] after the JSON round trip of its arguments and
    of its result; on these typed inputs [detect_fraud] raises nothing, so
    the [except] branches of the tool and of [_detect_fraud] stay unused. *)
Definition _fraud_detection_tool (now : datetime)
    (cd : FraudDetector.claim_data) (pd : FraudDetector.policy_data)
    (ch : FraudDetector.customer_history) : tool_reply :=
  Reply (FraudDetector.detect_fraud now cd pd ch).

Definition _detect_fraud (now : datetime)
    (cd : FraudDetector.claim_data) (pd : FraudDetector.policy_data)
    (ch : FraudDetector.customer_history) : tool_reply :=
  _fraud_detection_tool now cd pd ch.

(** [fraud_detection_result["fraud_score"]] *)
Definition reply_fraud_score (r : tool_reply) : outcome Q :=
  match r with
  | Reply fr => Returned (FraudDetector.fraud_score fr)
  | ErrorReply _ => Raised (KeyError "'fraud_score'")
  end.

(** [fraud_detection_result["indicators_found"]] *)
Definition reply_indicators (r : tool_reply) : outcome (list string) :=
  match r with
  | Reply fr => Returned (FraudDetector.indicators_found fr)
  | ErrorReply _ => Raised (KeyError "'indicators_found'")
  end.

(** The status decision of [process_claim]: an [if] on 0.5 followed by an
    [elif] on 0.7. *)
Definition claim_status_for (fraud_score : Q) : string :=
  if Qltb 0.5 fraud_score then "Under Review"
  else if Qltb 0.7 fraud_score then "Rejected"
  else "Approved".

Definition _get_item_value (item : string) : Q :=
  let item_lower := lower item in
  if contains "tv" item_lower || contains "television" item_lower then 500
  else if contains "computer" item_lower || contains "laptop" item_lower then 1000
  else if contains "phone" item_lower || contains "smartphone" item_lower then 800
  else if contains "jewelry" item_lower then 2000
  else if contains "furniture" item_lower then 1500
  else if contains "appliance" item_lower then 1200
  else 500.

(** [claim_data["items"]]: a claim without the entry raises. *)
Definition claim_items (cd : FraudDetector.claim_data)
  : outcome (list string) :=
  match FraudDetector.items cd with
  | Some items => Returned items
  | None => Raised (KeyError "'items'")
  end.

Definition _calculate_claim_amount (cd : FraudDetector.claim_data)
    (pd : FraudDetector.policy_data) : outcome Q :=
  let base_amount := 1000 in
  match claim_items cd with
  | Raised e => Raised e
  | Returned items =>
      let items_value := fold_right Qplus 0 (map _get_item_value items) in
      let coverage_amount :=
        get_or (FraudDetector.coverage_amount pd) 50000 in
      let max_claim := Qmin (items_value + base_amount) coverage_amount in
      let deductible := get_or (FraudDetector.deductible pd) 500 in
      Returned (Qmax 0 (max_claim - deductible))
  end.

Definition _get_next_steps (claim_status : string) : list string :=
  if String.eqb claim_status "Approved" then
    [ "Claim has been approved";
      "Payment will be processed within 5-7 business days";
      "You will receive an email confirmation once payment is sent";
      "Contact customer support if you have any questions" ]
  else if String.eqb claim_status "Under Review" then
    [ "Claim requires additional review";
      "A claims adjuster will contact you within 48 hours";
      "Please have any supporting documentation ready";
      "You may be asked to provide additional information" ]
  else
    [ "Claim has been rejected";
      "Please review the rejection reasons provided";
      "You may appeal this decision within 30 days";
      "Contact customer support for assistance with the appeal process" ].

(** [claim_data] as [process_claim] assembles it; [now_report] is the
    clock reading formatted into [report_date]. *)
Definition prepare_claim_data (now_report : datetime)
    (claim_description raw_analysis : string) : FraudDetector.claim_data :=
  FraudDetector.mk_claim_data
    (Some claim_description)
    (Some (strftime_Ymd (dt_date now_report)))
    (Some (_extract_items_from_analysis raw_analysis))
    (Some raw_analysis)
    (Some (contains "police report" (lower claim_description))).

(** The steps of [process_claim] between the call of the vision service and
    the writes to the store: policy and history look-up, fraud detection,
    status, amount, and the [claim_assessment] dictionary. [now_check] is
    the clock reading [_check_recent_policy] takes. *)
Definition assess_claim (now_report now_check : datetime)
    (policy_number claim_description raw_analysis : string)
  : outcome claim_assessment :=
  let policy_data := _get_policy_data policy_number in
  let customer_history := _get_customer_history "john.smith@example.com" in
  let claim_data :=
    prepare_claim_data now_report claim_description raw_analysis in
  let fraud_detection_result :=
    _detect_fraud now_check claim_data policy_data customer_history in
  match reply_fraud_score fraud_detection_result with
  | Raised e => Raised e
  | Returned score =>
      let claim_status := claim_status_for score in
      match _calculate_claim_amount claim_data policy_data with
      | Raised e => Raised e
      | Returned claim_amount =>
          match reply_indicators fraud_detection_result with
          | Raised e => Raised e
          | Returned indicators =>
              match claim_items claim_data with
              | Raised e => Raised e
              | Returned items =>
                  Returned
                    (mk_claim_assessment policy_number claim_status score
                       indicators claim_amount items
                       (_get_next_steps claim_status))
              end
          end
      end
  end.

Section Collaborators.

(** The state of the external record store. *)
Variable store : Type.

(** [image_processor.analyze_image(path)["raw_analysis"]]: the narrative
    of the vision service, or the exception the call ends in. *)
Variable analyze_image : string -> outcome string.

(** [db_client.create_claim] and [db_client.log_agent_activity]: each
    changes the store and may raise. *)
Variable create_claim : db_claim -> store -> outcome unit * store.
Variable log_agent_activity : log_data -> store -> outcome unit * store.

(** Code that runs against the store and may raise. *)
Definition M (A : Type) : Type := store -> outcome A * store.

Definition ret {A : Type} (a : A) : M A := fun s => (Returned a, s).

Definition bind {A B : Type} (m : M A) (k : A -> M B) : M B :=
  fun s =>
    match m s with
    | (Returned a, s') => k a s'
    | (Raised e, s') => (Raised e, s')
    end.

Definition lift {A : Type} (o : outcome A) : M A := fun s => (o, s).

(** [try: body / except Exception as e: handler(e)] *)
Definition try_except {A : Type} (body : M A) (handler : exn -> M A) : M A :=
  fun s =>
    match body s with
    | (Returned a, s') => (Returned a, s')
    | (Raised e, s') => handler e s'
    end.

Notation "x <- m ;; k" := (bind m (fun x => k))
  (at level 61, m at next level, right associativity).
Notation "m ;;; k" := (bind m (fun _ => k))
  (at level 61, right associativity).

(** [_log_agent_activity]: a failure of the store is printed, not raised. *)
Definition _log_agent_activity (action : string)
    (input_data : string * string * string)
    (output_data : claim_assessment + string) (ok : bool) : M unit :=
  try_except
    (log_agent_activity (mk_log_data action input_data output_data ok))
    (fun _ => ret tt).

(** The body of the [try] block of [process_claim]: the call of the
    vision service, the assessment, the two writes to the store. *)
Definition process_claim_body (now_report now_check : datetime)
    (image_path policy_number claim_description : string) : M claim_result :=
  raw_analysis <- lift (analyze_image image_path) ;;
  claim_assessment <-
    lift (assess_claim now_report now_check policy_number claim_description
            raw_analysis) ;;
  let claim_status := status claim_assessment in
  let claim_amount := claim_amount claim_assessment in
  try_except
    (create_claim
       (mk_db_claim "policy_123" claim_description claim_status claim_amount
          (if String.eqb claim_status "Approved" then claim_amount else 0)
          (fraud_score claim_assessment)))
    (fun _ => ret tt) ;;;
  _log_agent_activity "Claim Processing"
    (image_path, policy_number, claim_description)
    (inl claim_assessment) true ;;;
  ret (mk_claim_result true (Some claim_assessment) None).

(** [process_claim]: the body under [try], and the [except] branch that
    logs the failure and returns it. *)
Definition process_claim (now_report now_check : datetime)
    (image_path policy_number claim_description : string) : M claim_result :=
  try_except
    (process_claim_body now_report now_check
       image_path policy_number claim_description)
    (fun e =>
       _log_agent_activity "Claim Processing"
         (image_path, policy_number, claim_description)
         (inr (str_of e)) false ;;;
       ret (mk_claim_result false None (Some (str_of e)))).

End Collaborators.

End ClaimsProcessor.

(* ===================================================================== *)
(** * Document analyzer (doc_analyzer.py) *)
(* ===================================================================== *)

Module DocAnalyzer.
Import PyStr PyNum Regex.

(** [first\s+second], matched with [re.IGNORECASE]. *)
Definition two_words (first second : string) : pattern :=
  [Lit true first; Rep is_space 1 false; Lit true second].

(** [self.document_patterns], in declaration order. *)
Definition document_patterns : list (string * list pattern) :=
  [ ("policy",
      [ two_words "policy" "number"; two_words "coverage" "amount";
        [Lit true "premium"]; two_words "effective" "date";
        two_words "expiration" "date" ]);
    ("claim",
      [ two_words "claim" "number"; two_words "incident" "date";
        two_words "damage" "description"; two_words "estimated" "loss" ]);
    ("invoice",
      [ two_words "invoice" "number"; two_words "amount" "due";
        two_words "payment" "date"; two_words "service" "description" ]);
    ("receipt",
      [ two_words "receipt" "number"; two_words "purchase" "date";
        two_words "item" "description"; two_words "amount" "paid" ]) ].

(** [max(values)] for counts. *)
Definition list_max (l : list nat) : nat := fold_right Nat.max 0 l.

(** The score of one type: how many of its patterns [re.search] finds. *)
Definition pattern_score (patterns : list pattern) (text : string) : nat :=
  List.length (filter (fun p => search p text) patterns).

(** [type_scores] after the loop; the keys of the table are distinct, so
    each assignment adds an entry. *)
Definition type_scores (text : string) : list (string * nat) :=
  map (fun tp => (fst tp, pattern_score (snd tp) text)) document_patterns.

Definition _identify_document_type (text : string) : string :=
  let scores := type_scores text in
  match scores with
  | [] => "unknown"
  | _ :: _ =>
      let max_score := list_max (map snd scores) in
      if (max_score =? 0)%nat then "unknown"
      else
        let max_types :=
          map fst (filter (fun ts => (snd ts =? max_score)%nat) scores) in
        hd "" max_types
  end.

Definition is_one_of (cs : string) (c : ascii) : bool :=
  existsb (Ascii.eqb c) (list_ascii_of_string cs).

(** [([A-Za-z\s]+)[:.-]\s*([A-Za-z0-9\s,.$-]+)(?:\n|$)] *)
Definition kv_pattern : pattern :=
  [ Rep (fun c => is_alpha c || is_space c) 1 true;
    One (is_one_of ":.-");
    Rep is_space 0 false;
    Rep (fun c => is_alpha c || is_digit c || is_space c || is_one_of ",.$-" c)
      1 true;
    EndOfLine ].

(** The body of the loop over the matches: one assignment
    [key_values[key] = value] when both parts are non-empty. *)
Definition record_match (key_values : list (string * string))
    (m : list string) : list (string * string) :=
  match m with
  | [key; value] =>
      let key := lower (strip key) in
      let value := strip value in
      if negb (is_empty key) && negb (is_empty value)
      then dict_set key value key_values
      else key_values
  | _ => key_values
  end.

Definition _extract_key_values (text : string) : list (string * string) :=
  fold_left record_match (findall kv_pattern text) [].

(** The two parts of the result of [analyze_document] that come from the
    text alone; the entity table and the summary are not modelled. *)
Record doc_analysis : Type := mk_doc_analysis {
  document_type : string;
  key_values : list (string * string)
}.

Definition analyze_document (document_text : string) : doc_analysis :=
  mk_doc_analysis (_identify_document_type document_text)
    (_extract_key_values document_text).

(** The label/value lines in scan order, normalized as the loop does and
    with the skipped ones removed. *)
Definition scanned_pairs (text : string) : list (string * string) :=
  flat_map
    (fun m => match m with
              | [key; value] =>
                  let key := lower (strip key) in
                  let value := strip value in
                  if negb (is_empty key) && negb (is_empty value)
                  then [(key, value)] else []
              | _ => []
              end)
    (findall kv_pattern text).

(** The first, and the last, value a key has in a list of pairs. *)
Definition first_value (k : string) (pairs : list (string * string))
  : option string := dict_get k pairs.

Definition last_value (k : string) (pairs : list (string * string))
  : option string := dict_get k (rev pairs).

End DocAnalyzer.

(* ===================================================================== *)
(** * Risk model (risk_model.py) *)
(* ===================================================================== *)

Module RiskModel.
Import PyStr PyNum.
Local Open Scope Q_scope.

Definition property_risk_factors : list (string * Q) :=
  [ ("electronics", 1.2); ("jewelry", 1.5); ("art", 1.3);
    ("furniture", 1.1); ("appliances", 1.15); ("sports_equipment", 1.05);
    ("musical_instruments", 1.25) ].

Definition location_risk_factors : list (string * Q) :=
  [ ("flood_zone", 1.4); ("high_crime", 1.3); ("wildfire_prone", 1.35);
    ("hurricane_prone", 1.45); ("earthquake_prone", 1.5); ("urban", 1.1);
    ("suburban", 1.0); ("rural", 0.95) ].

Record risk_assessment : Type := mk_risk_assessment {
  risk_score : Q;
  risk_category : string;
  recommended_coverage : Q;
  annual_premium : Q;
  monthly_premium : Q;
  item_risk_contribution : Q;
  location_risk_contribution : Q
}.

(** [a / b] on numbers: raises when the divisor is zero. *)
Definition py_div (a b : Q) : outcome Q :=
  if Qeq_bool b 0 then Raised (ZeroDivisionError "division by zero")
  else Returned (a / b).

(** The loop over [items.items()]: the running [(item_risk, total_items)]. *)
Definition add_item (acc : Q * Z) (entry : string * Z) : Q * Z :=
  let risk_factor := get_or (dict_get (lower (fst entry)) property_risk_factors) 1.0 in
  (fst acc + risk_factor * inject_Z (snd entry), (snd acc + snd entry)%Z).

Definition item_totals (items : list (string * Z)) : Q * Z :=
  fold_left add_item items (0, 0%Z).

(** [if total_items > 0: item_risk = item_risk / total_items] *)
Definition normalize_item_risk (item_risk : Q) (total_items : Z) : outcome Q :=
  if (0 <? total_items)%Z then py_div item_risk (inject_Z total_items)
  else Returned item_risk.

Definition location_product (location_factors : list string) : Q :=
  fold_left
    (fun location_risk factor =>
       match dict_get (lower factor) location_risk_factors with
       | Some w => location_risk * w
       | None => location_risk
       end)
    location_factors 1.0.

Definition assess_risk (items : list (string * Z))
    (location_factors : list string) : outcome risk_assessment :=
  let base_risk := 1.0 in
  let '(item_risk, total_items) := item_totals items in
  match normalize_item_risk item_risk total_items with
  | Raised e => Raised e
  | Returned item_risk =>
      let location_risk := location_product location_factors in
      let overall_risk := base_risk * item_risk * location_risk in
      let risk_category :=
        if Qltb overall_risk 1.0 then "Low"
        else if Qltb 1.5 overall_risk then "High"
        else "Medium" in
      let base_coverage := 50000 in
      let per_item_coverage := 1000 in
      let total_coverage :=
        base_coverage + inject_Z total_items * per_item_coverage in
      let adjusted_coverage := total_coverage * overall_risk in
      let annual_premium := adjusted_coverage * 0.02 in
      match py_div annual_premium 12 with
      | Raised e => Raised e
      | Returned monthly_premium =>
          Returned
            (mk_risk_assessment overall_risk risk_category adjusted_coverage
               annual_premium monthly_premium item_risk location_risk)
      end
  end.

(** [total_items] of an inventory, and the inventories the data model
    admits: counts are not negative. *)
Definition total_count (items : list (string * Z)) : Z :=
  fold_right Z.add 0%Z (map snd items).

Definition counts_nonnegative (items : list (string * Z)) : Prop :=
  Forall (fun entry => (0 <= snd entry)%Z) items.

End RiskModel.

(* ===================================================================== *)
(** * Sentiment analyzer (sentiment_analyzer.py) *)
(* ===================================================================== *)

Module SentimentAnalyzer.
Import PyStr PyNum Regex.
Local Open Scope Q_scope.

Definition positive_words : list string :=
  [ "good"; "great"; "excellent"; "amazing"; "wonderful"; "fantastic";
    "helpful"; "satisfied"; "happy"; "pleased"; "love"; "like"; "best";
    "thank"; "thanks"; "appreciate"; "outstanding"; "perfect"; "awesome";
    "easy"; "clear"; "fast"; "quick"; "responsive"; "friendly"; "efficient" ].

Definition negative_words : list string :=
  [ "bad"; "poor"; "terrible"; "awful"; "horrible"; "disappointing";
    "frustrated"; "unhappy"; "dissatisfied"; "angry"; "upset"; "hate";
    "dislike"; "worst"; "slow"; "difficult"; "confusing"; "complicated";
    "expensive"; "overpriced"; "rude"; "unprofessional"; "inefficient";
    "problem"; "issue"; "complaint"; "error"; "mistake"; "delay"; "fail" ].

Definition neutral_words : list string :=
  [ "okay"; "ok"; "fine"; "average"; "neutral"; "fair"; "decent";
    "acceptable"; "moderate"; "standard"; "normal"; "regular"; "usual" ].

Definition emotion_words : list (string * list string) :=
  [ ("anger", ["angry"; "furious"; "outraged"; "mad"; "irritated"; "annoyed"]);
    ("frustration",
      ["frustrated"; "stuck"; "difficult"; "confusing"; "complicated"]);
    ("satisfaction", ["satisfied"; "pleased"; "content"; "happy"; "glad"]);
    ("confusion", ["confused"; "unclear"; "unsure"; "uncertain"; "puzzled"]);
    ("urgency",
      ["urgent"; "immediately"; "asap"; "emergency"; "quickly"; "soon"]) ].

Definition intensity_modifiers : list (string * Q) :=
  [ ("very", 1.5); ("extremely", 2.0); ("really", 1.5); ("somewhat", 0.5);
    ("slightly", 0.3); ("a bit", 0.3); ("absolutely", 2.0);
    ("completely", 1.8); ("totally", 1.8) ].

Record sentiment_result : Type := mk_sentiment_result {
  sentiment : string;
  sentiment_score : Q;
  positive_count : nat;
  negative_count : nat;
  neutral_count : nat;
  emotions : list (string * nat);
  key_phrases : list string
}.

(** [sum(1 for word in words if word in lexicon)] *)
Definition count_in (lexicon words : list string) : nat :=
  List.length (filter (fun w => mem w lexicon) words).

Definition Qnat (n : nat) : Q := inject_Z (Z.of_nat n).

(** [modifier\s+(\w+)] *)
Definition modifier_pattern (modifier : string) : pattern :=
  [Lit false modifier; Rep is_space 1 false; Rep is_word 1 true].

(** The words captured after a modifier, in order. *)
Definition following_words (modifier text : string) : list string :=
  flat_map (fun caps => caps) (findall (modifier_pattern modifier) text).

(** The inner loop: one adjustment for each captured word. *)
Definition adjust (multiplier : Q) (total_sentiment_words : nat)
    (score : Q) (word : string) : Q :=
  let step :=
    (multiplier - 1) *
    (if (0 <? total_sentiment_words)%nat
     then 1 / Qnat total_sentiment_words else 0.1) in
  if mem word positive_words then score + step
  else if mem word negative_words then score - step
  else score.

(** The loop over [self.intensity_modifiers.items()]. *)
Definition apply_modifier (text : string) (total_sentiment_words : nat)
    (score : Q) (entry : string * Q) : Q :=
  if contains (fst entry) text
  then fold_left (adjust (snd entry) total_sentiment_words)
         (following_words (fst entry) text) score
  else score.

(** [sorted(..., key=lambda x: x[1], reverse=True)]: larger counts first,
    and stable: [sort_desc] inserts the entries from the last to the first,
    each in front of those whose count is not larger, so that entries with
    equal counts keep their order. *)
Fixpoint insert_desc (e : string * nat) (l : list (string * nat))
  : list (string * nat) :=
  match l with
  | [] => [e]
  | x :: r => if (snd x <=? snd e)%nat then e :: l else x :: insert_desc e r
  end.

Definition sort_desc (l : list (string * nat)) : list (string * nat) :=
  fold_right insert_desc [] l.

Definition _extract_key_phrases (text : string) : list string :=
  let sentences :=
    filter (fun s => negb (is_empty s))
      (map strip (split_on sentence_end text)) in
  let keep (sentence : string) : bool :=
    let ws := words (lower sentence) in
    let has_sentiment :=
      existsb (fun w => mem w positive_words || mem w negative_words) ws in
    has_sentiment && (3 <=? List.length ws)%nat && (List.length ws <=? 15)%nat in
  firstn 3 (filter keep sentences).

Definition analyze_sentiment (text : string) : sentiment_result :=
  let text := lower text in
  let ws := words text in
  let positive_count := count_in positive_words ws in
  let negative_count := count_in negative_words ws in
  let neutral_count := count_in neutral_words ws in
  let total_sentiment_words :=
    (positive_count + negative_count + neutral_count)%nat in
  let sentiment_score :=
    if (total_sentiment_words =? 0)%nat then 0
    else (Qnat positive_count - Qnat negative_count)
         / Qnat total_sentiment_words in
  let sentiment_score :=
    fold_left (apply_modifier text total_sentiment_words)
      intensity_modifiers sentiment_score in
  let sentiment_score := Qmax (-1) (Qmin 1 sentiment_score) in
  let sentiment :=
    if Qltb 0.3 sentiment_score then "positive"
    else if Qltb sentiment_score (-0.3) then "negative"
    else "neutral" in
  let emotions :=
    filter (fun ec => (0 <? snd ec)%nat)
      (map (fun ew => (fst ew, count_in (snd ew) ws)) emotion_words) in
  let top_emotions := firstn 2 (sort_desc emotions) in
  mk_sentiment_result sentiment sentiment_score positive_count negative_count
    neutral_count top_emotions (_extract_key_phrases text).

End SentimentAnalyzer.

(* ===================================================================== *)
(** * Customer assistant (customer.py) *)
(* ===================================================================== *)

Module CustomerAssistant.
Import PyStr PyNum.

(** The table [categories] of [_categorize_query], in declaration order. *)
Definition categories : list (string * list string) :=
  [ ("policy_info",
      ["policy"; "coverage"; "covered"; "insured"; "premium"; "deductible"]);
    ("claim_status",
      ["claim"; "status"; "payment"; "reimbursement"; "approved"; "denied";
       "process"]);
    ("billing",
      ["bill"; "payment"; "pay"; "invoice"; "charge"; "fee"; "cost"; "price";
       "expensive"]);
    ("technical_support",
      ["website"; "app"; "login"; "password"; "reset"; "account"; "access";
       "error"]);
    ("coverage_question",
      ["cover"; "covered"; "include"; "protect"; "damage"; "loss"; "theft";
       "accident"]);
    ("complaint",
      ["unhappy"; "dissatisfied"; "disappointed"; "problem"; "issue"; "wrong";
       "mistake"; "error"; "complaint"]) ].

(** The score of one category: how many of its keywords occur in the text. *)
Definition keyword_score (keywords : list string) (query_lower : string) : nat :=
  List.length (filter (fun keyword => contains keyword query_lower) keywords).

Definition category_scores (query : string) : list (string * nat) :=
  let query_lower := lower query in
  map (fun ck => (fst ck, keyword_score (snd ck) query_lower)) categories.

Definition _categorize_query (query : string) : string :=
  let scores := category_scores query in
  let max_score := DocAnalyzer.list_max (map snd scores) in
  if (max_score =? 0)%nat then "general_inquiry"
  else
    let max_categories :=
      map fst (filter (fun cs => (snd cs =? max_score)%nat) scores) in
    hd "" max_categories.

(** The query of the scenario. *)
Definition deductible_query : string :=
  "What is my deductible and how do I pay my bill?".

End CustomerAssistant.

(* ===================================================================== *)
(** * Sample inputs *)
(* ===================================================================== *)

Module Samples.
Import PyStr PyDate.

Definition nl : string := String newline EmptyString.

(** Wednesday, 4 November 2026, at midnight. *)
Definition wednesday : datetime := mk_datetime (mk_date 2026 11 4) 0.

(** A claim on which all seven rules fire: reported on a Saturday, a short
    description naming a flood and a theft, sixteen items, no police
    report; the policy started ten days before the clock reading and the
    customer has four recent claims. *)
Definition hot_claim : FraudDetector.claim_data :=
  FraudDetector.mk_claim_data
    (Some "Flood and theft, everything stolen")
    (Some "2026-11-07")
    (Some (repeat "item" 16))
    None
    (Some false).

Definition hot_policy : FraudDetector.policy_data :=
  FraudDetector.mk_policy_data (Some "2026-10-25") None None.

Definition hot_history : FraudDetector.customer_history :=
  FraudDetector.mk_customer_history (Some 4%Z).

(** A policy that started nine days before the claim was reported, looked
    at long after both dates. *)
Definition january_policy : FraudDetector.policy_data :=
  FraudDetector.mk_policy_data (Some "2025-01-01") None None.

Definition january_claim : FraudDetector.claim_data :=
  FraudDetector.mk_claim_data
    (Some "Minor water damage from a leaking pipe")
    (Some "2025-01-10") (Some []) None (Some false).

(** Two label/value lines with the same key. *)
Definition two_names : string :=
  String.append "Name: Alice" (String.append nl "Name: Bob").

(** Four documents: one policy field and one claim field; two claim fields
    in capitals and over several blanks, and one policy field; two invoice
    fields; two receipt fields and one policy field. *)
Definition tied_document : string :=
  String.append "Policy Number: 123" (String.append nl "Claim number: 9").

Definition claim_document : string :=
  String.append "CLAIM NUMBER: 7"
    (String.append nl
       (String.append "Incident   date: 2025-01-01"
          (String.append nl "Policy number: 1"))).

Definition invoice_document : string := "Invoice Number 5, Amount Due 10".

Definition receipt_document : string :=
  "receipt number 3; amount paid 4; PREMIUM 9".

(** A vision narrative with twelve lines that mention an item. *)
Definition twelve_items : string :=
  String.concat nl (repeat "one damaged item" 12).

(** A store that keeps the log records, and collaborators that succeed. *)
Definition log_store : Type := list ClaimsProcessor.log_data.

Definition vision_ok (path : string) : outcome string := Returned twelve_items.

Definition vision_down (path : string) : outcome string :=
  Raised (OtherError "No such file or directory").

Definition create_ok (c : ClaimsProcessor.db_claim) (s : log_store)
  : outcome unit * log_store := (Returned tt, s).

Definition log_ok (l : ClaimsProcessor.log_data) (s : log_store)
  : outcome unit * log_store := (Returned tt, s ++ [l]).

Definition log_down (l : ClaimsProcessor.log_data) (s : log_store)
  : outcome unit * log_store := (Raised (OtherError "connection refused"), s).

End Samples.

(* ===================================================================== *)
(** * Fraud detector: the rule list *)
(* ===================================================================== *)

Module FraudDetectorRules.
Import PyDate FraudDetector.

(** The seven rules with their labels, in evaluation order. *)
Definition labelled_rules (now : datetime) (cd : claim_data)
    (pd : policy_data) (ch : customer_history) : list (bool * string) :=
  [ (_check_recent_policy now pd, "Recent policy creation");
    (_check_weekend_claim cd, "Claim filed on weekend");
    (_check_vague_description cd, "Vague claim description");
    (_check_excessive_items cd, "Excessive number of items claimed");
    (_check_multiple_claims ch, "Multiple recent claims");
    (_check_water_damage_no_weather cd,
       "Water damage claim without weather event");
    (_check_theft_no_police_report cd, "Theft claim without police report") ].

End FraudDetectorRules.

(* ===================================================================== *)
(** * Claims processor: the image analysis summary (claims.py) *)
(* ===================================================================== *)

Module ClaimsSummary.
Import PyStr ClaimsProcessor.

Definition summary_keywords : list string :=
  ["damage"; "item"; "object"; "identify"; "detect"; "risk"].

(** The stripped, non-empty sentences of the text. *)
Definition sentences_of (analysis_text : string) : list string :=
  filter (fun s => negb (is_empty s))
    (map strip (split_on sentence_end analysis_text)).

(** The sentences [_summarize_image_analysis] joins: the important ones,
    cut to five; the first three sentences when none is important. *)
Definition important_sentences (analysis_text : string) : list string :=
  let sentences := sentences_of analysis_text in
  let important_sentences :=
    filter (fun sentence => any_in summary_keywords (lower sentence))
      sentences in
  let important_sentences :=
    if (5 <? List.length important_sentences)%nat
    then firstn 5 important_sentences else important_sentences in
  if is_nil important_sentences && negb (is_nil sentences)
  then firstn 3 sentences else important_sentences.

Definition _summarize_image_analysis (analysis_text : string) : string :=
  String.append (String.concat ". " (important_sentences analysis_text)) ".".

End ClaimsSummary.

(* ===================================================================== *)
(** * Dates: the text of a year *)
(* ===================================================================== *)

Module PyDateText.
Import PyStr PyDate.
Local Open Scope Z_scope.

(** Whether [dec y] is four digits that read back as [y]. *)
Definition year_text_ok (y : Z) : bool :=
  match dec y with
  | String a (String b (String c (String d EmptyString))) =>
      match digit a, digit b, digit c, digit d with
      | Some va, Some vb, Some vc, Some vd =>
          1000 * va + 100 * vb + 10 * vc + vd =? y
      | _, _, _, _ => false
      end
  | _ => false
  end.

End PyDateText.

(* ===================================================================== *)
(** * Patterns that do not see letter case *)
(* ===================================================================== *)

Module RegexCase.
Import PyStr Regex.

(** An item whose matches do not change when letters change case: a
    literal compared under [re.IGNORECASE], a class that holds a character
    when it holds its lower-case form. *)
(** A text of ASCII characters only. *)
Definition ascii_only (s : string) : bool :=
  forallb (fun c => (code c <? 128)%nat) (list_ascii_of_string s).

Definition case_blind (it : item) : Prop :=
  match it with
  | Lit ci _ => ci = true
  | One p => forall c, p (lower_char c) = p c
  | Rep p _ _ => forall c, p (lower_char c) = p c
  | EndOfLine => True
  end.

End RegexCase.

(* ===================================================================== *)
(** * Document analyzer: what an entry of the mapping looks like *)
(* ===================================================================== *)

Module DocAnalyzerShape.
Import PyStr.

(** A key that is not empty, lower-case and stripped, with a value that is
    not empty and stripped. *)
Definition normalized_entry (kv : string * string) : Prop :=
  is_empty (fst kv) = false /\ lower (fst kv) = fst kv
  /\ strip (fst kv) = fst kv
  /\ is_empty (snd kv) = false /\ strip (snd kv) = snd kv.

End DocAnalyzerShape.

(* ===================================================================== *)
(** * Risk model: the weight of one location factor *)
(* ===================================================================== *)

Module RiskModelShape.
Import PyStr PyNum RiskModel.
Local Open Scope Q_scope.

(** [factor.lower() in self.location_risk_factors]: the factors the loop
    over the location factors multiplies by. *)
Definition weighted (factor : string) : bool :=
  match dict_get (lower factor) location_risk_factors with
  | Some _ => true
  | None => false
  end.

End RiskModelShape.

(* ===================================================================== *)
(** * Customer assistant: escalation priority (customer.py) *)
(* ===================================================================== *)

Module Escalation.
Import PyStr PyNum.
Local Open Scope Q_scope.

(** The priority [escalate_to_human] gives a query, from the two entries of
    the sentiment result it reads. *)
Definition escalation_priority (sentiment : string) (sentiment_score : Q)
  : string :=
  if String.eqb sentiment "negative" && Qltb sentiment_score (-0.5)
  then "High"
  else if String.eqb sentiment "positive" && Qltb 0.5 sentiment_score
  then "Low"
  else "Medium".

End Escalation.

(* ===================================================================== *)
(** * Sentiment analyzer: order of the reported emotions *)
(* ===================================================================== *)

Module SentimentShape.

(** Counts do not increase along the list. *)
Definition by_count_desc (a b : string * nat) : Prop := (snd b <= snd a)%nat.

End SentimentShape.

(* ===================================================================== *)
(** * Underwriting analyzer (underwriting.py) *)
(* ===================================================================== *)

Module Underwriting.
Import PyStr PyNum.
Local Open Scope Z_scope.

Definition coastal_cities : list string :=
  ["miami"; "new orleans"; "houston"; "tampa"; "charleston"].
Definition wildfire_areas : list string :=
  ["los angeles"; "san diego"; "phoenix"; "denver"; "portland"].
Definition earthquake_zones : list string :=
  ["san francisco"; "seattle"; "los angeles"; "portland"; "anchorage"].
Definition tornado_alley : list string :=
  ["oklahoma city"; "kansas city"; "dallas"; "st. louis"; "nashville"].
Definition flood_zones : list string :=
  ["new orleans"; "houston"; "miami"; "charleston"; "jacksonville"].
Definition major_cities : list string :=
  ["new york"; "los angeles"; "chicago"; "houston"; "phoenix";
   "philadelphia"; "san antonio"; "san diego"; "dallas"; "san jose"].

(** [factors.append(tag)] under a test. *)
Definition append_if (test : bool) (tag : string) (factors : list string)
  : list string :=
  if test then factors ++ [tag] else factors.

Definition _extract_location_factors (location : string) : list string :=
  let location_lower := lower location in
  let factors := [] in
  let factors :=
    append_if (any_in coastal_cities location_lower) "hurricane_prone" factors in
  let factors :=
    append_if (any_in wildfire_areas location_lower) "wildfire_prone" factors in
  let factors :=
    append_if (any_in earthquake_zones location_lower) "earthquake_prone"
      factors in
  let factors :=
    append_if (any_in tornado_alley location_lower) "tornado_prone" factors in
  let factors :=
    append_if (any_in flood_zones location_lower) "flood_zone" factors in
  if any_in major_cities location_lower then factors ++ ["urban"]
  else if contains "county" location_lower
          || contains "township" location_lower
       then factors ++ ["rural"]
       else factors ++ ["suburban"].

(** The inventory [_extract_items_from_analysis] starts from. *)
Definition empty_inventory : list (string * Z) :=
  [ ("electronics", 0); ("furniture", 0); ("appliances", 0); ("jewelry", 0);
    ("art", 0); ("sports_equipment", 0); ("musical_instruments", 0) ].

(** The keyword lists, each with the category it counts for, in the order
    of the seven loops. *)
Definition category_keywords : list (list string * string) :=
  [ (["tv"; "television"; "computer"; "laptop"; "phone"; "smartphone";
      "tablet"], "electronics");
    (["sofa"; "couch"; "chair"; "table"; "desk"; "bed"; "cabinet"; "shelf"],
     "furniture");
    (["refrigerator"; "fridge"; "oven"; "stove"; "microwave"; "washer";
      "dryer"], "appliances");
    (["jewelry"; "watch"; "ring"; "necklace"; "bracelet"], "jewelry");
    (["painting"; "sculpture"; "artwork"; "art"; "photograph"], "art");
    (["bicycle"; "bike"; "treadmill"; "weights"; "sports"],
     "sports_equipment");
    (["piano"; "guitar"; "instrument"; "musical"], "musical_instruments") ].

(** [items[category] += n] on an inventory that has the key. *)
Definition bump (category : string) (n : Z) (items : list (string * Z))
  : list (string * Z) :=
  map (fun entry => if String.eqb (fst entry) category
                    then (fst entry, snd entry + n) else entry) items.

(** [re.findall(r'\d+', line)[0]]: the first run of digits, if any. *)
Fixpoint first_number (line : string) : option string :=
  match line with
  | EmptyString => None
  | String c r =>
      if is_digit c then Some (take (run_length is_digit line) line)
      else first_number r
  end.

(** The value of a run of digits. *)
Definition digits_value (digits : string) : Z :=
  fold_left (fun v c => 10 * v + (Z.of_nat (code c) - 48))
    (list_ascii_of_string digits) 0.

(** [int(digits)]: CPython refuses, with a [ValueError], to convert more
    than 4300 digits. *)
Definition py_int (digits : string) : outcome Z :=
  if (4300 <? String.length digits)%nat
  then Raised
         (ValueError
            (String.append
               "Exceeds the limit (4300 digits) for integer string conversion: value has "
               (String.append (PyDate.dec (Z.of_nat (String.length digits)))
                  " digits; use sys.set_int_max_str_digits() to increase the limit")))
  else Returned (digits_value digits).

(** The first loop over a line: every category named in the line takes the
    first number of the line; the [continue] ends an iteration that is at
    its end anyway. *)
Definition count_named (line : string) (items : outcome (list (string * Z)))
    (category : string) : outcome (list (string * Z)) :=
  match items with
  | Raised e => Raised e
  | Returned items =>
      if contains category line then
        match first_number line with
        | Some digits =>
            match py_int digits with
            | Returned n => Returned (bump category n items)
            | Raised e => Raised e
            end
        | None => Returned items
        end
      else Returned items
  end.

(** The seven keyword loops over a line: one more item for a category one
    of whose keywords the line contains. *)
Definition count_keywords (line : string) (items : list (string * Z))
  : list (string * Z) :=
  fold_left
    (fun items kc => if any_in (fst kc) line then bump (snd kc) 1 items
                     else items)
    category_keywords items.

Definition count_line (items : outcome (list (string * Z))) (line : string)
  : outcome (list (string * Z)) :=
  match items with
  | Raised e => Raised e
  | Returned items0 =>
      match fold_left (count_named line) (map fst items0) (Returned items0) with
      | Raised e => Raised e
      | Returned items1 => Returned (count_keywords line items1)
      end
  end.

Definition _extract_items_from_analysis (analysis_text : string)
  : outcome (list (string * Z)) :=
  match fold_left count_line (split_lines (lower analysis_text))
          (Returned empty_inventory) with
  | Raised e => Raised e
  | Returned items => Returned (filter (fun entry => 0 <? snd entry) items)
  end.

(** The two extractions and the risk model, as [analyze_risk_from_image]
    chains them on the narrative of the vision service. *)
Definition risk_from_analysis (raw_analysis location : string)
  : outcome RiskModel.risk_assessment :=
  match _extract_items_from_analysis raw_analysis with
  | Raised e => Raised e
  | Returned items =>
      RiskModel.assess_risk items (_extract_location_factors location)
  end.

Definition _get_location_risks (location : string) : list string :=
  let location_lower := lower location in
  let risks := [] in
  let risks :=
    if any_in ["miami"; "new orleans"; "houston"; "tampa"; "charleston"]
         location_lower
    then risks ++ ["Hurricane and tropical storm risk"; "Flooding risk"]
    else risks in
  let risks :=
    if any_in ["los angeles"; "san diego"; "phoenix"; "denver"; "portland"]
         location_lower
    then risks ++ ["Wildfire risk"; "Drought conditions"] else risks in
  let risks :=
    if any_in ["san francisco"; "seattle"; "los angeles"; "portland";
               "anchorage"] location_lower
    then risks ++ ["Earthquake risk"] else risks in
  let risks :=
    if any_in ["oklahoma city"; "kansas city"; "dallas"; "st. louis";
               "nashville"] location_lower
    then risks ++ ["Tornado risk"; "Severe storm risk"] else risks in
  let risks :=
    if any_in ["new york"; "chicago"; "los angeles"] location_lower
    then risks ++ ["Urban crime risk"; "Higher property values"]
    else risks in
  match risks with
  | [] => ["Standard property risks"]
  | _ :: _ => risks
  end.

(** [any(w1 in risk or w2 in risk ... for risk in risks_lower)] *)
Definition any_risk_mentions (words risks_lower : list string) : bool :=
  existsb (fun risk => any_in words risk) risks_lower.

Definition _get_specific_recommendations (risks : list string)
  : list string :=
  let risks_lower := map lower risks in
  let recommendations := [] in
  let recommendations :=
    if any_risk_mentions ["water"; "flood"; "leak"] risks_lower
    then recommendations ++
         [ "Install water leak detectors";
           "Elevate valuable items in basement";
           "Check and maintain gutters and downspouts";
           "Consider a sump pump with battery backup" ]
    else recommendations in
  let recommendations :=
    if any_risk_mentions ["fire"; "electrical"] risks_lower
    then recommendations ++
         [ "Have electrical system inspected";
           "Don't overload electrical outlets";
           "Keep flammable materials away from heat sources";
           "Create a fire evacuation plan" ]
    else recommendations in
  let recommendations :=
    if any_risk_mentions ["theft"; "security"; "break"] risks_lower
    then recommendations ++
         [ "Install deadbolt locks on exterior doors";
           "Consider a security system with monitoring";
           "Use timer switches for lights when away";
           "Secure sliding doors with security bars" ]
    else recommendations in
  let recommendations :=
    if any_risk_mentions ["valuable"; "jewelry"; "art"] risks_lower
    then recommendations ++
         [ "Store valuables in a secure safe";
           "Consider additional scheduled personal property coverage";
           "Document valuables with photos and appraisals";
           "Install a security system with cameras" ]
    else recommendations in
  match recommendations with
  | [] =>
      [ "Conduct regular home maintenance checks";
        "Create a home inventory with photos";
        "Install quality locks on all doors and windows";
        "Consider a monitored security system" ]
  | _ :: _ => recommendations
  end.

(** [_format_list_items] *)
Definition _format_list_items (items : list string) : string :=
  match items with
  | [] => "None identified."
  | _ :: _ =>
      String.concat (String newline EmptyString)
        (map (fun item => String.append "- " item) items)
  end.

End Underwriting.

(* ===================================================================== *)
(** * Underwriting analyzer: inventories under construction *)
(* ===================================================================== *)

Module UnderwritingShape.
Import Underwriting.
Local Open Scope Z_scope.

(** An inventory with the seven categories, in table order, and no
    negative count. *)
Definition counting (items : list (string * Z)) : Prop :=
  map fst items = map fst empty_inventory
  /\ Forall (fun entry => 0 <= snd entry) items.

End UnderwritingShape.

(* ===================================================================== *)
(** * The record store (mock_supabase.py) *)
(* ===================================================================== *)

Module MockStore.
Import PyStr PyDate PyNum.

(** The values a record holds. *)
Inductive value : Type :=
| VStr (s : string)
| VNum (q : Q)
| VBool (b : bool)
| VNull.

(** A record is a dictionary. Dictionaries are objects: a table lists
    references to them, the store writes into the dictionary it is given,
    and a dictionary that is stored twice is one object. *)
Definition record : Type := list (string * value).

Definition ref : Type := nat.

(** The dictionaries alive, the next unused reference, and [self.tables].
    The files the tables are saved to are left out: a failure to write one
    is printed and changes nothing. *)
Record db : Type := mk_db {
  objects : ref -> record;
  unused : ref;
  policies : list ref;
  claims : list ref;
  agent_activities : list ref;
  escalations : list ref
}.

(** [d[key] = v] on the dictionary behind [d]. *)
Definition assign (d : ref) (key : string) (v : value)
    (objects : ref -> record) : ref -> record :=
  fun r => if Nat.eqb r d then dict_set key v (objects r) else objects r.

(** A dictionary display [{...}]: a new object. *)
Definition new_dict (data : record) (s : db) : ref * db :=
  (unused s,
   mk_db (fun r => if Nat.eqb r (unused s) then data else objects s r)
     (S (unused s)) (policies s) (claims s) (agent_activities s)
     (escalations s)).

(** [str(len(table) + 1)] *)
Definition next_id (table : list ref) : value :=
  VStr (dec (Z.of_nat (List.length table + 1))).

(** The three assignments [create_policy], [create_claim] and
    [create_escalation] make on the dictionary they are given; the two
    time stamps are the renderings of the two clock readings. *)
Definition stamped (table : list ref) (created_at updated_at : string)
    (d : ref) (objects : ref -> record) : ref -> record :=
  assign d "updated_at" (VStr updated_at)
    (assign d "created_at" (VStr created_at)
       (assign d "id" (next_id table) objects)).

Definition create_policy (created_at updated_at : string)
    (policy_data : ref) (s : db) : ref * db :=
  (policy_data,
   mk_db (stamped (policies s) created_at updated_at policy_data (objects s))
     (unused s) (policies s ++ [policy_data]) (claims s)
     (agent_activities s) (escalations s)).

Definition create_claim (created_at updated_at : string)
    (claim_data : ref) (s : db) : ref * db :=
  (claim_data,
   mk_db (stamped (claims s) created_at updated_at claim_data (objects s))
     (unused s) (policies s) (claims s ++ [claim_data])
     (agent_activities s) (escalations s)).

Definition log_agent_activity (created_at : string) (log_data : ref)
    (s : db) : ref * db :=
  (log_data,
   mk_db (assign log_data "created_at" (VStr created_at)
            (assign log_data "id" (next_id (agent_activities s)) (objects s)))
     (unused s) (policies s) (claims s) (agent_activities s ++ [log_data])
     (escalations s)).

Definition create_escalation (created_at updated_at : string)
    (escalation_data : ref) (s : db) : ref * db :=
  (escalation_data,
   mk_db (stamped (escalations s) created_at updated_at escalation_data
            (objects s))
     (unused s) (policies s) (claims s) (agent_activities s)
     (escalations s ++ [escalation_data])).

(** [record.get(key) == number] for a number given as a string. *)
Definition has_number (key number : string) (r : record) : bool :=
  match dict_get key r with
  | Some (VStr s) => String.eqb s number
  | _ => false
  end.

Definition get_policy_by_number (policy_number : string) (s : db)
  : option ref :=
  find (fun r => has_number "policy_number" policy_number (objects s r))
    (policies s).

Definition get_claim_by_number (claim_number : string) (s : db)
  : option ref :=
  find (fun r => has_number "claim_number" claim_number (objects s r))
    (claims s).

(** A table whose records carry their position, counted from one, as id. *)
Definition numbered (objects : ref -> record) (table : list ref) : Prop :=
  forall i r, nth_error table i = Some r ->
              dict_get "id" (objects r)
              = Some (VStr (dec (Z.of_nat (i + 1)))).

End MockStore.

(* ===================================================================== *)
(** * The claims processor on the record store *)
(* ===================================================================== *)

Module ClaimsOnStore.
Import PyStr PyNum ClaimsProcessor MockStore.

Section Encoding.

(** The dictionaries [process_claim] builds from a claim and from a log
    entry, and the renderings of the clock readings of the store. *)
Variable claim_record : db_claim -> record.
Variable log_record : log_data -> record.
Variable claim_created_at claim_updated_at log_created_at : string.

Definition store_claim (c : db_claim) (s : db) : outcome unit * db :=
  let (db_claim_data, s) := new_dict (claim_record c) s in
  (Returned tt,
   snd (create_claim claim_created_at claim_updated_at db_claim_data s)).

Definition store_log (l : log_data) (s : db) : outcome unit * db :=
  let (log_data, s) := new_dict (log_record l) s in
  (Returned tt, snd (log_agent_activity log_created_at log_data s)).

End Encoding.

End ClaimsOnStore.

(* ===================================================================== *)
(** * Policy look-up (policy_lookup.py) *)
(* ===================================================================== *)

Module PolicyLookup.
Import PyStr PyDate PyNum.
Local Open Scope Q_scope.

Record policy : Type := mk_policy {
  policy_number : string;
  policy_type : string;
  coverage_amount : Q;
  premium_amount : Q;
  start_date : string;
  end_date : string;
  status : string;
  holder_name : string;
  holder_email : string;
  holder_phone : string;
  holder_address : string;
  coverage_details : list (string * Q)
}.

(** [self.sample_policies], keyed by policy number. *)
Definition sample_policies : list (string * policy) :=
  [ ("POL-20250101-1234",
     mk_policy "POL-20250101-1234" "Home Insurance" 250000 1200
       "2025-01-01" "2026-01-01" "Active"
       "John Smith" "john.smith@example.com" "555-123-4567"
       "123 Main St, Anytown, USA"
       [ ("dwelling", 200000); ("personal_property", 100000);
         ("liability", 300000); ("deductible", 1000) ]);
    ("POL-20250215-5678",
     mk_policy "POL-20250215-5678" "Auto Insurance" 50000 800
       "2025-02-15" "2026-02-15" "Active"
       "Jane Doe" "jane.doe@example.com" "555-987-6543"
       "456 Oak Ave, Somewhere, USA"
       [ ("liability", 100000); ("collision", 25000);
         ("comprehensive", 25000); ("deductible", 500) ]);
    ("POL-20250320-9012",
     mk_policy "POL-20250320-9012" "Renters Insurance" 30000 300
       "2025-03-20" "2026-03-20" "Active"
       "Bob Johnson" "bob.johnson@example.com" "555-456-7890"
       "789 Pine St, Nowhere, USA"
       [ ("personal_property", 30000); ("liability", 100000);
         ("loss_of_use", 10000); ("deductible", 500) ]) ].

(** The dictionary [lookup_policy] returns. *)
Inductive lookup_result : Type :=
| Found (p : policy)
| FoundMany (ps : list policy)
| NotFound (error : string).

(** The truth value of an optional string argument: [None] and the empty
    string count as false. *)
Definition given (arg : option string) : bool :=
  match arg with
  | Some s => negb (is_empty s)
  | None => false
  end.

Definition name_match (policyholder_name : option string) (p : policy) : bool :=
  match policyholder_name with
  | Some n => negb (is_empty n) && contains (lower n) (lower (holder_name p))
  | None => false
  end.

Definition email_match (policyholder_email : option string) (p : policy)
  : bool :=
  match policyholder_email with
  | Some e => negb (is_empty e)
              && String.eqb (lower e) (lower (holder_email p))
  | None => false
  end.

Definition lookup_policy
    (policy_number policyholder_name policyholder_email : option string)
  : lookup_result :=
  let by_number :=
    match policy_number with
    | Some n => if negb (is_empty n) then dict_get n sample_policies else None
    | None => None
    end in
  match by_number with
  | Some p => Found p
  | None =>
      let matching_policies :=
        if given policyholder_name || given policyholder_email
        then filter (fun p => name_match policyholder_name p
                              || email_match policyholder_email p)
               (map snd sample_policies)
        else [] in
      match matching_policies with
      | _ :: _ => FoundMany matching_policies
      | [] => NotFound "No matching policy found"
      end
  end.

(** [(end_date - datetime.now()).days], [end_date] taken at midnight. *)
Definition days_until (now : datetime) (end_day : date) : Z :=
  ((toordinal end_day - toordinal (dt_date now)) * micros_per_day
   - dt_micro now) / micros_per_day.

(** The entry [days_remaining] of [get_coverage_summary]: a number of days,
    or [None] for the text "Unknown" that stands in when the end date
    cannot be read. *)
Definition days_remaining (now : datetime) (p : policy) : option Z :=
  match strptime_Ymd (end_date p) with
  | Some end_day => Some (days_until now end_day)
  | None => None
  end.

End PolicyLookup.

(* ===================================================================== *)
(** * Properties *)
(* ===================================================================== *)

(** ** Numbers *)

Module PyNumFacts.
Import PyNum.
Local Open Scope Q_scope.

Lemma Qltb_lt (a b : Q) : Qltb a b = true <-> a < b.
Proof.
  unfold Qltb. rewrite negb_true_iff. split; intro H.
  - apply Qnot_le_lt. intro L. apply Qle_bool_iff in L. congruence.
  - destruct (Qle_bool b a) eqn:E; [|reflexivity].
    apply Qle_bool_iff in E. exfalso. exact (Qle_not_lt _ _ E H).
Qed.

Lemma Qltb_ge (a b : Q) : Qltb a b = false <-> b <= a.
Proof.
  unfold Qltb. rewrite negb_false_iff. apply Qle_bool_iff.
Qed.

(** The clamp [max(lo, min(hi, x))] lands between its bounds. *)
Lemma clamp_bounds (lo hi x : Q) :
  lo <= hi -> lo <= Qmax lo (Qmin hi x) /\ Qmax lo (Qmin hi x) <= hi.
Proof.
  intro H. split.
  - apply Q.le_max_l.
  - apply Q.max_lub; [exact H | apply Q.le_min_l].
Qed.

End PyNumFacts.

(** ** Fraud detector *)

Module FraudDetectorFacts.
Import PyStr PyDate PyNum PyNumFacts FraudDetector.
Local Open Scope Q_scope.

Lemma categorize_high (n : Q) : categorize n = "High" <-> 0.7 < n.
Proof.
  unfold categorize. destruct (Qltb 0.7 n) eqn:H.
  - apply Qltb_lt in H. tauto.
  - apply Qltb_ge in H. split.
    + destruct (Qltb 0.3 n); discriminate.
    + intro L. exfalso. exact (Qle_not_lt _ _ H L).
Qed.

Lemma categorize_medium (n : Q) :
  categorize n = "Medium" <-> 0.3 < n /\ n <= 0.7.
Proof.
  unfold categorize. destruct (Qltb 0.7 n) eqn:H.
  - apply Qltb_lt in H. split; [discriminate|].
    intros [_ L]. exfalso. exact (Qle_not_lt _ _ L H).
  - apply Qltb_ge in H. destruct (Qltb 0.3 n) eqn:M.
    + apply Qltb_lt in M. tauto.
    + apply Qltb_ge in M. split; [discriminate|].
      intros [L _]. exfalso. exact (Qle_not_lt _ _ M L).
Qed.

Lemma categorize_low (n : Q) : categorize n = "Low" <-> n <= 0.3.
Proof.
  unfold categorize. destruct (Qltb 0.7 n) eqn:H.
  - apply Qltb_lt in H. split; [discriminate|].
    intro L. exfalso. apply (Qle_not_lt _ _ L).
    apply Qlt_trans with (y := 0.7); [reflexivity | exact H].
  - destruct (Qltb 0.3 n) eqn:M.
    + apply Qltb_lt in M. split; [discriminate|].
      intro L. exfalso. exact (Qle_not_lt _ _ L M).
    + apply Qltb_ge in M. tauto.
Qed.

(** The running sum of [detect_fraud] is the sum of the weights that the
    specification's table gives the triggered rules, and is not negative. *)
Lemma accumulated_score (b1 b2 b3 b4 b5 b6 b7 : bool) :
  let st := (0, @nil string) in
  let st := if b1 then found st (indicator "timing" "recent_policy") "1" else st in
  let st := if b2 then found st (indicator "timing" "weekend_claim") "2" else st in
  let st := if b3 then found st (indicator "content" "vague_description") "3" else st in
  let st := if b4 then found st (indicator "content" "excessive_items") "4" else st in
  let st := if b5 then found st (indicator "history" "multiple_claims") "5" else st in
  let st := if b6 then found st (indicator "red_flags" "water_damage_no_weather") "6" else st in
  let st := if b7 then found st (indicator "red_flags" "theft_no_police_report") "7" else st in
  fst st ==
    fold_right (fun (r : bool * Q) acc => if fst r then snd r + acc else acc) 0
      [(b1, 0.7); (b2, 0.3); (b3, 0.6); (b4, 0.5); (b5, 0.7); (b6, 0.7); (b7, 0.8)]
  /\ 0 <= fst st.
Proof.
  destruct b1, b2, b3, b4, b5, b6, b7; vm_compute; split;
    solve [reflexivity | discriminate].
Qed.

Lemma fraud_score_unfold now cd pd ch :
  exists raw : Q,
    fraud_score (detect_fraud now cd pd ch) = Qmin (raw / 5) 1
    /\ raw == spec_raw_score now cd pd ch /\ 0 <= raw.
Proof.
  unfold detect_fraud, spec_raw_score, spec_rules.
  pose proof (accumulated_score (_check_recent_policy now pd)
    (_check_weekend_claim cd) (_check_vague_description cd)
    (_check_excessive_items cd) (_check_multiple_claims ch)
    (_check_water_damage_no_weather cd) (_check_theft_no_police_report cd)) as H.
  destruct (_check_recent_policy now pd), (_check_weekend_claim cd),
    (_check_vague_description cd), (_check_excessive_items cd),
    (_check_multiple_claims ch), (_check_water_damage_no_weather cd),
    (_check_theft_no_police_report cd);
    (eexists; split; [reflexivity | exact H]).
Qed.

(** C2. For every claim, policy, history and clock reading, [detect_fraud]
    returns the score [min(raw_score / 5.0, 1.0)], where [raw_score] adds
    up the weights of the triggered rules; the score lies in [0, 1]; the
    category is High exactly when the score exceeds 0.7, Medium exactly
    when it exceeds 0.3 without exceeding 0.7, and Low otherwise. *)
Theorem detect_fraud_score_and_category
    (now : datetime) (cd : claim_data) (pd : policy_data)
    (ch : customer_history) :
  let r := detect_fraud now cd pd ch in
  fraud_score r == Qmin (spec_raw_score now cd pd ch / 5) 1
  /\ 0 <= fraud_score r /\ fraud_score r <= 1
  /\ (risk_category r = "High" <-> 0.7 < fraud_score r)
  /\ (risk_category r = "Medium" <->
        0.3 < fraud_score r /\ fraud_score r <= 0.7)
  /\ (risk_category r = "Low" <-> fraud_score r <= 0.3).
Proof.
  intro r. subst r.
  destruct (fraud_score_unfold now cd pd ch) as (raw & E & R & P).
  assert (C : risk_category (detect_fraud now cd pd ch)
              = categorize (fraud_score (detect_fraud now cd pd ch)))
    by reflexivity.
  rewrite C. clear C. rewrite E.
  split; [|split; [|split; [|split; [|split]]]].
  - rewrite R. reflexivity.
  - apply Q.min_glb; [|discriminate].
    apply Qle_shift_div_l; [reflexivity|]. rewrite Qmult_0_l. exact P.
  - apply Q.le_min_r.
  - apply categorize_high.
  - apply categorize_medium.
  - apply categorize_low.
Qed.

End FraudDetectorFacts.

Module RecentPolicyFacts.
Import PyStr PyDate PyNum FraudDetector Samples.

(** Refutes C4 on the code. The rule compares [policy.start_date] with the
    clock, not with [claim.report_date]: for a policy that started nine days
    before the claim was reported the specification's trigger holds, while
    [_check_recent_policy] read on 4 November 2026 does not fire and
    [detect_fraud] leaves the indicator out; read on the report date itself
    the same inputs make it fire, so the outcome is not a function of the
    two date fields. *)
Theorem recent_policy_compares_with_clock :
  spec_recent_policy january_claim january_policy = true
  /\ _check_recent_policy wednesday january_policy = false
  /\ ~ In "Recent policy creation"
         (indicators_found
            (detect_fraud wednesday january_claim january_policy
               (mk_customer_history None)))
  /\ _check_recent_policy (mk_datetime (mk_date 2025 1 10) 0) january_policy
     = true.
Proof.
  split; [vm_compute; reflexivity|].
  split; [vm_compute; reflexivity|].
  split; [|vm_compute; reflexivity].
  intro H. vm_compute in H.
  repeat (destruct H as [H|H]; [discriminate H|]). exact H.
Qed.

End RecentPolicyFacts.

(** ** Claims processor *)

Module ClaimsProcessorFacts.
Import PyStr PyDate PyNum PyNumFacts ClaimsProcessor Samples.
Local Open Scope Q_scope.

Lemma claim_status_for_cases (s : Q) :
  (s <= 0.5 /\ claim_status_for s = "Approved")
  \/ (0.5 < s /\ claim_status_for s = "Under Review").
Proof.
  unfold claim_status_for. destruct (Qltb 0.5 s) eqn:H.
  - right. apply Qltb_lt in H. split; [exact H | reflexivity].
  - left. apply Qltb_ge in H. split; [exact H|].
    destruct (Qltb 0.7 s) eqn:G; [|reflexivity].
    apply Qltb_lt in G. exfalso. apply (Qle_not_lt _ _ H).
    apply Qlt_trans with (y := 0.7); [reflexivity | exact G].
Qed.

(** The status decision taken alone. The [elif] on 0.7 sits under the
    [if] on 0.5, so no score reaches it: a score of 0.8 gives
    "Under Review", as does the score 0.86 that [detect_fraud] returns when
    all seven rules fire, and no score at all gives "Rejected". *)
Lemma status_is_never_rejected :
  claim_status_for 0.8 = "Under Review"
  /\ (let r := FraudDetector.detect_fraud wednesday hot_claim hot_policy
                 hot_history in
      FraudDetector.fraud_score r == 0.86
      /\ claim_status_for (FraudDetector.fraud_score r) = "Under Review")
  /\ (forall s : Q, claim_status_for s <> "Rejected").
Proof.
  split; [reflexivity|]. split; [split; vm_compute; reflexivity|].
  intro s. destruct (claim_status_for_cases s) as [[_ E]|[_ E]];
    rewrite E; discriminate.
Qed.

(** The extraction keeps at most ten items. *)
Lemma extract_items_at_most_ten (analysis_text : string) :
  (List.length (_extract_items_from_analysis analysis_text) <= 10)%nat.
Proof.
  unfold _extract_items_from_analysis. rewrite length_firstn.
  apply Nat.le_min_l.
Qed.

Lemma prepared_items_not_excessive now_report claim_description raw_analysis :
  FraudDetector._check_excessive_items
    (prepare_claim_data now_report claim_description raw_analysis) = false.
Proof.
  unfold FraudDetector._check_excessive_items, prepare_claim_data. simpl.
  apply Nat.ltb_ge.
  pose proof (extract_items_at_most_ten raw_analysis). lia.
Qed.

(** The label of the "Excessive items" rule is listed only when the rule
    fired. *)
Lemma excessive_label_needs_rule now cd pd ch :
  FraudDetector._check_excessive_items cd = false ->
  ~ In "Excessive number of items claimed"
      (FraudDetector.indicators_found (FraudDetector.detect_fraud now cd pd ch)).
Proof.
  intro E. unfold FraudDetector.detect_fraud. rewrite E.
  destruct (FraudDetector._check_recent_policy now pd),
    (FraudDetector._check_weekend_claim cd),
    (FraudDetector._check_vague_description cd),
    (FraudDetector._check_multiple_claims ch),
    (FraudDetector._check_water_damage_no_weather cd),
    (FraudDetector._check_theft_no_police_report cd);
    cbn; intro H;
    repeat (destruct H as [H|H]; [discriminate H|]); exact H.
Qed.

(** What [assess_claim] returns: it raises nothing, and its fields are those
    of [detect_fraud] on the prepared claim. *)
Lemma assess_claim_returns now_report now_check policy_number
    claim_description raw_analysis :
  let cd := prepare_claim_data now_report claim_description raw_analysis in
  let fr := FraudDetector.detect_fraud now_check cd
              (_get_policy_data policy_number)
              (_get_customer_history "john.smith@example.com") in
  assess_claim now_report now_check policy_number claim_description
    raw_analysis
  = Returned
      (mk_claim_assessment policy_number
         (claim_status_for (FraudDetector.fraud_score fr))
         (FraudDetector.fraud_score fr)
         (FraudDetector.indicators_found fr)
         (Qmax 0
            (Qmin
               (fold_right Qplus 0
                  (map _get_item_value
                     (_extract_items_from_analysis raw_analysis)) + 1000)
               250000 - 1000))
         (_extract_items_from_analysis raw_analysis)
         (_get_next_steps (claim_status_for (FraudDetector.fraud_score fr)))).
Proof. reflexivity. Qed.

(** With the fixed policy and history of [_get_policy_data] and
    [_get_customer_history], and at most ten items, five rules at most
    fire: the scores [process_claim] meets stay at or below 0.62. *)
Lemma assessed_score_at_most_062 now_report now_check policy_number
    claim_description raw_analysis a :
  assess_claim now_report now_check policy_number claim_description
    raw_analysis = Returned a ->
  fraud_score a <= 0.62.
Proof.
  intro E. rewrite assess_claim_returns in E. injection E as E. subst a.
  cbn [fraud_score]. unfold FraudDetector.detect_fraud.
  rewrite prepared_items_not_excessive.
  destruct (FraudDetector._check_recent_policy now_check
              (_get_policy_data policy_number)),
    (FraudDetector._check_weekend_claim
       (prepare_claim_data now_report claim_description raw_analysis)),
    (FraudDetector._check_vague_description
       (prepare_claim_data now_report claim_description raw_analysis)),
    (FraudDetector._check_water_damage_no_weather
       (prepare_claim_data now_report claim_description raw_analysis)),
    (FraudDetector._check_theft_no_police_report
       (prepare_claim_data now_report claim_description raw_analysis));
    vm_compute; discriminate.
Qed.

(** The status of an assessed claim is the decision on its score. *)
Lemma assessed_status now_report now_check policy_number
    claim_description raw_analysis a :
  assess_claim now_report now_check policy_number claim_description
    raw_analysis = Returned a ->
  status a = claim_status_for (fraud_score a).
Proof.
  intro E. rewrite assess_claim_returns in E. injection E as E. subst a.
  reflexivity.
Qed.

(** The decision on a score that is at most 0.62. *)
Lemma status_up_to_062 (s : Q) :
  s <= 0.62 ->
  (claim_status_for s = "Approved" <-> s <= 0.5)
  /\ (claim_status_for s = "Under Review" <-> 0.5 < s /\ s <= 0.7)
  /\ claim_status_for s <> "Rejected".
Proof.
  intro B.
  assert (B7 : s <= 0.7)
    by (apply Qle_trans with (y := 0.62); [exact B | discriminate]).
  destruct (claim_status_for_cases s) as [[L E]|[G E]]; rewrite E.
  - split; [tauto|]. split; [|discriminate].
    split; [discriminate|]. intros [G _]. exfalso.
    exact (Qle_not_lt _ _ L G).
  - split; [|split; [tauto | discriminate]].
    split; [discriminate|]. intro L. exfalso. exact (Qle_not_lt _ _ L G).
Qed.

Section Runs.
Variable store : Type.
Variable analyze_image : string -> outcome string.
Variable create_claim : db_claim -> store -> outcome unit * store.
Variable log_agent_activity : log_data -> store -> outcome unit * store.

Local Abbreviation run :=
  (process_claim store analyze_image create_claim log_agent_activity).
Local Abbreviation body :=
  (process_claim_body store analyze_image create_claim log_agent_activity).

(** The logging helper swallows every failure of the store. *)
Lemma log_never_raises action input output ok (s : store) :
  exists s', _log_agent_activity store log_agent_activity action input
               output ok s = (Returned tt, s').
Proof.
  unfold _log_agent_activity, try_except, ret.
  destruct (log_agent_activity _ s) as [[[]|e] s']; eauto.
Qed.

(** A run that succeeds went through the vision service and
    [assess_claim]. *)
Lemma success_inversion nr nc ip pn desc (s s' : store) r a :
  run nr nc ip pn desc s = (Returned r, s') ->
  assessment r = Some a ->
  exists raw, analyze_image ip = Returned raw
              /\ assess_claim nr nc pn desc raw = Returned a.
Proof.
  unfold process_claim, process_claim_body, _log_agent_activity,
    try_except, bind, lift, ret.
  destruct (analyze_image ip) as [raw|e];
    [destruct (assess_claim nr nc pn desc raw) as [a0|e] eqn:EA|];
    repeat match goal with
      | |- context [create_claim ?c ?t] =>
          destruct (create_claim c t) as [[[]|?] ?]
      | |- context [log_agent_activity ?l ?t] =>
          destruct (log_agent_activity l t) as [[[]|?] ?]
      end;
    intros H1 H2; inversion H1; subst; simpl in H2;
    try discriminate H2; inversion H2; subst;
    (exists raw; split; [reflexivity | exact EA]).
Qed.

(** C1, as amended. For every claim [process_claim] assesses, the status
    is the decision [claim_status_for] takes on the fraud score: it is
    "Approved" exactly when the score is at most 0.5 and "Under Review"
    exactly when it is above 0.5 (and then at most 0.7); the score never
    exceeds 0.62, so no score above 0.7 arises and the status is never
    "Rejected". *)
Theorem processed_claim_status nr nc ip pn desc (s s' : store) r a :
  run nr nc ip pn desc s = (Returned r, s') ->
  assessment r = Some a ->
  status a = claim_status_for (fraud_score a)
  /\ (status a = "Approved" <-> fraud_score a <= 0.5)
  /\ (status a = "Under Review"
      <-> 0.5 < fraud_score a /\ fraud_score a <= 0.7)
  /\ fraud_score a <= 0.62
  /\ status a <> "Rejected".
Proof.
  intros R A.
  destruct (success_inversion nr nc ip pn desc s s' r a R A)
    as (raw & _ & E).
  pose proof (assessed_score_at_most_062 nr nc pn desc raw a E) as B.
  split; [exact (assessed_status nr nc pn desc raw a E)|].
  rewrite (assessed_status nr nc pn desc raw a E).
  destruct (status_up_to_062 (fraud_score a) B) as (H1 & H2 & H3).
  split; [exact H1|]. split; [exact H2|]. split; [exact B | exact H3].
Qed.

(** C3. Whatever the vision service and the store do, [process_claim]
    returns a result and raises nothing; when a step of its body raises
    [e], the result has [success = False] and carries [str(e)] as its
    error, and when the body returns, that is the result. *)
Theorem process_claim_never_raises nr nc ip pn desc (s : store) :
  exists r s',
    run nr nc ip pn desc s = (Returned r, s')
    /\ (forall e s1, body nr nc ip pn desc s = (Raised e, s1) ->
          success r = false /\ assessment r = None
          /\ error r = Some (str_of e))
    /\ (forall r0 s1, body nr nc ip pn desc s = (Returned r0, s1) ->
          r = r0 /\ s' = s1).
Proof.
  unfold process_claim, try_except at 1.
  destruct (body nr nc ip pn desc s) as [[r0|e] s1] eqn:B.
  - exists r0, s1. split; [reflexivity|]. split.
    + intros e s2 H. discriminate H.
    + intros r1 s2 H. inversion H. split; reflexivity.
  - unfold bind.
    destruct (log_never_raises "Claim Processing" (ip, pn, desc)
                (inr (str_of e)) false s1) as [s2 L].
    rewrite L. unfold ret.
    eexists. exists s2. split; [reflexivity|]. split.
    + intros e0 s3 H. inversion H. subst. simpl. repeat split.
    + intros r1 s3 H. discriminate H.
Qed.

(** C10. A claim that [process_claim] assesses carries the items
    extracted from the vision narrative, at most ten of them; the
    "Excessive items" rule, which asks for more than fifteen, does not
    fire on it, and its label is not among the fraud indicators. *)
Theorem process_claim_never_excessive_items nr nc ip pn desc
    (s s' : store) r a :
  run nr nc ip pn desc s = (Returned r, s') ->
  assessment r = Some a ->
  exists raw,
    analyze_image ip = Returned raw
    /\ items_claimed a = _extract_items_from_analysis raw
    /\ (List.length (items_claimed a) <= 10)%nat
    /\ FraudDetector._check_excessive_items
         (prepare_claim_data nr desc raw) = false
    /\ ~ In "Excessive number of items claimed" (fraud_indicators a).
Proof.
  intros R A.
  destruct (success_inversion nr nc ip pn desc s s' r a R A)
    as (raw & V & E).
  rewrite assess_claim_returns in E. injection E as E. subst a.
  exists raw. cbn [items_claimed fraud_indicators].
  split; [exact V|]. split; [reflexivity|].
  split; [apply extract_items_at_most_ten|].
  split; [apply prepared_items_not_excessive|].
  exact (excessive_label_needs_rule nc (prepare_claim_data nr desc raw)
           (_get_policy_data pn)
           (_get_customer_history "john.smith@example.com")
           (prepared_items_not_excessive nr desc raw)).
Qed.

End Runs.

(** Two runs of C3. With the vision service down the failure comes back as
    a result, also when the store refuses the log record; with everything up
    the claim is assessed and one record is logged. *)
Example process_claim_runs :
  process_claim log_store vision_down create_ok log_down wednesday wednesday
    "a.jpg" "P1" "Theft" []
  = (Returned (mk_claim_result false None (Some "No such file or directory")),
     [])
  /\ (exists a l,
        process_claim log_store vision_ok create_ok log_ok wednesday wednesday
          "a.jpg" "P1" "Theft" []
        = (Returned (mk_claim_result true (Some a) None), [l])
        /\ status a = "Approved" /\ log_success l = true).
Proof.
  split; [reflexivity|].
  eexists. eexists. split; [vm_compute; reflexivity|].
  split; reflexivity.
Qed.

(** Refutes C1 as stated: whatever the vision service, the store and the
    clock do, no claim that [process_claim] assesses comes out "Rejected",
    so there is no fraud score above 0.7 for which the status is
    "Rejected". *)
Lemma no_processed_claim_is_rejected :
  ~ exists (store : Type) (analyze_image : string -> outcome string)
      (create_claim : db_claim -> store -> outcome unit * store)
      (log_agent_activity : log_data -> store -> outcome unit * store)
      (nr nc : datetime) (ip pn desc : string) (s s' : store)
      (r : claim_result) (a : claim_assessment),
      process_claim store analyze_image create_claim log_agent_activity
        nr nc ip pn desc s = (Returned r, s')
      /\ assessment r = Some a
      /\ status a = "Rejected".
Proof.
  intros (store & analyze_image & create_claim & log_agent_activity
          & nr & nc & ip & pn & desc & s & s' & r & a & R & A & St).
  destruct (success_inversion store analyze_image create_claim
              log_agent_activity nr nc ip pn desc s s' r a R A)
    as (raw & _ & E).
  pose proof (assessed_score_at_most_062 nr nc pn desc raw a E) as B.
  rewrite (assessed_status nr nc pn desc raw a E) in St.
  destruct (status_up_to_062 (fraud_score a) B) as (_ & _ & H3).
  exact (H3 St).
Qed.

(** A run of C1 with the highest score [process_claim] can meet: on
    Saturday, 4 January 2025, three days into the policy, a short
    description naming a theft and water damage makes five rules fire;
    the score is 0.62 and the claim goes under review. *)
Lemma processed_claim_status_run :
  exists r s' a,
    process_claim log_store vision_ok create_ok log_ok
      (mk_datetime (mk_date 2025 1 4) 0) (mk_datetime (mk_date 2025 1 4) 0)
      "a.jpg" "P1" "Theft after water damage" [] = (Returned r, s')
    /\ assessment r = Some a
    /\ fraud_score a == 0.62
    /\ status a = "Under Review"
    /\ status a = claim_status_for (fraud_score a)
    /\ (status a = "Approved" <-> fraud_score a <= 0.5)
    /\ (status a = "Under Review"
        <-> 0.5 < fraud_score a /\ fraud_score a <= 0.7)
    /\ fraud_score a <= 0.62
    /\ status a <> "Rejected".
Proof.
  eexists. eexists. eexists.
  split; [vm_compute; reflexivity|].
  split; [reflexivity|].
  split; [vm_compute; reflexivity|].
  split; [vm_compute; reflexivity|].
  eapply (processed_claim_status log_store vision_ok create_ok log_ok
            (mk_datetime (mk_date 2025 1 4) 0)
            (mk_datetime (mk_date 2025 1 4) 0)
            "a.jpg" "P1" "Theft after water damage" []);
    vm_compute; reflexivity.
Defined.

(** A run of C10: twelve lines of the narrative name an item, ten are
    kept. *)
Lemma process_claim_never_excessive_items_run :
  exists r s' a,
    process_claim log_store vision_ok create_ok log_ok wednesday wednesday
      "a.jpg" "P1" "Theft" [] = (Returned r, s')
    /\ assessment r = Some a
    /\ List.length (items_claimed a) = 10%nat
    /\ exists raw,
         vision_ok "a.jpg" = Returned raw
         /\ items_claimed a = _extract_items_from_analysis raw
         /\ (List.length (items_claimed a) <= 10)%nat
         /\ FraudDetector._check_excessive_items
              (prepare_claim_data wednesday "Theft" raw) = false
         /\ ~ In "Excessive number of items claimed" (fraud_indicators a).
Proof.
  eexists. eexists. eexists.
  split; [vm_compute; reflexivity|].
  split; [reflexivity|].
  split; [reflexivity|].
  eapply (process_claim_never_excessive_items log_store vision_ok create_ok
            log_ok wednesday wednesday "a.jpg" "P1" "Theft" []);
    vm_compute; reflexivity.
Defined.

End ClaimsProcessorFacts.

(** ** Highest score, first declared *)

Module HighestFirstFacts.
Import PyNum DocAnalyzer.
Local Open Scope nat_scope.

Lemma list_max_upper (l : list nat) :
  Forall (fun n => n <= list_max l) l.
Proof.
  induction l as [|n l IH]; simpl; constructor.
  - apply Nat.le_max_l.
  - eapply Forall_impl; [|exact IH]. simpl. intros m H.
    etransitivity; [exact H | apply Nat.le_max_r].
Qed.

Lemma list_max_attained (l : list nat) :
  list_max l <> 0 -> In (list_max l) l.
Proof.
  induction l as [|n l IH]; simpl; intro H.
  - congruence.
  - destruct (Nat.max_spec n (list_max l)) as [[L E]|[L E]]; rewrite E in *.
    + right. apply IH. lia.
    + left. reflexivity.
Qed.

(** The first element of a list that passes a test cuts the list in two. *)
Lemma first_passing {A : Type} (p : A -> bool) (l : list A) :
  (exists x, In x l /\ p x = true) ->
  exists before x after,
    l = before ++ x :: after
    /\ Forall (fun y => p y = false) before
    /\ p x = true
    /\ filter p l = x :: filter p after.
Proof.
  induction l as [|y l IH]; intros (x & I & P).
  - destruct I.
  - destruct (p y) eqn:Y.
    + exists [], y, l. simpl. rewrite Y. auto.
    + destruct I as [->|I]; [congruence|].
      destruct IH as (b & z & a & E & F & Pz & G); [eauto|].
      exists (y :: b), z, a. simpl. rewrite Y, E at 1.
      repeat split; auto.
Qed.

(** The three lines shared by [_identify_document_type] and
    [_categorize_query]: with a positive maximum, the entry picked is the
    first one holding it. *)
Lemma highest_first (scores : list (string * nat)) :
  let m := list_max (map snd scores) in
  (m = 0 /\ Forall (fun ts => snd ts = 0) scores)
  \/ (exists before t after,
        scores = before ++ (t, m) :: after
        /\ 0 < m
        /\ Forall (fun ts => snd ts < m) before
        /\ Forall (fun ts => snd ts <= m) after
        /\ hd "" (map fst (filter (fun ts => snd ts =? m) scores)) = t).
Proof.
  intro m.
  assert (U : Forall (fun ts : string * nat => snd ts <= m) scores).
  { pose proof (list_max_upper (map snd scores)) as H.
    rewrite Forall_map in H. exact H. }
  destruct (Nat.eq_dec m 0) as [Z|NZ].
  - left. split; [exact Z|]. eapply Forall_impl; [|exact U].
    simpl. intros. lia.
  - right.
    destruct (first_passing (fun ts : string * nat => snd ts =? m) scores)
      as (b & [t n] & a & E & F & P & G).
    { pose proof (list_max_attained (map snd scores) NZ) as I.
      apply in_map_iff in I. destruct I as (x & Ex & Ix).
      exists x. split; [exact Ix|]. apply Nat.eqb_eq. exact Ex. }
    simpl in P. apply Nat.eqb_eq in P. subst n.
    exists b, t, a. rewrite G. rewrite E in U.
    apply Forall_app in U. destruct U as [Ub Ua].
    apply Forall_cons_iff in Ua. destruct Ua as [_ Ua].
    repeat split; auto; try lia.
    rewrite Forall_forall in *. intros x I.
    specialize (F x I). specialize (Ub x I). simpl in F.
    apply Nat.eqb_neq in F. lia.
Qed.

End HighestFirstFacts.

(** ** Document analyzer *)

Module DocAnalyzerFacts.
Import PyStr PyNum Regex DocAnalyzer HighestFirstFacts Samples.
Local Open Scope nat_scope.

(** C8. The type [analyze_document] reports: the types are scored in the
    order policy, claim, invoice, receipt, each by the number of its
    patterns found in the text without regard to case; either every score
    is zero and the type is "unknown", or the type is the first one in that
    order holding the highest score; the empty text is "unknown". The
    scores are those of the patterns: a text with one policy field and one
    claim field scores 1, 1, 0, 0 and is a policy, the first of the two;
    two claim fields, in capitals and over several blanks, beat one policy
    field; two invoice fields make an invoice; two receipt fields beat one
    policy field. *)
Theorem document_type_is_first_highest (text : string) :
  map fst (type_scores text) = ["policy"; "claim"; "invoice"; "receipt"]
  /\ (forall t patterns, In (t, patterns) document_patterns ->
        In (t, pattern_score patterns text) (type_scores text))
  /\ ((Forall (fun ts => snd ts = 0) (type_scores text)
       /\ document_type (analyze_document text) = "unknown")
      \/ (exists before t score after,
            type_scores text = before ++ (t, score) :: after
            /\ 0 < score
            /\ Forall (fun ts => snd ts < score) before
            /\ Forall (fun ts => snd ts <= score) after
            /\ document_type (analyze_document text) = t))
  /\ document_type (analyze_document "") = "unknown"
  /\ (type_scores tied_document
      = [("policy", 1); ("claim", 1); ("invoice", 0); ("receipt", 0)]
      /\ document_type (analyze_document tied_document) = "policy")
  /\ (type_scores claim_document
      = [("policy", 1); ("claim", 2); ("invoice", 0); ("receipt", 0)]
      /\ document_type (analyze_document claim_document) = "claim")
  /\ (type_scores invoice_document
      = [("policy", 0); ("claim", 0); ("invoice", 2); ("receipt", 0)]
      /\ document_type (analyze_document invoice_document) = "invoice")
  /\ (type_scores receipt_document
      = [("policy", 1); ("claim", 0); ("invoice", 0); ("receipt", 2)]
      /\ document_type (analyze_document receipt_document) = "receipt").
Proof.
  split; [reflexivity|]. split.
  - intros t patterns I. unfold type_scores.
    apply in_map_iff. exists (t, patterns). split; [reflexivity | exact I].
  - split;
      [|split; [reflexivity|];
        repeat split; vm_compute; reflexivity].
    assert (D : document_type (analyze_document text)
                = _identify_document_type text) by reflexivity.
    rewrite D. clear D. unfold _identify_document_type.
    destruct (highest_first (type_scores text))
      as [[Z A]|(b & t & a & E & P & B & Af & H)].
    + left. split; [exact A|].
      destruct (type_scores text); [reflexivity|].
      rewrite Z. reflexivity.
    + right. exists b, t, (list_max (map snd (type_scores text))), a.
      repeat split; auto.
      destruct (type_scores text) as [|x l] eqn:T.
      * destruct b; discriminate E.
      * rewrite <- T in *.
        destruct (list_max (map snd (type_scores text)) =? 0) eqn:Q.
        -- apply Nat.eqb_eq in Q. lia.
        -- exact H.
Qed.

Lemma dict_get_set {A : Type} (k k' : string) (v : A) (d : list (string * A)) :
  dict_get k (dict_set k' v d)
  = if String.eqb k k' then Some v else dict_get k d.
Proof.
  induction d as [|[k0 v0] d IH]; simpl.
  - reflexivity.
  - destruct (String.eqb k' k0) eqn:E; simpl.
    + apply String.eqb_eq in E. subst k0.
      destruct (String.eqb k k'); reflexivity.
    + destruct (String.eqb k k0) eqn:F.
      * apply String.eqb_eq in F. subst k0.
        rewrite String.eqb_sym, E. reflexivity.
      * exact IH.
Qed.

Lemma dict_get_app {A : Type} (k : string) (l1 l2 : list (string * A)) :
  dict_get k (l1 ++ l2)
  = match dict_get k l1 with Some v => Some v | None => dict_get k l2 end.
Proof.
  induction l1 as [|[k0 v0] l1 IH]; simpl; [reflexivity|].
  destruct (String.eqb k k0); [reflexivity | exact IH].
Qed.

(** After a run of assignments a key holds the value of the last one that
    named it. *)
Lemma assignments_keep_last (k : string) (pairs d : list (string * string)) :
  dict_get k
    (fold_left (fun d kv => dict_set (fst kv) (snd kv) d) pairs d)
  = match dict_get k (rev pairs) with
    | Some v => Some v
    | None => dict_get k d
    end.
Proof.
  revert d. induction pairs as [|[k0 v0] pairs IH]; intro d; simpl.
  - reflexivity.
  - rewrite IH, dict_get_app, dict_get_set. simpl.
    destruct (dict_get k (rev pairs)); [reflexivity|].
    destruct (String.eqb k k0); reflexivity.
Qed.

Lemma record_matches_as_assignments (ms : list (list string))
    (d : list (string * string)) :
  fold_left record_match ms d
  = fold_left (fun d kv => dict_set (fst kv) (snd kv) d)
      (flat_map
         (fun m => match m with
                   | [key; value] =>
                       let key := lower (strip key) in
                       let value := strip value in
                       if negb (is_empty key) && negb (is_empty value)
                       then [(key, value)] else []
                   | _ => []
                   end) ms) d.
Proof.
  revert d. induction ms as [|m ms IH]; intro d; simpl; [reflexivity|].
  rewrite fold_left_app, IH. f_equal.
  unfold record_match.
  destruct m as [|key [|value [|x m]]]; try reflexivity.
  destruct (negb (is_empty (lower (strip key)))
            && negb (is_empty (strip value))); reflexivity.
Qed.

(** Refutes C5 as stated: two lines label a value "Name"; the mapping holds
    the second value, not the first. *)
Lemma two_names_keep_the_second :
  scanned_pairs two_names = [("name", "Alice"); ("name", "Bob")]
  /\ first_value "name" (scanned_pairs two_names) = Some "Alice"
  /\ dict_get "name" (key_values (analyze_document two_names)) = Some "Bob"
  /\ dict_get "name" (key_values (analyze_document two_names))
     <> first_value "name" (scanned_pairs two_names).
Proof.
  split; [vm_compute; reflexivity|].
  split; [vm_compute; reflexivity|].
  split; [vm_compute; reflexivity|].
  vm_compute. discriminate.
Qed.

(** C5, amended. For every text and key, the mapping of [analyze_document]
    holds the value of the last label/value line, in scan order, whose
    normalized key is that key, and nothing for a key no line has. *)
Theorem key_values_keep_last (text key : string) :
  dict_get key (key_values (analyze_document text))
  = last_value key (scanned_pairs text).
Proof.
  unfold analyze_document, key_values, _extract_key_values, last_value,
    scanned_pairs.
  rewrite record_matches_as_assignments, assignments_keep_last.
  destruct (dict_get key _); reflexivity.
Qed.

End DocAnalyzerFacts.

(** ** Risk model *)

Module RiskModelFacts.
Import PyStr PyNum PyNumFacts RiskModel.
Local Open Scope Q_scope.

(** The loop adds the counts up. *)
Lemma item_totals_count (items : list (string * Z)) (acc : Q * Z) :
  snd (fold_left add_item items acc) = (snd acc + total_count items)%Z.
Proof.
  revert acc. induction items as [|e items IH]; intro acc; simpl.
  - unfold total_count. simpl. lia.
  - rewrite IH. unfold total_count. simpl. lia.
Qed.

(** Entries with a zero count leave the running risk where it is. *)
Lemma item_totals_zero_counts (items : list (string * Z)) (acc : Q * Z) :
  Forall (fun entry => snd entry = 0%Z) items ->
  fst (fold_left add_item items acc) == fst acc.
Proof.
  revert acc. induction items as [|e items IH]; intros acc F; simpl.
  - reflexivity.
  - apply Forall_cons_iff in F. destruct F as [E F].
    rewrite (IH _ F). unfold add_item. simpl. rewrite E.
    unfold inject_Z. rewrite Qmult_0_r, Qplus_0_r. reflexivity.
Qed.

(** Counts that are not negative and add up to zero are all zero. *)
Lemma zero_total_zero_counts (items : list (string * Z)) :
  counts_nonnegative items -> total_count items = 0%Z ->
  Forall (fun entry => snd entry = 0%Z) items.
Proof.
  unfold counts_nonnegative, total_count.
  induction items as [|e items IH]; intros N T; constructor.
  - apply Forall_cons_iff in N. destruct N as [Ne N]. simpl in T.
    assert (0 <= fold_right Z.add 0 (map snd items))%Z.
    { clear -N. induction items as [|x l IHl]; simpl; [lia|].
      apply Forall_cons_iff in N. destruct N as [Nx N].
      specialize (IHl N). lia. }
    lia.
  - apply Forall_cons_iff in N. destruct N as [Ne N]. simpl in T.
    apply IH; [exact N|].
    assert (0 <= fold_right Z.add 0 (map snd items))%Z.
    { clear -N. induction items as [|x l IHl]; simpl; [lia|].
      apply Forall_cons_iff in N. destruct N as [Nx N].
      specialize (IHl N). lia. }
    lia.
Qed.

(** The guarded division never meets a zero divisor. *)
Lemma normalize_item_risk_returns (item_risk : Q) (total_items : Z) :
  normalize_item_risk item_risk total_items
  = if (0 <? total_items)%Z
    then Returned (item_risk / inject_Z total_items)
    else Returned item_risk.
Proof.
  unfold normalize_item_risk, py_div.
  destruct (0 <? total_items)%Z eqn:P; [|reflexivity].
  apply Z.ltb_lt in P.
  destruct (Qeq_bool (inject_Z total_items) 0) eqn:E; [|reflexivity].
  apply Qeq_bool_iff in E. unfold Qeq, inject_Z in E. simpl in E. lia.
Qed.

(** [assess_risk] raises on no inventory and no set of factors. *)
Lemma assess_risk_returns (items : list (string * Z))
    (location_factors : list string) :
  exists r,
    assess_risk items location_factors = Returned r
    /\ (item_risk_contribution r
        = if (0 <? snd (item_totals items))%Z
          then fst (item_totals items) / inject_Z (snd (item_totals items))
          else fst (item_totals items)).
Proof.
  unfold assess_risk.
  destruct (item_totals items) as [item_risk total_items]. simpl.
  rewrite normalize_item_risk_returns.
  destruct (0 <? total_items)%Z; eexists; split; reflexivity.
Qed.

(** C6. For an inventory whose counts are not negative and add up to zero,
    the empty one included, and for any location factors, [assess_risk]
    returns, raising no [ZeroDivisionError], with an item risk contribution
    of zero; the normalizing division is not executed, since it sits under
    the test [total_items > 0]. *)
Theorem assess_risk_zero_items (items : list (string * Z))
    (location_factors : list string) :
  counts_nonnegative items ->
  total_count items = 0%Z ->
  (exists r,
     assess_risk items location_factors = Returned r
     /\ item_risk_contribution r == 0)
  /\ snd (item_totals items) = 0%Z
  /\ normalize_item_risk (fst (item_totals items)) (snd (item_totals items))
     = Returned (fst (item_totals items))
  /\ (forall item_risk total_items,
        (total_items <= 0)%Z ->
        normalize_item_risk item_risk total_items = Returned item_risk).
Proof.
  intros N T.
  assert (S0 : snd (item_totals items) = 0%Z).
  { unfold item_totals. rewrite item_totals_count. simpl. exact T. }
  assert (G : forall item_risk total_items,
             (total_items <= 0)%Z ->
             normalize_item_risk item_risk total_items = Returned item_risk).
  { intros q z L. rewrite normalize_item_risk_returns.
    destruct (0 <? z)%Z eqn:P; [|reflexivity]. apply Z.ltb_lt in P. lia. }
  split; [|split; [exact S0 | split; [apply G; lia | exact G]]].
  destruct (assess_risk_returns items location_factors) as (r & R & I).
  exists r. split; [exact R|]. rewrite I, S0. simpl.
  unfold item_totals.
  rewrite (item_totals_zero_counts items (0, 0%Z)
             (zero_total_zero_counts items N T)).
  reflexivity.
Qed.

(** C6 on two inventories: the empty one, and one that lists jewelry and
    furniture with a count of zero, in a flood zone in town. *)
Lemma assess_risk_zero_items_run :
  (counts_nonnegative [("jewelry", 0%Z); ("furniture", 0%Z)]
   /\ total_count [("jewelry", 0%Z); ("furniture", 0%Z)] = 0%Z)
  /\ (exists r,
        assess_risk [("jewelry", 0%Z); ("furniture", 0%Z)]
          ["flood_zone"; "urban"] = Returned r
        /\ item_risk_contribution r == 0)
  /\ (exists r,
        assess_risk [] ["flood_zone"; "urban"] = Returned r
        /\ item_risk_contribution r == 0).
Proof.
  assert (N : counts_nonnegative [("jewelry", 0%Z); ("furniture", 0%Z)]).
  { repeat constructor; simpl; lia. }
  split; [split; [exact N | reflexivity]|]. split.
  - exact (proj1 (assess_risk_zero_items
                    [("jewelry", 0%Z); ("furniture", 0%Z)]
                    ["flood_zone"; "urban"] N eq_refl)).
  - exact (proj1 (assess_risk_zero_items [] ["flood_zone"; "urban"]
                    (Forall_nil _) eq_refl)).
Defined.

End RiskModelFacts.

(** ** Sentiment analyzer *)

Module SentimentAnalyzerFacts.
Import PyStr PyNum PyNumFacts SentimentAnalyzer.
Local Open Scope Q_scope.

(** C7. For every text the score [analyze_sentiment] returns lies in
    [-1, 1]; for the empty text the sentiment is "neutral" and the score
    is 0, with no lexicon word counted. *)
Theorem sentiment_score_is_clamped (text : string) :
  (-1 <= sentiment_score (analyze_sentiment text)
   /\ sentiment_score (analyze_sentiment text) <= 1)
  /\ sentiment (analyze_sentiment "") = "neutral"
  /\ sentiment_score (analyze_sentiment "") = 0
  /\ (positive_count (analyze_sentiment ""),
      negative_count (analyze_sentiment ""),
      neutral_count (analyze_sentiment "")) = (0%nat, 0%nat, 0%nat).
Proof.
  split.
  - unfold analyze_sentiment. cbn [sentiment_score].
    apply clamp_bounds. discriminate.
  - repeat split; vm_compute; reflexivity.
Qed.

End SentimentAnalyzerFacts.

(** ** Customer assistant *)

Module CustomerAssistantFacts.
Import PyStr PyNum DocAnalyzer HighestFirstFacts CustomerAssistant.
Local Open Scope nat_scope.

(** Refutes C9 as stated: on the query about the deductible and the bill
    the category is not policy_info. *)
Lemma deductible_query_is_not_policy_info :
  _categorize_query deductible_query <> "policy_info".
Proof. vm_compute. discriminate. Qed.

(** C9, amended. The categories are scored in table order, each by the
    number of its keywords that occur in the lower-cased query; either
    every score is zero and the category is general_inquiry, or the
    category is the first one in table order holding the highest score. On
    the query about the deductible and the bill, policy_info scores 1
    (deductible) and billing scores 2 (bill, pay), so the category is
    billing. *)
Theorem categorize_query_is_first_highest (query : string) :
  map fst (category_scores query)
  = ["policy_info"; "claim_status"; "billing"; "technical_support";
     "coverage_question"; "complaint"]
  /\ (forall c keywords, In (c, keywords) categories ->
        In (c, keyword_score keywords (lower query)) (category_scores query))
  /\ ((Forall (fun cs => snd cs = 0) (category_scores query)
       /\ _categorize_query query = "general_inquiry")
      \/ (exists before c score after,
            category_scores query = before ++ (c, score) :: after
            /\ 0 < score
            /\ Forall (fun cs => snd cs < score) before
            /\ Forall (fun cs => snd cs <= score) after
            /\ _categorize_query query = c))
  /\ category_scores deductible_query
     = [("policy_info", 1); ("claim_status", 0); ("billing", 2);
        ("technical_support", 0); ("coverage_question", 0); ("complaint", 0)]
  /\ _categorize_query deductible_query = "billing".
Proof.
  split; [reflexivity|]. split.
  - intros c keywords I. unfold category_scores.
    apply in_map_iff. exists (c, keywords). split; [reflexivity | exact I].
  - split; [|split; vm_compute; reflexivity].
    unfold _categorize_query.
    destruct (highest_first (category_scores query))
      as [[Z A]|(b & c & a & E & P & B & Af & H)].
    + left. split; [exact A|]. rewrite Z. reflexivity.
    + right. exists b, c, (list_max (map snd (category_scores query))), a.
      repeat split; auto.
      destruct (list_max (map snd (category_scores query)) =? 0) eqn:Q.
      * apply Nat.eqb_eq in Q. lia.
      * exact H.
Qed.

End CustomerAssistantFacts.

(* ===================================================================== *)
(** * Further properties of the engines *)
(* ===================================================================== *)

(** ** Fraud detector: indicators, score range, actions *)

Module FraudDetectorMore.
Import PyStr PyDate PyNum PyNumFacts FraudDetector FraudDetectorFacts.
Import FraudDetectorRules Samples.
Local Open Scope Q_scope.

(** The run of [detect_fraud] over every outcome of its seven tests. *)
Lemma rule_flags (b1 b2 b3 b4 b5 b6 b7 : bool) :
  let st := (0, @nil string) in
  let st := if b1 then found st (indicator "timing" "recent_policy")
                         "Recent policy creation" else st in
  let st := if b2 then found st (indicator "timing" "weekend_claim")
                         "Claim filed on weekend" else st in
  let st := if b3 then found st (indicator "content" "vague_description")
                         "Vague claim description" else st in
  let st := if b4 then found st (indicator "content" "excessive_items")
                         "Excessive number of items claimed" else st in
  let st := if b5 then found st (indicator "history" "multiple_claims")
                         "Multiple recent claims" else st in
  let st := if b6 then found st (indicator "red_flags" "water_damage_no_weather")
                         "Water damage claim without weather event" else st in
  let st := if b7 then found st (indicator "red_flags" "theft_no_police_report")
                         "Theft claim without police report" else st in
  let score := Qmin (fst st / 5) 1 in
  snd st
  = map snd
      (filter fst
         [ (b1, "Recent policy creation"); (b2, "Claim filed on weekend");
           (b3, "Vague claim description");
           (b4, "Excessive number of items claimed");
           (b5, "Multiple recent claims");
           (b6, "Water damage claim without weather event");
           (b7, "Theft claim without police report") ])
  /\ score
     == fold_right
          (fun (r : bool * Q) acc => if fst r then snd r + acc else acc) 0
          [ (b1, 0.7); (b2, 0.3); (b3, 0.6); (b4, 0.5); (b5, 0.7); (b6, 0.7);
            (b7, 0.8) ] / 5
  /\ score <= 0.86
  /\ (score == 0 <-> snd st = [])
  /\ ((categorize score = "High" /\ (6 <= List.length (snd st))%nat)
      \/ (categorize score = "Medium" /\ (3 <= List.length (snd st))%nat)
      \/ categorize score = "Low").
Proof.
  destruct b1, b2, b3, b4, b5, b6, b7; cbv -[Nat.le];
    (split; [reflexivity|]); (split; [reflexivity|]);
    (split; [discriminate|]);
    (split; [split; intro H; first [reflexivity | discriminate H]|]);
    first [ right; right; reflexivity
          | right; left; split; [reflexivity | repeat constructor]
          | left; split; [reflexivity | repeat constructor] ].
Qed.

Lemma indicators_as_filter now cd pd ch :
  indicators_found (detect_fraud now cd pd ch)
  = map snd (filter fst (labelled_rules now cd pd ch)).
Proof.
  exact (proj1 (rule_flags (_check_recent_policy now pd)
                  (_check_weekend_claim cd) (_check_vague_description cd)
                  (_check_excessive_items cd) (_check_multiple_claims ch)
                  (_check_water_damage_no_weather cd)
                  (_check_theft_no_police_report cd))).
Qed.

(** Dropping the rules that did not fire keeps the labels distinct. *)
Lemma fired_labels_distinct (rules : list (bool * string)) :
  NoDup (map snd rules) -> NoDup (map snd (filter fst rules)).
Proof.
  intro N. induction rules as [|[b label] rules IH]; [constructor|].
  cbn [map snd] in N. apply NoDup_cons_iff in N. destruct N as [Nx N].
  destruct b; cbn [filter fst map snd]; [|exact (IH N)].
  constructor; [|exact (IH N)].
  intro I. apply Nx. apply in_map_iff in I. destruct I as (y & E & I).
  apply filter_In in I. apply in_map_iff. exists y. tauto.
Qed.

Lemma labels_distinct now cd pd ch :
  NoDup (map snd (labelled_rules now cd pd ch)).
Proof.
  unfold labelled_rules. cbn [map snd].
  repeat (constructor;
          [cbn [In]; intro H;
           repeat (destruct H as [H|H]; [discriminate H|]); exact H|]).
  constructor.
Qed.

Lemma label_listed_iff now cd pd ch (b : bool) (label : string) :
  In (b, label) (labelled_rules now cd pd ch) ->
  (In label (indicators_found (detect_fraud now cd pd ch)) <-> b = true).
Proof.
  intro I. rewrite indicators_as_filter. split.
  - intro H. apply in_map_iff in H. destruct H as ([b' l'] & E & F).
    simpl in E. subst l'. apply filter_In in F. destruct F as [F T].
    simpl in T. subst b'.
    pose proof (labels_distinct now cd pd ch) as N.
    destruct b; [reflexivity|]. exfalso.
    clear -I F N. revert I F N. generalize (labelled_rules now cd pd ch).
    induction l as [|[b0 l0] l IH]; simpl; [tauto|].
    intros I F N. apply NoDup_cons_iff in N. destruct N as [Nx N].
    destruct I as [I|I]; destruct F as [F|F].
    + congruence.
    + inversion I; subst. apply Nx. apply in_map_iff.
      exists (true, label). auto.
    + inversion F; subst. apply Nx. apply in_map_iff.
      exists (false, label). auto.
    + exact (IH I F N).
  - intro T. subst b. apply in_map_iff. exists (true, label).
    split; [reflexivity|]. apply filter_In. auto.
Qed.

(** X1. The indicators [detect_fraud] lists are the labels of the rules
    that fired, in evaluation order, each at most once: the label of a rule
    is listed exactly when the rule fired. *)
Theorem indicators_are_fired_rules now cd pd ch :
  let r := detect_fraud now cd pd ch in
  indicators_found r = map snd (filter fst (labelled_rules now cd pd ch))
  /\ NoDup (indicators_found r)
  /\ (List.length (indicators_found r) <= 7)%nat
  /\ (forall b label, In (b, label) (labelled_rules now cd pd ch) ->
        (In label (indicators_found r) <-> b = true)).
Proof.
  intro r. subst r. split; [apply indicators_as_filter|].
  split; [|split].
  - rewrite indicators_as_filter. apply fired_labels_distinct, labels_distinct.
  - rewrite indicators_as_filter, length_map.
    etransitivity; [apply filter_length_le | reflexivity].
  - intros b label. apply label_listed_iff.
Qed.

(** X2. The cap of the normalization never binds: with all seven rules
    the raw score is 4.3, so the score is the raw score divided by 5 and
    never exceeds 0.86; it is zero exactly when no indicator is listed. *)
Theorem fraud_score_never_reaches_cap now cd pd ch :
  let r := detect_fraud now cd pd ch in
  fraud_score r == spec_raw_score now cd pd ch / 5
  /\ fraud_score r <= 0.86
  /\ (fraud_score r == 0 <-> indicators_found r = []).
Proof.
  intro r.
  destruct (rule_flags (_check_recent_policy now pd)
              (_check_weekend_claim cd) (_check_vague_description cd)
              (_check_excessive_items cd) (_check_multiple_claims ch)
              (_check_water_damage_no_weather cd)
              (_check_theft_no_police_report cd)) as (_ & A & B & C & _).
  split; [exact A | split; [exact B | exact C]].
Qed.

(** The recommended action follows the score: investigation above
    0.7, additional documentation above 0.3 and up to 0.7, normal
    processing up to 0.3. *)
Theorem recommended_action_follows_score now cd pd ch :
  let r := detect_fraud now cd pd ch in
  (recommended_action r = "Escalate for investigation"
     <-> 0.7 < fraud_score r)
  /\ (recommended_action r = "Request additional documentation"
        <-> 0.3 < fraud_score r /\ fraud_score r <= 0.7)
  /\ (recommended_action r = "Process claim normally"
        <-> fraud_score r <= 0.3).
Proof.
  intro r.
  assert (A : recommended_action r = action_for (categorize (fraud_score r)))
    by reflexivity.
  rewrite A. clear A. generalize (fraud_score r). intro n.
  pose proof (categorize_high n) as H.
  pose proof (categorize_medium n) as M.
  pose proof (categorize_low n) as L.
  assert (C : categorize n = "High" \/ categorize n = "Medium"
              \/ categorize n = "Low").
  { unfold categorize. destruct (Qltb 0.7 n); [|destruct (Qltb 0.3 n)]; auto. }
  destruct C as [E|[E|E]]; rewrite E in *; cbn;
    (split; [|split]); split; intro X;
    first [ reflexivity | discriminate X
          | apply H; reflexivity | apply M; reflexivity | apply L; reflexivity
          | apply H in X; discriminate X | apply M in X; discriminate X
          | apply L in X; discriminate X ].
Qed.

(** X3. How many rules a category takes: High is reached only with at
    least six of the seven rules fired, Medium only with at least three;
    with two indicators or fewer the category is Low. *)
Theorem category_needs_many_rules now cd pd ch :
  let r := detect_fraud now cd pd ch in
  let n := List.length (indicators_found r) in
  (risk_category r = "High" /\ (6 <= n)%nat)
  \/ (risk_category r = "Medium" /\ (3 <= n)%nat)
  \/ risk_category r = "Low".
Proof.
  intros r n.
  exact (proj2 (proj2 (proj2 (proj2
           (rule_flags (_check_recent_policy now pd)
              (_check_weekend_claim cd) (_check_vague_description cd)
              (_check_excessive_items cd) (_check_multiple_claims ch)
              (_check_water_damage_no_weather cd)
              (_check_theft_no_police_report cd)))))).
Qed.

(** X4. With a clock inside its day, the "Recent policy" rule counts
    calendar days from the start date to the clock date: it fires exactly
    when that difference is below 30, so also for a policy that starts
    after the clock date. *)
Theorem recent_policy_counts_calendar_days now pd start :
  strptime_Ymd (get_or (start_date pd) "") = Some start ->
  (0 <= dt_micro now < micros_per_day)%Z ->
  (_check_recent_policy now pd = true
   <-> (toordinal (dt_date now) - toordinal start < 30)%Z).
Proof.
  intros P C. unfold _check_recent_policy. rewrite P.
  unfold days_since.
  assert (D : (((toordinal (dt_date now) - toordinal start) * micros_per_day
                + dt_micro now) / micros_per_day
               = toordinal (dt_date now) - toordinal start)%Z).
  { rewrite Z.div_add_l by (unfold micros_per_day; lia).
    rewrite Z.div_small by exact C. lia. }
  rewrite D. apply Z.ltb_lt.
Qed.

(** X4 on a policy that starts three days after the clock date. *)
Lemma recent_policy_counts_calendar_days_run :
  _check_recent_policy wednesday
    (mk_policy_data (Some "2026-11-07") None None) = true
  <-> (toordinal (dt_date wednesday) - toordinal (mk_date 2026 11 7) < 30)%Z.
Proof.
  apply (recent_policy_counts_calendar_days wednesday
           (mk_policy_data (Some "2026-11-07") None None)
           (mk_date 2026 11 7)).
  - reflexivity.
  - vm_compute. split; [discriminate | reflexivity].
Defined.

End FraudDetectorMore.

(** ** Claims processor: flags, payout, summary *)

Module ClaimsProcessorMore.
Import PyStr PyDate PyNum PyNumFacts ClaimsProcessor ClaimsProcessorFacts.
Import FraudDetectorRules FraudDetectorMore ClaimsSummary Samples.
Local Open Scope Q_scope.

(** X5. On a claim assembled by [process_claim] the flag "Theft claim
    without police report" reads the description alone: it is raised
    exactly when the lower-cased description mentions a theft and does not
    contain the words "police report". *)
Theorem theft_flag_reads_description nr nc desc raw pd ch :
  In "Theft claim without police report"
    (FraudDetector.indicators_found
       (FraudDetector.detect_fraud nc (prepare_claim_data nr desc raw) pd ch))
  <-> ((contains "theft" (lower desc) || contains "stolen" (lower desc)) = true
       /\ contains "police report" (lower desc) = false).
Proof.
  rewrite (label_listed_iff nc (prepare_claim_data nr desc raw) pd ch
             (FraudDetector._check_theft_no_police_report
                (prepare_claim_data nr desc raw))
             "Theft claim without police report").
  - unfold FraudDetector._check_theft_no_police_report, prepare_claim_data.
    cbn [FraudDetector.description FraudDetector.police_report get_or].
    rewrite andb_true_iff, negb_true_iff. reflexivity.
  - unfold labelled_rules. cbn [In]. tauto.
Qed.

(** X6. [_calculate_claim_amount] raises a [KeyError] exactly on claim
    data without items; the payout it returns otherwise is never negative
    and never above the coverage amount less the deductible (or zero, when
    the deductible exceeds the coverage), the defaults 50000 and 500
    standing in for missing entries. *)
Theorem claim_amount_within_policy cd pd :
  let coverage := get_or (FraudDetector.coverage_amount pd) 50000 in
  let deductible := get_or (FraudDetector.deductible pd) 500 in
  match _calculate_claim_amount cd pd with
  | Returned amount =>
      FraudDetector.items cd <> None
      /\ 0 <= amount
      /\ amount <= Qmax 0 (coverage - deductible)
  | Raised e =>
      FraudDetector.items cd = None /\ e = KeyError "'items'"
  end.
Proof.
  intros coverage deductible. unfold _calculate_claim_amount, claim_items.
  fold coverage. fold deductible.
  destruct (FraudDetector.items cd) as [items|].
  - split; [discriminate|]. split.
    + apply Q.le_max_l.
    + apply Q.max_le_compat_l. unfold Qminus.
      apply Qplus_le_compat; [apply Q.le_min_r | apply Qle_refl].
  - split; reflexivity.
Qed.

Lemma item_value_range (item : string) :
  500 <= _get_item_value item /\ _get_item_value item <= 2000.
Proof.
  unfold _get_item_value.
  repeat match goal with
         | |- context [if ?b then _ else _] => destruct b
         end; split; discriminate.
Qed.

Lemma items_value_range (items : list string) :
  0 <= fold_right Qplus 0 (map _get_item_value items)
  /\ fold_right Qplus 0 (map _get_item_value items)
     <= 2000 * inject_Z (Z.of_nat (List.length items)).
Proof.
  induction items as [|i items [L U]].
  - split; discriminate.
  - cbn [map fold_right List.length].
    destruct (item_value_range i) as [Li Ui]. split.
    + apply Qle_trans with (y := 0 + 0); [discriminate|].
      apply Qplus_le_compat; [|exact L].
      apply Qle_trans with (y := 500); [discriminate | exact Li].
    + rewrite Nat2Z.inj_succ. unfold Z.succ. rewrite inject_Z_plus.
      rewrite Qmult_plus_distr_r, Qplus_comm.
      apply Qplus_le_compat; [exact U|].
      rewrite Qmult_1_r. exact Ui.
Qed.

(** X7. Through [process_claim] the base amount and the deductible of the
    fixed policy cancel and its coverage is out of reach: the payout is the
    estimated value of the extracted items, each between 500 and 2000, so
    at most 20000, and zero when no item was extracted. *)
Theorem payout_is_items_value nr desc raw pn :
  let items := _extract_items_from_analysis raw in
  exists payout,
    _calculate_claim_amount (prepare_claim_data nr desc raw)
      (_get_policy_data pn) = Returned payout
    /\ payout == fold_right Qplus 0 (map _get_item_value items)
    /\ 500 * inject_Z (Z.of_nat (List.length items)) <= payout
    /\ payout <= 20000.
Proof.
  intro items.
  exists (Qmax 0
            (Qmin (fold_right Qplus 0 (map _get_item_value items) + 1000)
               250000 - 1000)).
  split; [reflexivity|].
  set (payout := Qmax 0
                   (Qmin (fold_right Qplus 0 (map _get_item_value items)
                          + 1000) 250000 - 1000)).
  assert (E : payout
              == Qmax 0
                   (Qmin (fold_right Qplus 0 (map _get_item_value items) + 1000)
                      250000 - 1000)) by reflexivity.
  destruct (items_value_range items) as [L U].
  pose proof (extract_items_at_most_ten raw) as T. fold items in T.
  assert (U20 : fold_right Qplus 0 (map _get_item_value items) <= 20000).
  { eapply Qle_trans; [exact U|].
    apply Qle_trans with (y := 2000 * 10); [|discriminate].
    apply Qmult_le_l; [reflexivity|].
    unfold Qle, inject_Z. simpl. lia. }
  assert (V : payout == fold_right Qplus 0 (map _get_item_value items)).
  { rewrite E. rewrite Q.min_l.
    - rewrite Q.max_r; [ring|].
      apply Qle_trans with (y := fold_right Qplus 0
                                   (map _get_item_value items)); [exact L|].
      apply Qle_lteq. right. ring.
    - apply Qle_trans with (y := 20000 + 1000); [|discriminate].
      apply Qplus_le_compat; [exact U20 | apply Qle_refl]. }
  split; [exact V|]. rewrite V. split; [|exact U20].
  clear -items. induction items as [|i l IH].
  - discriminate.
  - cbn [map fold_right List.length].
    rewrite Nat2Z.inj_succ. unfold Z.succ. rewrite inject_Z_plus.
    rewrite Qmult_plus_distr_r, Qplus_comm.
    apply Qplus_le_compat; [|exact IH].
    rewrite Qmult_1_r. apply item_value_range.
Qed.

Lemma firstn_keeps {A : Type} (P : A -> Prop) (n : nat) (l : list A) :
  Forall P l -> Forall P (firstn n l).
Proof.
  intro F. rewrite Forall_forall in *. intros x I.
  apply F. eapply In_nth_error in I. destruct I as [k I].
  clear F. revert n k I. induction l as [|y l IH]; intros [|n] k I;
    try (destruct k; discriminate I).
  destruct k as [|k].
  - inversion I. left. reflexivity.
  - right. exact (IH n k I).
Qed.

(** X8. The summary of an image analysis joins at most five sentences,
    none of them empty, and joins none exactly when the text holds no
    sentence other than blank ones. *)
Theorem summary_has_at_most_five_sentences (analysis_text : string) :
  (List.length (important_sentences analysis_text) <= 5)%nat
  /\ Forall (fun s => is_empty s = false) (important_sentences analysis_text)
  /\ (important_sentences analysis_text = []
      <-> sentences_of analysis_text = []).
Proof.
  assert (N : Forall (fun s => is_empty s = false) (sentences_of analysis_text)).
  { unfold sentences_of. rewrite Forall_forall. intros s I.
    apply filter_In in I. destruct I as [_ I].
    apply negb_true_iff in I. exact I. }
  unfold important_sentences.
  set (sentences := sentences_of analysis_text) in *.
  set (imp := filter (fun sentence => any_in summary_keywords (lower sentence))
                sentences).
  assert (NI : Forall (fun s => is_empty s = false) imp).
  { unfold imp. rewrite Forall_forall in *. intros s I.
    apply filter_In in I. apply N. tauto. }
  assert (SI : sentences = [] -> imp = []).
  { intro E. unfold imp. rewrite E. reflexivity. }
  set (cut := if (5 <? List.length imp)%nat then firstn 5 imp else imp).
  assert (CL : (List.length cut <= 5)%nat).
  { unfold cut. destruct (5 <? List.length imp)%nat eqn:C.
    - rewrite length_firstn. apply Nat.le_min_l.
    - apply Nat.ltb_ge in C. exact C. }
  assert (CN : Forall (fun s => is_empty s = false) cut).
  { unfold cut. destruct (5 <? List.length imp)%nat;
      [apply firstn_keeps|]; exact NI. }
  assert (CE : cut = [] <-> imp = []).
  { unfold cut. destruct (5 <? List.length imp)%nat eqn:C; [|tauto].
    apply Nat.ltb_lt in C. destruct imp; cbn in C; [lia|].
    cbn. split; discriminate. }
  destruct (is_nil cut && negb (is_nil sentences)) eqn:B.
  - apply andb_true_iff in B. destruct B as [_ B].
    apply negb_true_iff in B.
    split; [|split].
    + rewrite length_firstn. lia.
    + apply firstn_keeps. exact N.
    + destruct sentences; [discriminate B|]. cbn. split; discriminate.
  - split; [exact CL|]. split; [exact CN|].
    rewrite CE. split; [|exact SI]. intro E.
    apply CE in E. rewrite E in B. cbn in B.
    apply negb_false_iff in B. destruct sentences; [reflexivity|discriminate B].
Qed.

End ClaimsProcessorMore.

(** ** Dates written by the claims processor *)

Module ReportDateFacts.
Import PyStr PyDate PyDateText PyNum FraudDetector ClaimsProcessor.
Import FraudDetectorRules FraudDetectorMore.
Local Open Scope Z_scope.

Lemma year_text (y : Z) : 1000 <= y <= 9999 -> year_text_ok y = true.
Proof.
  intro R.
  assert (Q1 : 1 <= y / 1000 <= 9).
  { split; [apply Z.div_le_lower_bound; lia|].
    apply Z.lt_succ_r. apply Z.div_lt_upper_bound; lia. }
  pose proof (Z.mod_pos_bound (y / 100) 10 ltac:(lia)) as Q2.
  pose proof (Z.mod_pos_bound (y / 10) 10 ltac:(lia)) as Q3.
  pose proof (Z.mod_pos_bound y 10 ltac:(lia)) as Q4.
  assert (E : 1000 * (y / 1000) + 100 * ((y / 100) mod 10)
              + 10 * ((y / 10) mod 10) + y mod 10 = y).
  { pose proof (Z.div_mod y 10 ltac:(lia)) as E1.
    pose proof (Z.div_mod (y / 10) 10 ltac:(lia)) as E2.
    pose proof (Z.div_mod (y / 100) 10 ltac:(lia)) as E3.
    replace (y / 100) with (y / 10 / 10) in *
      by (rewrite Z.div_div by lia; reflexivity).
    replace (y / 1000) with (y / 10 / 10 / 10)
      by (rewrite !Z.div_div by lia; reflexivity).
    lia. }
  pose (digits := [0; 1; 2; 3; 4; 5; 6; 7; 8; 9]).
  assert (D : forall v, 0 <= v < 10 -> In v digits)
    by (intros v V; unfold digits; cbn [In]; lia).
  assert (A : forallb (fun a => forallb (fun b => forallb (fun c =>
                forallb (fun d =>
                  (a =? 0) || year_text_ok (1000 * a + 100 * b + 10 * c + d))
                digits) digits) digits) digits = true)
    by (vm_compute; reflexivity).
  rewrite forallb_forall in A. specialize (A _ (D (y / 1000) ltac:(lia))).
  rewrite forallb_forall in A. specialize (A _ (D _ Q2)).
  rewrite forallb_forall in A. specialize (A _ (D _ Q3)).
  rewrite forallb_forall in A. specialize (A _ (D _ Q4)).
  rewrite E in A. apply orb_true_iff in A. destruct A as [A|A]; [|exact A].
  apply Z.eqb_eq in A. lia.
Qed.

Lemma month_text (m : Z) (r : string) :
  1 <= m <= 12 ->
  parse_month (String.append (pad2 m) (String "-" r)) = Some (m, String "-" r).
Proof.
  intro R. replace m with (Z.of_nat (Z.to_nat m)) by lia.
  assert (B : (Z.to_nat m <= 12)%nat) by lia.
  assert (P : (1 <= Z.to_nat m)%nat) by lia.
  revert B P. generalize (Z.to_nat m). intro n.
  do 13 (destruct n as [|n]; [intros; first [lia | reflexivity]|]).
  intros. lia.
Qed.

Lemma day_text (d : Z) :
  1 <= d <= 31 -> parse_day (pad2 d) = Some (d, EmptyString).
Proof.
  intro R. replace d with (Z.of_nat (Z.to_nat d)) by lia.
  assert (B : (Z.to_nat d <= 31)%nat) by lia.
  assert (P : (1 <= Z.to_nat d)%nat) by lia.
  revert B P. generalize (Z.to_nat d). intro n.
  do 32 (destruct n as [|n]; [intros; first [lia | reflexivity]|]).
  intros. lia.
Qed.

Lemma month_has_at_most_31 (y m : Z) : days_in_month y m <= 31.
Proof.
  unfold days_in_month.
  repeat match goal with
         | |- context [if ?b then _ else _] => destruct b
         end; lia.
Qed.

(** A date written with [strftime] is read back by [strptime]. *)
Lemma written_date_is_read_back (d : date) :
  valid_date d = true -> 1000 <= year d ->
  strptime_Ymd (strftime_Ymd d) = Some d.
Proof.
  destruct d as [y m dd]. intros V Y.
  pose proof V as V0. unfold valid_date in V0. cbn [year month day] in *.
  repeat rewrite andb_true_iff in V0.
  destruct V0 as [[[[[Y1 Y2] M1] M2] D1] D2].
  apply Z.leb_le in Y1, Y2, M1, M2, D1, D2.
  pose proof (month_has_at_most_31 y m) as D31.
  pose proof (year_text y (conj Y Y2)) as T. unfold year_text_ok in T.
  destruct (dec y) as [|a [|b [|c [|e [|x s]]]]] eqn:DY; try discriminate T.
  destruct (digit a) as [va|] eqn:Da; [|discriminate T].
  destruct (digit b) as [vb|] eqn:Db; [|discriminate T].
  destruct (digit c) as [vc|] eqn:Dc; [|discriminate T].
  destruct (digit e) as [ve|] eqn:De; [|discriminate T].
  apply Z.eqb_eq in T.
  unfold strftime_Ymd. cbn [year month day]. rewrite DY.
  cbn [String.append]. unfold strptime_Ymd.
  rewrite Da, Db, Dc, De. cbn [expect Ascii.eqb Bool.eqb].
  rewrite month_text by lia. cbn [expect Ascii.eqb Bool.eqb].
  rewrite day_text by lia. rewrite T, V. reflexivity.
Qed.

(** X9. The report date [process_claim] writes is read back by the
    weekend rule: for a valid clock date from the year 1000 on, "Claim
    filed on weekend" is listed exactly when the clock date at the time of
    the report is a Saturday or a Sunday. *)
Theorem weekend_flag_follows_clock nr nc desc raw pd ch :
  valid_date (dt_date nr) = true ->
  1000 <= year (dt_date nr) ->
  (In "Claim filed on weekend"
     (indicators_found (detect_fraud nc (prepare_claim_data nr desc raw) pd ch))
   <-> 5 <= weekday (dt_date nr)).
Proof.
  intros V Y.
  rewrite (label_listed_iff nc (prepare_claim_data nr desc raw) pd ch
             (_check_weekend_claim (prepare_claim_data nr desc raw))
             "Claim filed on weekend").
  - unfold _check_weekend_claim, prepare_claim_data.
    cbn [report_date get_or].
    rewrite (written_date_is_read_back _ V Y). apply Z.leb_le.
  - unfold labelled_rules. cbn [In]. tauto.
Qed.

(** X9 on a claim reported on Saturday, 7 November 2026. *)
Lemma weekend_flag_follows_clock_run :
  In "Claim filed on weekend"
    (indicators_found
       (detect_fraud (mk_datetime (mk_date 2026 11 7) 0)
          (prepare_claim_data (mk_datetime (mk_date 2026 11 7) 0)
             "Theft" "one damaged item")
          (_get_policy_data "P1") (_get_customer_history "")))
  <-> 5 <= weekday (mk_date 2026 11 7).
Proof.
  apply (weekend_flag_follows_clock (mk_datetime (mk_date 2026 11 7) 0)
           (mk_datetime (mk_date 2026 11 7) 0) "Theft" "one damaged item"
           (_get_policy_data "P1") (_get_customer_history "")).
  - reflexivity.
  - vm_compute. discriminate.
Defined.

End ReportDateFacts.

(** ** Strings: case and white space *)

Module PyStrFacts.
Import PyStr.

Lemma lower_char_idem (c : ascii) : lower_char (lower_char c) = lower_char c.
Proof. destruct c as [[] [] [] [] [] [] [] []]; reflexivity. Qed.

Lemma is_space_lower_char (c : ascii) : is_space (lower_char c) = is_space c.
Proof. destruct c as [[] [] [] [] [] [] [] []]; reflexivity. Qed.

Lemma newline_lower_char (c : ascii) :
  Ascii.eqb (lower_char c) newline = Ascii.eqb c newline.
Proof. destruct c as [[] [] [] [] [] [] [] []]; reflexivity. Qed.

Lemma lower_idem (s : string) : lower (lower s) = lower s.
Proof.
  induction s as [|c s IH]; simpl; [reflexivity|].
  rewrite lower_char_idem, IH. reflexivity.
Qed.

Lemma is_empty_lower (s : string) : is_empty (lower s) = is_empty s.
Proof. destruct s; reflexivity. Qed.

Lemma lstrip_lower (s : string) : lstrip (lower s) = lower (lstrip s).
Proof.
  induction s as [|c s IH]; simpl; [reflexivity|].
  rewrite is_space_lower_char. destruct (is_space c); [exact IH | reflexivity].
Qed.

Lemma rstrip_lower (s : string) : rstrip (lower s) = lower (rstrip s).
Proof.
  induction s as [|c s IH]; simpl; [reflexivity|].
  rewrite is_space_lower_char, IH, is_empty_lower.
  destruct (is_space c && is_empty (rstrip s)); reflexivity.
Qed.

Lemma strip_lower (s : string) : strip (lower s) = lower (strip s).
Proof. unfold strip. rewrite lstrip_lower, rstrip_lower. reflexivity. Qed.

Lemma rstrip_idem (s : string) : rstrip (rstrip s) = rstrip s.
Proof.
  induction s as [|c s IH]; simpl; [reflexivity|].
  destruct (is_space c && is_empty (rstrip s)) eqn:E; [reflexivity|].
  simpl. rewrite IH, E. reflexivity.
Qed.

(** What is left of a string stripped on the left starts with a character
    that is not white space. *)
Lemma lstrip_head (s : string) :
  lstrip s = EmptyString
  \/ exists c r, lstrip s = String c r /\ is_space c = false.
Proof.
  induction s as [|c s IH]; simpl; [left; reflexivity|].
  destruct (is_space c) eqn:E; [exact IH|].
  right. exists c, s. split; [reflexivity | exact E].
Qed.

(** Stripping twice strips once. *)
Lemma strip_idem (s : string) : strip (strip s) = strip s.
Proof.
  unfold strip. destruct (lstrip_head s) as [E|(c & r & E & N)]; rewrite E.
  - reflexivity.
  - simpl. rewrite N. simpl. rewrite N. simpl.
    rewrite N. simpl. rewrite rstrip_idem. reflexivity.
Qed.

End PyStrFacts.

(** ** Document analyzer: the entries of the mapping *)

Module DocAnalyzerMore.
Import PyStr PyStrFacts PyNum Regex DocAnalyzer DocAnalyzerShape.
Local Open Scope nat_scope.

(** An assignment adds no other key than its own. *)
Lemma keys_after_assignment (k x v : string) (d : list (string * string)) :
  In x (map fst (dict_set k v d)) -> x = k \/ In x (map fst d).
Proof.
  induction d as [|[k0 v0] d IH]; simpl.
  - intros [E|[]]. left. symmetry. exact E.
  - destruct (String.eqb k k0) eqn:E; simpl.
    + intros [H|H]; right; [left | right]; assumption.
    + intros [H|H]; [right; left; exact H|].
      destruct (IH H) as [F|F]; [left | right; right]; assumption.
Qed.

Lemma assignment_keeps_keys_distinct (k v : string) (d : list (string * string)) :
  NoDup (map fst d) -> NoDup (map fst (dict_set k v d)).
Proof.
  induction d as [|[k0 v0] d IH]; simpl; intro N.
  - constructor; [intros [] | constructor].
  - apply NoDup_cons_iff in N. destruct N as [Nx N].
    destruct (String.eqb k k0) eqn:E; simpl.
    + constructor; assumption.
    + constructor; [|exact (IH N)].
      intro I. destruct (keys_after_assignment _ _ _ _ I) as [F|F].
      * subst k0. rewrite String.eqb_refl in E. discriminate E.
      * exact (Nx F).
Qed.

Lemma assignment_keeps_entries_normalized (k v : string)
    (d : list (string * string)) :
  normalized_entry (k, v) -> Forall normalized_entry d ->
  Forall normalized_entry (dict_set k v d).
Proof.
  intros G. induction d as [|[k0 v0] d IH]; simpl; intro F.
  - constructor; [exact G | constructor].
  - apply Forall_cons_iff in F. destruct F as [Fx F].
    destruct (String.eqb k k0) eqn:E.
    + apply String.eqb_eq in E. subst k0. constructor; assumption.
    + constructor; [exact Fx | exact (IH F)].
Qed.

Lemma record_match_keeps_shape (d : list (string * string)) (m : list string) :
  NoDup (map fst d) /\ Forall normalized_entry d ->
  NoDup (map fst (record_match d m))
  /\ Forall normalized_entry (record_match d m).
Proof.
  intros [N F]. unfold record_match.
  destruct m as [|key [|value [|x m]]]; try (split; assumption).
  destruct (negb (is_empty (lower (strip key)))) eqn:K;
    [|split; assumption].
  destruct (negb (is_empty (strip value))) eqn:V; [|split; assumption].
  cbn [andb]. split.
  - apply assignment_keeps_keys_distinct. exact N.
  - apply assignment_keeps_entries_normalized; [|exact F].
    apply negb_true_iff in K, V. unfold normalized_entry. cbn [fst snd].
    repeat split.
    + exact K.
    + apply lower_idem.
    + rewrite strip_lower, strip_idem. reflexivity.
    + exact V.
    + apply strip_idem.
Qed.

(** X10. In the mapping [analyze_document] returns no key occurs twice;
    every key is non-empty, lower-case and free of surrounding white
    space, and every value is non-empty and free of surrounding white
    space. *)
Theorem key_values_are_normalized (text : string) :
  NoDup (map fst (key_values (analyze_document text)))
  /\ Forall normalized_entry (key_values (analyze_document text)).
Proof.
  unfold analyze_document, key_values, _extract_key_values.
  assert (G : forall ms d,
             NoDup (map fst d) /\ Forall normalized_entry d ->
             NoDup (map fst (fold_left record_match ms d))
             /\ Forall normalized_entry (fold_left record_match ms d)).
  { induction ms as [|m ms IH]; intros d H; simpl; [exact H|].
    apply IH. apply record_match_keeps_shape. exact H. }
  apply G. split; constructor.
Qed.

End DocAnalyzerMore.

(** ** Classification does not see letter case *)

Module RegexCaseFacts.
Import PyStr PyStrFacts PyNum Regex RegexCase DocAnalyzer.
Local Open Scope nat_scope.

Lemma lit_prefix_lower (l s : string) :
  lit_prefix true l (lower s)
  = match lit_prefix true l s with
    | Some r => Some (lower r)
    | None => None
    end.
Proof.
  revert s. induction l as [|a l IH]; intros [|b s]; simpl; try reflexivity.
  rewrite lower_char_idem.
  destruct (Ascii.eqb (lower_char a) (lower_char b)); [apply IH | reflexivity].
Qed.

Lemma run_length_lower (p : ascii -> bool) (s : string) :
  (forall c, p (lower_char c) = p c) ->
  run_length p (lower s) = run_length p s.
Proof.
  intro B. induction s as [|c s IH]; simpl; [reflexivity|].
  rewrite B, IH. reflexivity.
Qed.

Lemma drop_lower (k : nat) (s : string) : drop k (lower s) = lower (drop k s).
Proof.
  revert s. induction k as [|k IH]; intros [|c s]; simpl; try reflexivity.
  apply IH.
Qed.

(** Two runs of a greedy repetition that agree, length by length, on
    whether and how far the rest matches, agree as a whole. *)
Lemma try_down_same_length (f g : nat -> option (list string * nat))
    (min k : nat) :
  (forall j, option_map snd (f j) = option_map snd (g j)) ->
  option_map snd (try_down f min k) = option_map snd (try_down g min k).
Proof.
  intro E. induction k as [|k IH]; simpl.
  - destruct (0 <? min); [reflexivity|].
    specialize (E 0). destruct (f 0), (g 0); simpl in *;
      try discriminate E; try reflexivity; exact E.
  - destruct (S k <? min); [reflexivity|].
    pose proof (E (S k)) as Ek.
    destruct (f (S k)), (g (S k)); simpl in *;
      try discriminate Ek; try exact Ek. exact IH.
Qed.

(** A case-blind pattern matches a text and its lower-case form over the
    same number of characters. *)
Lemma match_here_lower (pat : pattern) :
  Forall case_blind pat ->
  forall s, option_map snd (match_here pat (lower s))
            = option_map snd (match_here pat s).
Proof.
  induction pat as [|it pat IH]; intros F s; [reflexivity|].
  apply Forall_cons_iff in F. destruct F as [B F]. specialize (IH F).
  destruct it as [ci l|p|p min capture|]; simpl in B.
  - subst ci. simpl. rewrite lit_prefix_lower.
    destruct (lit_prefix true l s) as [r|]; [|reflexivity].
    specialize (IH r).
    destruct (match_here pat (lower r)) as [[c1 n1]|],
      (match_here pat r) as [[c2 n2]|]; simpl in *;
      try discriminate IH; try reflexivity.
    injection IH as ->. reflexivity.
  - destruct s as [|c s]; simpl; [reflexivity|]. rewrite B.
    destruct (p c); [|reflexivity]. specialize (IH s).
    destruct (match_here pat (lower s)) as [[c1 n1]|],
      (match_here pat s) as [[c2 n2]|]; simpl in *;
      try discriminate IH; try reflexivity.
    injection IH as ->. reflexivity.
  - simpl. rewrite (run_length_lower p s B).
    apply try_down_same_length. intro j. rewrite drop_lower.
    specialize (IH (drop j s)).
    destruct (match_here pat (lower (drop j s))) as [[c1 n1]|],
      (match_here pat (drop j s)) as [[c2 n2]|]; simpl in *;
      try discriminate IH; try reflexivity.
    injection IH as ->. reflexivity.
  - assert (E : (if is_empty (lower s)
                    || String.eqb (lower s) (String newline EmptyString)
                 then option_map snd (match_here pat (lower s)) else None)
                = (if is_empty s || String.eqb s (String newline EmptyString)
                   then option_map snd (match_here pat s) else None)).
    { rewrite is_empty_lower, IH.
      destruct s as [|c s]; [reflexivity|].
      simpl. rewrite newline_lower_char. destruct s; reflexivity. }
    destruct s as [|c s].
    + simpl. apply (IH EmptyString).
    + cbn [match_here lower]. rewrite newline_lower_char.
      cbn [lower] in E.
      destruct (Ascii.eqb c newline).
      * specialize (IH s).
        destruct (match_here pat (lower s)) as [[c1 n1]|],
          (match_here pat s) as [[c2 n2]|]; simpl in IH;
          try discriminate IH.
        -- injection IH as ->. reflexivity.
        -- revert E.
           destruct (is_empty (String (lower_char c) (lower s))
                     || String.eqb (String (lower_char c) (lower s))
                          (String newline EmptyString)),
             (is_empty (String c s)
              || String.eqb (String c s) (String newline EmptyString));
             intro E; exact E.
      * revert E.
        destruct (is_empty (String (lower_char c) (lower s))
                  || String.eqb (String (lower_char c) (lower s))
                       (String newline EmptyString)),
          (is_empty (String c s)
           || String.eqb (String c s) (String newline EmptyString));
          intro E; exact E.
Qed.

Lemma search_lower (pat : pattern) (s : string) :
  Forall case_blind pat -> search pat (lower s) = search pat s.
Proof.
  intro F. induction s as [|c s IH].
  - reflexivity.
  - pose proof (match_here_lower pat F (String c s)) as M.
    cbn [lower] in M. cbn [search lower].
    destruct (match_here pat (String (lower_char c) (lower s))),
      (match_here pat (String c s)); simpl in M;
      try discriminate M; try reflexivity.
    exact IH.
Qed.

Lemma document_patterns_case_blind :
  Forall (fun tp => Forall (Forall case_blind) (snd tp)) document_patterns.
Proof.
  unfold document_patterns, two_words.
  repeat (constructor; cbn [snd]);
    try reflexivity; try exact is_space_lower_char.
Qed.

(** X11. On ASCII text the document type does not depend on letter case:
    a text and its lower-case form are scored alike by every type and
    classified alike; the type is one of policy, claim, invoice, receipt
    and unknown. *)
Theorem document_type_ignores_case (text : string) :
  ascii_only text = true ->
  type_scores (lower text) = type_scores text
  /\ document_type (analyze_document (lower text))
     = document_type (analyze_document text)
  /\ In (document_type (analyze_document text))
       ["policy"; "claim"; "invoice"; "receipt"; "unknown"].
Proof.
  intros _.
  assert (S : type_scores (lower text) = type_scores text).
  { unfold type_scores. apply map_ext_in. intros [t pats] I.
    cbn [fst snd]. f_equal. unfold pattern_score. f_equal.
    pose proof document_patterns_case_blind as C.
    rewrite Forall_forall in C. specialize (C _ I). cbn [snd] in C.
    clear I. induction pats as [|p pats IH]; [reflexivity|].
    apply Forall_cons_iff in C. destruct C as [Cp C].
    cbn [filter]. rewrite (search_lower p text Cp), (IH C). reflexivity. }
  split; [exact S|]. split.
  - cbn [analyze_document document_type]. unfold _identify_document_type.
    rewrite S. reflexivity.
  - cbn [analyze_document document_type]. unfold _identify_document_type.
    assert (K : map fst (type_scores text)
                = ["policy"; "claim"; "invoice"; "receipt"]) by reflexivity.
    destruct (HighestFirstFacts.highest_first (type_scores text))
      as [[Z _]|(b & t & a & E & P & _ & _ & H)].
    + destruct (type_scores text); [cbn; tauto|].
      rewrite Z. cbn. tauto.
    + destruct (type_scores text) as [|x l] eqn:T.
      * destruct b; discriminate E.
      * rewrite <- T in *.
        destruct (DocAnalyzer.list_max (map snd (type_scores text)) =? 0)
          eqn:Q; [apply Nat.eqb_eq in Q; lia|].
        rewrite H.
        assert (I : In t (map fst (type_scores text))).
        { rewrite E, map_app. apply in_or_app. right. left. reflexivity. }
        rewrite K in I. cbn [In] in *. tauto.
Qed.

(** X11 on a policy field in capitals. *)
Lemma document_type_ignores_case_run :
  type_scores (lower "POLICY NUMBER: 12, Premium 40")
  = type_scores "POLICY NUMBER: 12, Premium 40"
  /\ document_type (analyze_document (lower "POLICY NUMBER: 12, Premium 40"))
     = document_type (analyze_document "POLICY NUMBER: 12, Premium 40")
  /\ In (document_type (analyze_document "POLICY NUMBER: 12, Premium 40"))
       ["policy"; "claim"; "invoice"; "receipt"; "unknown"].
Proof.
  apply (document_type_ignores_case "POLICY NUMBER: 12, Premium 40").
  reflexivity.
Defined.

End RegexCaseFacts.

(** ** Risk model: the fields of an assessment *)

Module RiskModelMore.
Import PyStr PyNum PyNumFacts RiskModel RiskModelFacts RiskModelShape.
Local Open Scope Q_scope.

Lemma Qltb_same (a a' b b' : Q) :
  a == a' -> b == b' -> Qltb a b = Qltb a' b'.
Proof.
  intros Ea Eb. destruct (Qltb a b) eqn:H, (Qltb a' b') eqn:H'; try reflexivity.
  - apply Qltb_lt in H. apply Qltb_ge in H'. rewrite Ea, Eb in H.
    exfalso. exact (Qle_not_lt _ _ H' H).
  - apply Qltb_ge in H. apply Qltb_lt in H'. rewrite Ea, Eb in H.
    exfalso. exact (Qle_not_lt _ _ H H').
Qed.

(** Every field of the assessment in terms of the running totals. *)
Lemma assessment_fields (items : list (string * Z)) (lf : list string) :
  exists r,
    assess_risk items lf = Returned r
    /\ item_risk_contribution r
       = (if (0 <? snd (item_totals items))%Z
          then fst (item_totals items) / inject_Z (snd (item_totals items))
          else fst (item_totals items))
    /\ location_risk_contribution r = location_product lf
    /\ risk_score r = 1.0 * item_risk_contribution r * location_product lf
    /\ risk_category r
       = (if Qltb (risk_score r) 1.0 then "Low"
          else if Qltb 1.5 (risk_score r) then "High" else "Medium")
    /\ recommended_coverage r
       = (50000 + inject_Z (snd (item_totals items)) * 1000) * risk_score r
    /\ annual_premium r = recommended_coverage r * 0.02
    /\ monthly_premium r = annual_premium r / 12.
Proof.
  unfold assess_risk.
  destruct (item_totals items) as [item_risk total_items]. cbn [fst snd].
  rewrite normalize_item_risk_returns.
  destruct (0 <? total_items)%Z; eexists; repeat split; reflexivity.
Qed.

(** A factor without a weight leaves the running product as it is. *)
Lemma location_product_skips (lf : list string) :
  location_product (filter weighted lf) = location_product lf.
Proof.
  unfold location_product. generalize 1.0 as acc.
  induction lf as [|f lf IH]; intro acc; [reflexivity|].
  cbn [filter fold_left]. unfold weighted at 1.
  destruct (dict_get (lower f) location_risk_factors) as [w|] eqn:D.
  - cbn [fold_left]. rewrite D. apply IH.
  - apply IH.
Qed.

(** X14. An inventory without items is priced at nothing: when the counts
    are not negative and add up to zero, and the location factors are at
    most a thousand (1.5 to the power 1000 is below 2 to the power 1024,
    so the product of their weights stays a finite floating-point number),
    the risk score is 0 whatever the factors, the category is Low, and the
    recommended coverage and both premiums are 0. *)
Theorem nothing_to_insure_costs_nothing (items : list (string * Z))
    (lf : list string) :
  counts_nonnegative items ->
  total_count items = 0%Z ->
  (List.length lf <= 1000)%nat ->
  exists r,
    assess_risk items lf = Returned r
    /\ risk_score r == 0
    /\ risk_category r = "Low"
    /\ recommended_coverage r == 0
    /\ annual_premium r == 0
    /\ monthly_premium r == 0.
Proof.
  intros N T _.
  destruct (assessment_fields items lf)
    as (r & R & I & _ & S & C & V & A & M).
  exists r. split; [exact R|].
  assert (S0 : snd (item_totals items) = 0%Z).
  { unfold item_totals. rewrite item_totals_count. simpl. exact T. }
  assert (I0 : item_risk_contribution r == 0).
  { rewrite I, S0. simpl. unfold item_totals.
    apply (item_totals_zero_counts items (0, 0%Z)).
    apply zero_total_zero_counts; assumption. }
  assert (R0 : risk_score r == 0) by (rewrite S, I0; ring).
  split; [exact R0|]. split.
  - rewrite C. rewrite (Qltb_same _ 0 1.0 1.0 R0 (Qeq_refl _)). reflexivity.
  - assert (V0 : recommended_coverage r == 0) by (rewrite V, R0; ring).
    assert (A0 : annual_premium r == 0) by (rewrite A, V0; ring).
    split; [exact V0|]. split; [exact A0|].
    rewrite M, A0. reflexivity.
Qed.

(** X14 on the empty inventory in a flood zone. *)
Lemma nothing_to_insure_costs_nothing_run :
  exists r,
    assess_risk [] ["flood_zone"; "urban"] = Returned r
    /\ risk_score r == 0
    /\ risk_category r = "Low"
    /\ recommended_coverage r == 0
    /\ annual_premium r == 0
    /\ monthly_premium r == 0.
Proof.
  apply (nothing_to_insure_costs_nothing [] ["flood_zone"; "urban"]).
  - constructor.
  - reflexivity.
  - cbn. lia.
Defined.

End RiskModelMore.

(** ** Sentiment analyzer: label, emotions, counts *)

Module SentimentAnalyzerMore.
Import PyStr PyNum PyNumFacts SentimentAnalyzer SentimentShape.
Import Escalation.
Local Open Scope Q_scope.

Lemma sentiment_from_score (text : string) :
  sentiment (analyze_sentiment text)
  = (if Qltb 0.3 (sentiment_score (analyze_sentiment text)) then "positive"
     else if Qltb (sentiment_score (analyze_sentiment text)) (-0.3)
          then "negative" else "neutral").
Proof. reflexivity. Qed.

(** The sentiment label follows the clamped score: positive exactly
    above 0.3, negative exactly below -0.3, neutral in between, both ends
    included. *)
Theorem sentiment_label_follows_score (text : string) :
  let r := analyze_sentiment text in
  (sentiment r = "positive" <-> 0.3 < sentiment_score r)
  /\ (sentiment r = "negative" <-> sentiment_score r < -0.3)
  /\ (sentiment r = "neutral"
      <-> -0.3 <= sentiment_score r /\ sentiment_score r <= 0.3).
Proof.
  intro r. subst r. rewrite sentiment_from_score.
  generalize (sentiment_score (analyze_sentiment text)). intro s.
  destruct (Qltb 0.3 s) eqn:P.
  - apply Qltb_lt in P. split; [tauto|]. split.
    + split; [discriminate|]. intro N. exfalso.
      apply (Qlt_irrefl s). apply Qlt_trans with (y := -0.3); [exact N|].
      apply Qlt_trans with (y := 0.3); [reflexivity | exact P].
    + split; [discriminate|]. intros [_ U]. exfalso.
      exact (Qle_not_lt _ _ U P).
  - apply Qltb_ge in P. destruct (Qltb s (-0.3)) eqn:N.
    + apply Qltb_lt in N.
      split; [split; [discriminate|]; intro X; exfalso;
              exact (Qle_not_lt _ _ P X)|].
      split; [tauto|]. split; [discriminate|]. intros [L _]. exfalso.
      exact (Qle_not_lt _ _ L N).
    + apply Qltb_ge in N.
      split; [split; [discriminate|]; intro X; exfalso;
              exact (Qle_not_lt _ _ P X)|].
      split; [split; [discriminate|]; intro X; exfalso;
              exact (Qle_not_lt _ _ N X)|].
      tauto.
Qed.

(** X16. The priority of an escalated query, on the result of
    [analyze_sentiment]: High exactly when the score is below -0.5, Low
    exactly when it is above 0.5, Medium in between; the test on the label
    adds nothing to the test on the score. *)
Theorem escalation_priority_follows_score (text : string) :
  let r := analyze_sentiment text in
  let p := escalation_priority (sentiment r) (sentiment_score r) in
  (p = "High" <-> sentiment_score r < -0.5)
  /\ (p = "Low" <-> 0.5 < sentiment_score r)
  /\ (p = "Medium"
      <-> -0.5 <= sentiment_score r /\ sentiment_score r <= 0.5).
Proof.
  intros r p. subst p r. rewrite sentiment_from_score.
  generalize (sentiment_score (analyze_sentiment text)). intro s.
  unfold escalation_priority.
  destruct (Qltb s (-0.5)) eqn:H.
  - apply Qltb_lt in H.
    assert (P : Qltb 0.3 s = false).
    { apply Qltb_ge. apply Qlt_le_weak.
      apply Qlt_trans with (y := -0.5); [exact H | reflexivity]. }
    assert (N : Qltb s (-0.3) = true).
    { apply Qltb_lt. apply Qlt_trans with (y := -0.5);
        [exact H | reflexivity]. }
    rewrite P, N. cbn.
    split; [tauto|]. split.
    + split; [discriminate|]. intro L. exfalso. apply (Qlt_irrefl s).
      apply Qlt_trans with (y := -0.5); [exact H|].
      apply Qlt_trans with (y := 0.5); [reflexivity | exact L].
    + split; [discriminate|]. intros [L _]. exfalso.
      exact (Qle_not_lt _ _ L H).
  - apply Qltb_ge in H. rewrite andb_false_r.
    destruct (Qltb 0.5 s) eqn:L.
    + apply Qltb_lt in L.
      assert (P : Qltb 0.3 s = true).
      { apply Qltb_lt. apply Qlt_trans with (y := 0.5);
          [reflexivity | exact L]. }
      rewrite P. cbn.
      split; [split; [discriminate|]; intro X; exfalso;
              exact (Qle_not_lt _ _ H X)|].
      split; [tauto|]. split; [discriminate|]. intros [_ U]. exfalso.
      exact (Qle_not_lt _ _ U L).
    + apply Qltb_ge in L. rewrite andb_false_r.
      split; [split; [discriminate|]; intro X; exfalso;
              exact (Qle_not_lt _ _ H X)|].
      split; [split; [discriminate|]; intro X; exfalso;
              exact (Qle_not_lt _ _ L X)|].
      tauto.
Qed.

End SentimentAnalyzerMore.

(** ** Sentiment analyzer: what is counted and reported *)

Module SentimentReportMore.
Import PyStr PyNum SentimentAnalyzer SentimentShape.
Local Open Scope nat_scope.

Lemma mem_is_member (w : string) (l : list string) :
  mem w l = true -> In w l.
Proof.
  unfold mem. intro H. apply existsb_exists in H.
  destruct H as (x & I & E). apply String.eqb_eq in E. subst x. exact I.
Qed.

(** No word is in two of the three lexicons. *)
Lemma lexicons_are_disjoint (w : string) :
  (mem w positive_words = true ->
     mem w negative_words = false /\ mem w neutral_words = false)
  /\ (mem w negative_words = true -> mem w neutral_words = false).
Proof.
  assert (P : forallb (fun x => negb (mem x negative_words)
                                && negb (mem x neutral_words))
                positive_words = true) by (vm_compute; reflexivity).
  assert (N : forallb (fun x => negb (mem x neutral_words)) negative_words
              = true) by (vm_compute; reflexivity).
  rewrite forallb_forall in P, N. split; intro H.
  - specialize (P w (mem_is_member _ _ H)).
    apply andb_true_iff in P. destruct P as [A B].
    apply negb_true_iff in A, B. split; assumption.
  - specialize (N w (mem_is_member _ _ H)).
    apply negb_true_iff in N. exact N.
Qed.

Lemma counts_within_tokens (ws : list string) :
  count_in positive_words ws + count_in negative_words ws
  + count_in neutral_words ws <= List.length ws.
Proof.
  unfold count_in. induction ws as [|w ws IH]; [reflexivity|].
  cbn [filter List.length].
  destruct (lexicons_are_disjoint w) as [DP DN].
  destruct (mem w positive_words) eqn:P.
  - destruct (DP eq_refl) as [N U]. rewrite N, U. cbn [List.length]. lia.
  - destruct (mem w negative_words) eqn:N.
    + rewrite (DN eq_refl). cbn [List.length]. lia.
    + destruct (mem w neutral_words); cbn [List.length]; lia.
Qed.

(** X17. Every token counts for one lexicon at most: the positive,
    negative and neutral counts add up to no more than the number of
    tokens of the text. *)
Theorem sentiment_counts_within_tokens (text : string) :
  let r := analyze_sentiment text in
  positive_count r + negative_count r + neutral_count r
  <= List.length (words (lower text)).
Proof.
  intro r. subst r. cbn [analyze_sentiment positive_count negative_count
                         neutral_count].
  apply counts_within_tokens.
Qed.

Lemma inserted_members (e x : string * nat) (l : list (string * nat)) :
  In x (insert_desc e l) -> x = e \/ In x l.
Proof.
  induction l as [|y l IH]; simpl.
  - intros [H|[]]. left. symmetry. exact H.
  - destruct (snd y <=? snd e); simpl.
    + intros [H|H]; [left; symmetry; exact H | right; exact H].
    + intros [H|H]; [right; left; exact H|].
      destruct (IH H) as [F|F]; [left | right; right]; assumption.
Qed.

Lemma insert_keeps_order (e : string * nat) (l : list (string * nat)) :
  StronglySorted by_count_desc l ->
  StronglySorted by_count_desc (insert_desc e l).
Proof.
  induction l as [|y l IH]; simpl; intro S.
  - constructor; constructor.
  - destruct (snd y <=? snd e) eqn:C.
    + apply Nat.leb_le in C. constructor; [exact S|].
      apply StronglySorted_inv in S. destruct S as [_ F].
      constructor; [exact C|].
      eapply Forall_impl; [|exact F]. unfold by_count_desc. simpl.
      intros a H. lia.
    + apply Nat.leb_gt in C. apply StronglySorted_inv in S.
      destruct S as [S F]. constructor; [exact (IH S)|].
      rewrite Forall_forall in *. intros x I.
      destruct (inserted_members _ _ _ I) as [E|I'].
      * subst x. unfold by_count_desc. lia.
      * exact (F x I').
Qed.

Lemma sort_desc_sorted (l : list (string * nat)) :
  StronglySorted by_count_desc (sort_desc l).
Proof.
  unfold sort_desc. induction l as [|e l IH]; simpl.
  - constructor.
  - apply insert_keeps_order. exact IH.
Qed.

Lemma sort_desc_members (x : string * nat) (l : list (string * nat)) :
  In x (sort_desc l) -> In x l.
Proof.
  unfold sort_desc. induction l as [|e l IH]; simpl; [tauto|].
  intro I. destruct (inserted_members _ _ _ I) as [E|I'].
  - left. symmetry. exact E.
  - right. exact (IH I').
Qed.

Lemma prefix_members {A : Type} (n : nat) (x : A) (l : list A) :
  In x (firstn n l) -> In x l.
Proof.
  revert n. induction l as [|y l IH]; intros [|n]; simpl; try tauto.
  intros [H|H]; [left; exact H | right; exact (IH n H)].
Qed.

Lemma prefix_keeps_order (n : nat) (l : list (string * nat)) :
  StronglySorted by_count_desc l ->
  StronglySorted by_count_desc (firstn n l).
Proof.
  revert n. induction l as [|y l IH]; intros [|n] S; simpl;
    try constructor.
  - apply IH. apply StronglySorted_inv in S. tauto.
  - apply StronglySorted_inv in S. destruct S as [_ F].
    rewrite Forall_forall in *. intros x I.
    apply F. exact (prefix_members n x l I).
Qed.

(** X18. The report of [analyze_sentiment] names at most two emotions,
    each one of the five of the table and each with a positive count,
    larger counts first; it quotes at most three key phrases, none
    empty. *)
Theorem sentiment_report_is_bounded (text : string) :
  let r := analyze_sentiment text in
  List.length (emotions r) <= 2
  /\ StronglySorted by_count_desc (emotions r)
  /\ Forall (fun e => 0 < snd e
                      /\ In (fst e) ["anger"; "frustration"; "satisfaction";
                                     "confusion"; "urgency"]) (emotions r)
  /\ List.length (key_phrases r) <= 3
  /\ Forall (fun p => is_empty p = false) (key_phrases r).
Proof.
  intro r. subst r. cbn [analyze_sentiment emotions key_phrases].
  split; [rewrite length_firstn; apply Nat.le_min_l|].
  split; [apply prefix_keeps_order, sort_desc_sorted|].
  split; [|split].
  - rewrite Forall_forall. intros x I.
    apply prefix_members, sort_desc_members in I.
    apply filter_In in I. destruct I as [I P].
    apply Nat.ltb_lt in P. split; [exact P|].
    apply in_map_iff in I. destruct I as ([name ws] & E & I).
    subst x. cbn [fst].
    apply (in_map fst) in I. exact I.
  - unfold _extract_key_phrases. rewrite length_firstn. apply Nat.le_min_l.
  - unfold _extract_key_phrases. rewrite Forall_forall. intros x I.
    apply prefix_members in I. apply filter_In in I. destruct I as [I _].
    apply filter_In in I. destruct I as [_ I].
    apply negb_true_iff in I. exact I.
Qed.

End SentimentReportMore.

(** ** Customer assistant: the category of a query *)

Module CustomerAssistantMore.
Import PyStr PyStrFacts PyNum DocAnalyzer HighestFirstFacts CustomerAssistant.
Local Open Scope nat_scope.

(** X19. The category of a query does not depend on letter case and is
    one of the six categories of the table or general_inquiry. *)
Theorem query_category_ignores_case (query : string) :
  _categorize_query (lower query) = _categorize_query query
  /\ In (_categorize_query query)
       ["policy_info"; "claim_status"; "billing"; "technical_support";
        "coverage_question"; "complaint"; "general_inquiry"].
Proof.
  split.
  - unfold _categorize_query, category_scores. rewrite lower_idem.
    reflexivity.
  - unfold _categorize_query.
    assert (K : map fst (category_scores query)
                = ["policy_info"; "claim_status"; "billing";
                   "technical_support"; "coverage_question"; "complaint"])
      by reflexivity.
    destruct (highest_first (category_scores query))
      as [[Z _]|(b & t & a & E & P & _ & _ & H)].
    + rewrite Z. cbn. tauto.
    + destruct (list_max (map snd (category_scores query)) =? 0) eqn:Q;
        [apply Nat.eqb_eq in Q; lia|].
      rewrite H.
      assert (I : In t (map fst (category_scores query))).
      { rewrite E, map_app. apply in_or_app. right. left. reflexivity. }
      rewrite K in I. cbn [In] in *. tauto.
Qed.

End CustomerAssistantMore.

(** ** Underwriting analyzer: location factors and inventory *)

Module UnderwritingFacts.
Import PyStr PyNum PyNumFacts RiskModel RiskModelFacts RiskModelShape.
Import RiskModelMore Underwriting.
Local Open Scope Q_scope.

(** The factor list over every outcome of the seven tests on the
    location. *)
Lemma factor_flags (b1 b2 b3 b4 b5 city county : bool) :
  let factors := [] in
  let factors := append_if b1 "hurricane_prone" factors in
  let factors := append_if b2 "wildfire_prone" factors in
  let factors := append_if b3 "earthquake_prone" factors in
  let factors := append_if b4 "tornado_prone" factors in
  let factors := append_if b5 "flood_zone" factors in
  let result :=
    if city then factors ++ ["urban"]
    else if county then factors ++ ["rural"] else factors ++ ["suburban"] in
  (exists hazards kind,
     result = hazards ++ [kind]
     /\ In kind ["urban"; "rural"; "suburban"]
     /\ Forall (fun h => In h ["hurricane_prone"; "wildfire_prone";
                               "earthquake_prone"; "tornado_prone";
                               "flood_zone"]) hazards)
  /\ NoDup result
  /\ filter weighted result
     = filter (fun f => negb (String.eqb f "tornado_prone")) result.
Proof.
  destruct b1, b2, b3, b4, b5, city, county; cbv zeta; cbn [append_if app];
    (split;
     [eexists; eexists; split;
      [match goal with
       | |- ?l = _ => change l with (removelast l ++ [last l ""])
       end; reflexivity|];
      split; [cbn; tauto|]; cbn [removelast];
      repeat (constructor; [cbn; tauto|]); constructor|]);
    (split;
     [repeat (constructor;
              [cbn [In]; intro H;
               repeat (destruct H as [H|H]; [discriminate H|]); exact H|]);
      constructor|]);
    vm_compute; reflexivity.
Qed.

(** X20. The factors extracted from a location are up to five hazard
    tags, each at most once, followed by exactly one of urban, rural and
    suburban. *)
Theorem location_factors_end_in_one_kind (location : string) :
  (exists hazards kind,
     _extract_location_factors location = hazards ++ [kind]
     /\ In kind ["urban"; "rural"; "suburban"]
     /\ Forall (fun h => In h ["hurricane_prone"; "wildfire_prone";
                               "earthquake_prone"; "tornado_prone";
                               "flood_zone"]) hazards)
  /\ NoDup (_extract_location_factors location).
Proof.
  destruct (factor_flags
              (any_in coastal_cities (lower location))
              (any_in wildfire_areas (lower location))
              (any_in earthquake_zones (lower location))
              (any_in tornado_alley (lower location))
              (any_in flood_zones (lower location))
              (any_in major_cities (lower location))
              (contains "county" (lower location)
               || contains "township" (lower location)))
    as (A & B & _).
  split; [exact A | exact B].
Qed.

(** X21. [assess_risk] passes over the factors it has no weight for: on
    every inventory, a factor list and the list of its weighted factors
    give the same result. The tag tornado_prone is such a factor, and the
    only one among those [_extract_location_factors] returns: with and
    without it the assessment of an extracted factor list is the same. *)
Theorem unweighted_factors_are_ignored (items : list (string * Z))
    (lf : list string) (location : string) :
  assess_risk items (filter weighted lf) = assess_risk items lf
  /\ weighted "tornado_prone" = false
  /\ filter weighted (_extract_location_factors location)
     = filter (fun f => negb (String.eqb f "tornado_prone"))
         (_extract_location_factors location)
  /\ assess_risk items
       (filter (fun f => negb (String.eqb f "tornado_prone"))
          (_extract_location_factors location))
     = assess_risk items (_extract_location_factors location).
Proof.
  assert (S : forall l, assess_risk items (filter weighted l)
                        = assess_risk items l).
  { intro l. unfold assess_risk. rewrite location_product_skips.
    reflexivity. }
  assert (F : filter weighted (_extract_location_factors location)
              = filter (fun f => negb (String.eqb f "tornado_prone"))
                  (_extract_location_factors location)).
  { destruct (factor_flags
                (any_in coastal_cities (lower location))
                (any_in wildfire_areas (lower location))
                (any_in earthquake_zones (lower location))
                (any_in tornado_alley (lower location))
                (any_in flood_zones (lower location))
                (any_in major_cities (lower location))
                (contains "county" (lower location)
                 || contains "township" (lower location)))
      as (_ & _ & C).
    exact C. }
  split; [apply S|]. split; [reflexivity|]. split; [exact F|].
  rewrite <- F. apply S.
Qed.

End UnderwritingFacts.

(** ** Underwriting analyzer: the inventory and its risk *)

Module UnderwritingInventoryFacts.
Import PyStr PyNum PyNumFacts RiskModel RiskModelFacts RiskModelMore.
Import Underwriting UnderwritingShape.
Local Open Scope Z_scope.

Lemma bump_keeps_counting (category : string) (n : Z)
    (items : list (string * Z)) :
  0 <= n -> counting items -> counting (bump category n items).
Proof.
  intros N [K F]. unfold counting, bump. split.
  - rewrite <- K. rewrite map_map. apply map_ext.
    intros [k v]. cbn [fst]. destruct (String.eqb k category); reflexivity.
  - rewrite Forall_map. eapply Forall_impl; [|exact F].
    intros [k v] H. cbn [fst snd] in *.
    destruct (String.eqb k category); cbn [snd]; lia.
Qed.

Lemma digit_code (c : ascii) : is_digit c = true -> 0 <= Z.of_nat (code c) - 48.
Proof.
  unfold is_digit, in_range. rewrite andb_true_iff.
  intros [L _]. apply Nat.leb_le in L. lia.
Qed.

Lemma run_is_digits (line : string) :
  Forall (fun c => is_digit c = true)
    (list_ascii_of_string (take (run_length is_digit line) line)).
Proof.
  induction line as [|c line IH]; simpl; [constructor|].
  destruct (is_digit c) eqn:D; simpl; [|constructor].
  constructor; assumption.
Qed.

Lemma first_number_is_digits (line digits : string) :
  first_number line = Some digits ->
  Forall (fun c => is_digit c = true) (list_ascii_of_string digits).
Proof.
  induction line as [|c line IH]; [discriminate|].
  cbn [first_number]. destruct (is_digit c) eqn:D.
  - intro H. injection H as H. subst digits.
    exact (run_is_digits (String c line)).
  - exact IH.
Qed.

Lemma digits_value_nonnegative (digits : string) :
  Forall (fun c => is_digit c = true) (list_ascii_of_string digits) ->
  0 <= digits_value digits.
Proof.
  unfold digits_value. generalize (list_ascii_of_string digits). intro l.
  assert (G : forall v, 0 <= v ->
              Forall (fun c => is_digit c = true) l ->
              0 <= fold_left (fun v c => 10 * v + (Z.of_nat (code c) - 48)) l v).
  { induction l as [|c l IH]; intros v V F; cbn [fold_left]; [exact V|].
    apply Forall_cons_iff in F. destruct F as [D F].
    apply IH; [|exact F]. pose proof (digit_code c D). lia. }
  apply G. lia.
Qed.

Lemma count_named_keeps_counting (line : string) (categories : list string)
    (items items' : list (string * Z)) :
  counting items ->
  fold_left (count_named line) categories (Returned items) = Returned items' ->
  counting items'.
Proof.
  revert items. induction categories as [|c categories IH]; intros items C.
  - simpl. intro H. injection H as <-. exact C.
  - cbn [fold_left]. unfold count_named at 2.
    destruct (contains c line).
    + destruct (first_number line) as [digits|] eqn:F.
      * unfold py_int. destruct (4300 <? String.length digits)%nat.
        -- assert (R : forall e, fold_left (count_named line) categories
                                   (Raised e) = Raised e).
           { clear. induction categories; intro e; simpl; auto. }
           rewrite R. discriminate.
        -- apply IH. apply bump_keeps_counting; [|exact C].
           apply digits_value_nonnegative.
           exact (first_number_is_digits line digits F).
      * apply IH. exact C.
    + apply IH. exact C.
Qed.

Lemma count_keywords_keeps_counting (line : string) (items : list (string * Z)) :
  counting items -> counting (count_keywords line items).
Proof.
  unfold count_keywords. generalize category_keywords. intro table.
  revert items. induction table as [|kc table IH]; intros items C; simpl.
  - exact C.
  - apply IH. destruct (any_in (fst kc) line); [|exact C].
    apply bump_keeps_counting; [lia | exact C].
Qed.

Lemma count_lines_keep_counting (lines : list string)
    (items items' : list (string * Z)) :
  counting items ->
  fold_left count_line lines (Returned items) = Returned items' ->
  counting items'.
Proof.
  revert items. induction lines as [|line lines IH]; intros items C.
  - simpl. intro H. injection H as <-. exact C.
  - cbn [fold_left]. unfold count_line at 2.
    destruct (fold_left (count_named line) (map fst items) (Returned items))
      as [items1|e] eqn:N.
    + apply IH. apply count_keywords_keeps_counting.
      exact (count_named_keeps_counting line _ items items1 C N).
    + assert (R : forall e, fold_left count_line lines (Raised e) = Raised e).
      { clear. induction lines; intro e; simpl; auto. }
      rewrite R. discriminate.
Qed.

Lemma kept_entries (items : list (string * Z)) :
  counting items ->
  let kept := filter (fun entry => 0 <? snd entry) items in
  Forall (fun entry => 0 < snd entry) kept
  /\ NoDup (map fst kept)
  /\ Forall (fun entry => In (fst entry) (map fst empty_inventory)) kept.
Proof.
  intros [K _] kept. subst kept. split; [|split].
  - rewrite Forall_forall. intros x I. apply filter_In in I.
    destruct I as [_ I]. apply Z.ltb_lt in I. exact I.
  - assert (N : NoDup (map fst items)).
    { rewrite K. unfold empty_inventory. cbn [map fst].
      repeat (constructor;
              [cbn [In]; intro H;
               repeat (destruct H as [H|H]; [discriminate H|]); exact H|]).
      constructor. }
    clear K. induction items as [|x items IH]; [constructor|].
    cbn [map] in N. apply NoDup_cons_iff in N. destruct N as [Nx N].
    cbn [filter]. destruct (0 <? snd x); [|exact (IH N)].
    cbn [map]. constructor; [|exact (IH N)].
    intro I. apply Nx. apply in_map_iff in I. destruct I as (y & E & I).
    apply filter_In in I. apply in_map_iff. exists y. tauto.
  - rewrite Forall_forall. intros x I. apply filter_In in I.
    destruct I as [I _]. rewrite <- K. apply in_map. exact I.
Qed.

Lemma extracted_inventory_is_positive_core (analysis_text : string)
    (items : list (string * Z)) :
  _extract_items_from_analysis analysis_text = Returned items ->
  Forall (fun entry => 0 < snd entry) items
  /\ NoDup (map fst items)
  /\ Forall (fun entry => In (fst entry) (map fst empty_inventory)) items.
Proof.
  unfold _extract_items_from_analysis.
  destruct (fold_left count_line (split_lines (lower analysis_text))
              (Returned empty_inventory)) as [counted|e] eqn:C;
    [|discriminate].
  intro H. injection H as <-.
  apply kept_entries.
  apply (count_lines_keep_counting (split_lines (lower analysis_text))
           empty_inventory counted); [|exact C].
  split; [reflexivity|]. unfold empty_inventory.
  repeat constructor; cbn; lia.
Qed.

(** X22. An inventory that [_extract_items_from_analysis] returns lists
    only categories of the table, each at most once, and only with a
    positive count: categories without items are left out. *)
Theorem extracted_inventory_is_positive (analysis_text : string)
    (items : list (string * Z)) :
  _extract_items_from_analysis analysis_text = Returned items ->
  Forall (fun entry => 0 < snd entry) items
  /\ NoDup (map fst items)
  /\ Forall (fun entry =>
               In (fst entry)
                 ["electronics"; "furniture"; "appliances"; "jewelry"; "art";
                  "sports_equipment"; "musical_instruments"]) items.
Proof.
  intro X. exact (extracted_inventory_is_positive_core analysis_text items X).
Qed.

(** X22 on a narrative of two lines. *)
Lemma extracted_inventory_is_positive_run :
  let text :=
    String.append "3 electronics on a desk"
      (String newline "a smart speaker") in
  _extract_items_from_analysis text
  = Returned [("electronics", 3); ("furniture", 1); ("art", 1)]
  /\ Forall (fun entry : string * Z => 0 < snd entry)
       [("electronics", 3); ("furniture", 1); ("art", 1)]
  /\ NoDup (map fst [("electronics", 3); ("furniture", 1); ("art", 1)])
  /\ Forall (fun entry : string * Z =>
               In (fst entry)
                 ["electronics"; "furniture"; "appliances"; "jewelry"; "art";
                  "sports_equipment"; "musical_instruments"])
       [("electronics", 3); ("furniture", 1); ("art", 1)].
Proof.
  intro text.
  assert (E : _extract_items_from_analysis text
              = Returned [("electronics", 3); ("furniture", 1); ("art", 1)])
    by (vm_compute; reflexivity).
  split; [exact E|].
  exact (extracted_inventory_is_positive text _ E).
Defined.

Local Open Scope Q_scope.

(** X23. A narrative in which no item is recognized is priced at nothing:
    the risk [analyze_risk_from_image] computes from it has score 0 and
    category Low whatever the location, and coverage, premiums and item
    risk contribution are 0. *)
Theorem unrecognized_narrative_costs_nothing (raw_analysis location : string) :
  _extract_items_from_analysis raw_analysis = Returned [] ->
  exists r,
    risk_from_analysis raw_analysis location = Returned r
    /\ risk_score r == 0
    /\ risk_category r = "Low"
    /\ item_risk_contribution r == 0
    /\ recommended_coverage r == 0
    /\ annual_premium r == 0
    /\ monthly_premium r == 0.
Proof.
  intro X. unfold risk_from_analysis. rewrite X.
  destruct (assessment_fields [] (_extract_location_factors location))
    as (r & R & I & _ & S & C & V & A & M).
  exists r. split; [exact R|].
  assert (I0 : item_risk_contribution r == 0) by (rewrite I; reflexivity).
  assert (R0 : risk_score r == 0) by (rewrite S, I0; ring).
  assert (V0 : recommended_coverage r == 0) by (rewrite V, R0; ring).
  assert (A0 : annual_premium r == 0) by (rewrite A, V0; ring).
  split; [exact R0|]. split.
  - rewrite C. rewrite (Qltb_same _ 0 1.0 1.0 R0 (Qeq_refl _)). reflexivity.
  - split; [exact I0|]. split; [exact V0|]. split; [exact A0|].
    rewrite M, A0. reflexivity.
Qed.

(** X23 on a narrative that names nothing of the table, for a location in
    town. *)
Lemma unrecognized_narrative_costs_nothing_run :
  exists r,
    risk_from_analysis "an empty room" "Chicago" = Returned r
    /\ risk_score r == 0
    /\ risk_category r = "Low"
    /\ item_risk_contribution r == 0
    /\ recommended_coverage r == 0
    /\ annual_premium r == 0
    /\ monthly_premium r == 0.
Proof.
  apply (unrecognized_narrative_costs_nothing "an empty room" "Chicago").
  vm_compute. reflexivity.
Defined.

(** X24. No section of a prevention plan comes out empty: a location has
    between one and nine risks, the default standing in when no city is
    recognized, and the specific recommendations come in blocks of four,
    from one block (the default) to four. *)
Theorem plan_lists_are_never_empty (location : string) (risks : list string) :
  (1 <= List.length (_get_location_risks location) <= 9)%nat
  /\ In (List.length (_get_specific_recommendations risks))
       [4%nat; 8%nat; 12%nat; 16%nat]
  /\ _format_list_items (_get_specific_recommendations risks)
     <> "None identified.".
Proof.
  split; [|split].
  - unfold _get_location_risks.
    repeat match goal with
           | |- context [if ?t then _ else _] =>
               match type of t with bool => destruct t end
           end; cbn; lia.
  - unfold _get_specific_recommendations.
    repeat match goal with
           | |- context [if ?t then _ else _] =>
               match type of t with bool => destruct t end
           end; cbn; tauto.
  - unfold _get_specific_recommendations.
    repeat match goal with
           | |- context [if ?t then _ else _] =>
               match type of t with bool => destruct t end
           end; cbn; discriminate.
Qed.

End UnderwritingInventoryFacts.

(** ** The record store: identifiers and look-up *)

Module MockStoreFacts.
Import PyStr PyDate PyNum MockStore.
Local Open Scope nat_scope.

Lemma get_after_set {A : Type} (k k' : string) (v : A) (d : list (string * A)) :
  dict_get k (dict_set k' v d)
  = if String.eqb k k' then Some v else dict_get k d.
Proof. apply DocAnalyzerFacts.dict_get_set. Qed.

Lemma assign_elsewhere (d r : ref) (key : string) (v : value)
    (o : ref -> record) :
  r <> d -> assign d key v o r = o r.
Proof.
  intro N. unfold assign. apply Nat.eqb_neq in N. rewrite N. reflexivity.
Qed.

Lemma get_after_assign (d r : ref) (k key : string) (v : value)
    (o : ref -> record) :
  dict_get k (assign d key v o r)
  = if Nat.eqb r d && String.eqb k key then Some v else dict_get k (o r).
Proof.
  unfold assign. destruct (Nat.eqb r d); [|reflexivity].
  rewrite get_after_set. reflexivity.
Qed.

Lemma stamped_elsewhere (table : list ref) (c u : string) (d r : ref)
    (o : ref -> record) :
  r <> d -> stamped table c u d o r = o r.
Proof.
  intro N. unfold stamped. rewrite !assign_elsewhere by exact N. reflexivity.
Qed.

Lemma stamped_id (table : list ref) (c u : string) (d : ref)
    (o : ref -> record) :
  dict_get "id" (stamped table c u d o d) = Some (next_id table).
Proof.
  unfold stamped. rewrite !get_after_assign, Nat.eqb_refl. reflexivity.
Qed.

Lemma stamped_keeps_key (key : string) (table : list ref) (c u : string)
    (d r : ref) (o : ref -> record) :
  String.eqb key "id" = false ->
  String.eqb key "created_at" = false ->
  String.eqb key "updated_at" = false ->
  dict_get key (stamped table c u d o r) = dict_get key (o r).
Proof.
  intros I C U. unfold stamped.
  rewrite !get_after_assign, I, C, U, !andb_false_r. reflexivity.
Qed.

Lemma find_after_append {A : Type} (f : A -> bool) (l : list A) (x : A) :
  find f (l ++ [x])
  = match find f l with
    | Some y => Some y
    | None => if f x then Some x else None
    end.
Proof.
  induction l as [|y l IH]; simpl; [reflexivity|].
  destruct (f y); [reflexivity | exact IH].
Qed.

Lemma find_same_test {A : Type} (f g : A -> bool) (l : list A) :
  (forall x, f x = g x) -> find f l = find g l.
Proof.
  intro E. induction l as [|y l IH]; simpl; [reflexivity|].
  rewrite E, IH. reflexivity.
Qed.

Lemma dec_of_nat_inj (a b : nat) :
  dec (Z.of_nat a) = dec (Z.of_nat b) -> a = b.
Proof.
  unfold dec. intro H.
  apply (f_equal NilEmpty.uint_of_string) in H.
  rewrite !NilEmpty.usu in H. injection H as H.
  apply (f_equal N.of_uint) in H.
  rewrite !DecimalN.Unsigned.of_to in H. lia.
Qed.

(** X25. Looking a policy up after one was created: the first dictionary
    of the table with the number is returned, so a number already in the
    table still gives the dictionary it gave before, a number not yet in
    the table gives the dictionary just stored when it carries the number,
    and nothing otherwise; this holds also when the dictionary stored is
    one the table already holds. The same holds for claims. *)
Theorem lookup_after_create (created_at updated_at number : string)
    (d : ref) (s : db) :
  get_policy_by_number number
    (snd (create_policy created_at updated_at d s))
  = match get_policy_by_number number s with
    | Some old => Some old
    | None =>
        if has_number "policy_number" number (objects s d)
        then Some (fst (create_policy created_at updated_at d s))
        else None
    end
  /\ get_claim_by_number number
       (snd (create_claim created_at updated_at d s))
     = match get_claim_by_number number s with
       | Some old => Some old
       | None =>
           if has_number "claim_number" number (objects s d)
           then Some (fst (create_claim created_at updated_at d s))
           else None
       end.
Proof.
  unfold get_policy_by_number, get_claim_by_number, create_policy,
    create_claim. cbn [fst snd policies claims objects].
  rewrite !find_after_append. unfold has_number.
  split.
  - rewrite (find_same_test
               (fun r => match dict_get "policy_number"
                                  (stamped (policies s) created_at updated_at
                                     d (objects s) r) with
                         | Some (VStr t) => String.eqb t number
                         | _ => false
                         end)
               (fun r => match dict_get "policy_number" (objects s r) with
                         | Some (VStr t) => String.eqb t number
                         | _ => false
                         end))
      by (intro r; rewrite stamped_keeps_key by reflexivity; reflexivity).
    rewrite stamped_keeps_key by reflexivity. reflexivity.
  - rewrite (find_same_test
               (fun r => match dict_get "claim_number"
                                  (stamped (claims s) created_at updated_at
                                     d (objects s) r) with
                         | Some (VStr t) => String.eqb t number
                         | _ => false
                         end)
               (fun r => match dict_get "claim_number" (objects s r) with
                         | Some (VStr t) => String.eqb t number
                         | _ => false
                         end))
      by (intro r; rewrite stamped_keeps_key by reflexivity; reflexivity).
    rewrite stamped_keeps_key by reflexivity. reflexivity.
Qed.

(** X26. Creating a claim from a dictionary that the claims table does not
    hold yet appends it with the next position as its id and touches
    nothing else: the other tables and every other dictionary stay as they
    were, and a table whose records carry their position as id keeps that
    property. *)
Theorem create_keeps_numbering (created_at updated_at : string)
    (d : ref) (s : db) :
  ~ In d (claims s) ->
  numbered (objects s) (claims s) ->
  let s' := snd (create_claim created_at updated_at d s) in
  numbered (objects s') (claims s')
  /\ claims s' = claims s ++ [d]
  /\ dict_get "id" (objects s' d)
     = Some (VStr (dec (Z.of_nat (List.length (claims s) + 1))))
  /\ (forall r, r <> d -> objects s' r = objects s r)
  /\ policies s' = policies s
  /\ agent_activities s' = agent_activities s
  /\ escalations s' = escalations s.
Proof.
  intros F N s'. subst s'. unfold create_claim.
  cbn [fst snd policies claims agent_activities escalations objects].
  split; [|split; [reflexivity|split; [apply stamped_id|split]]].
  - intros i r H.
    destruct (Nat.lt_ge_cases i (List.length (claims s))) as [L|L].
    + rewrite nth_error_app1 in H by exact L.
      rewrite stamped_elsewhere; [exact (N i r H)|].
      intros ->. apply F. exact (nth_error_In _ _ H).
    + rewrite nth_error_app2 in H by exact L.
      destruct (i - List.length (claims s)) as [|k] eqn:D.
      * cbn in H. injection H as <-. rewrite stamped_id.
        replace i with (List.length (claims s)) by lia. reflexivity.
      * cbn in H. destruct k; discriminate H.
  - intros r R. apply stamped_elsewhere. exact R.
  - repeat split.
Qed.

(** X26 on a table of one claim and a second dictionary. *)
Lemma create_keeps_numbering_run :
  let s := mk_db (fun r => if Nat.eqb r 0
                           then [("claim_number", VStr "CLM-1");
                                 ("id", VStr "1")]
                           else [("claim_number", VStr "CLM-2")])
             2 [] [0] [] [] in
  let s' := snd (create_claim "2026-11-04T10:00:00" "2026-11-04T10:00:00"
                   1 s) in
  numbered (objects s') (claims s')
  /\ claims s' = claims s ++ [1]
  /\ dict_get "id" (objects s' 1)
     = Some (VStr (dec (Z.of_nat (List.length (claims s) + 1))))
  /\ (forall r, r <> 1 -> objects s' r = objects s r)
  /\ policies s' = policies s
  /\ agent_activities s' = agent_activities s
  /\ escalations s' = escalations s.
Proof.
  intro s.
  apply (create_keeps_numbering "2026-11-04T10:00:00" "2026-11-04T10:00:00"
           1 s).
  - cbn. intros [H|[]]. discriminate H.
  - intros [|[|i]] r H; cbn in H; try discriminate H.
    injection H as <-. reflexivity.
Defined.

(** X27. Creating a claim from a dictionary that the claims table already
    holds breaks the numbering: the one dictionary then stands at two
    positions and carries the id of the last one. *)
Theorem stored_twice_shares_one_id (created_at updated_at : string)
    (d : ref) (s : db) :
  In d (claims s) ->
  let s' := snd (create_claim created_at updated_at d s) in
  (exists i, i < List.length (claims s)
             /\ nth_error (claims s') i = Some d
             /\ nth_error (claims s') (List.length (claims s)) = Some d
             /\ dict_get "id" (objects s' d)
                = Some (VStr (dec (Z.of_nat (List.length (claims s) + 1)))))
  /\ ~ numbered (objects s') (claims s').
Proof.
  intros I s'. subst s'. unfold create_claim.
  cbn [fst snd claims objects].
  destruct (In_nth_error _ _ I) as [i H].
  assert (L : i < List.length (claims s))
    by (apply nth_error_Some; rewrite H; discriminate).
  assert (H1 : nth_error (claims s ++ [d]) i = Some d)
    by (rewrite nth_error_app1 by exact L; exact H).
  split.
  - exists i. split; [exact L|]. split; [exact H1|]. split.
    + rewrite nth_error_app2 by lia. rewrite Nat.sub_diag. reflexivity.
    + apply stamped_id.
  - intro N. specialize (N i d H1). rewrite stamped_id in N.
    unfold next_id in N. injection N as N.
    apply dec_of_nat_inj in N. lia.
Qed.

(** X27 on a dictionary stored a second time. *)
Lemma stored_twice_shares_one_id_run :
  let s := mk_db (fun _ => [("claim_number", VStr "CLM-1"); ("id", VStr "1")])
             1 [] [0] [] [] in
  let s' := snd (create_claim "2026-11-04T10:00:00" "2026-11-04T10:00:00"
                   0 s) in
  (exists i, i < List.length (claims s)
             /\ nth_error (claims s') i = Some 0
             /\ nth_error (claims s') (List.length (claims s)) = Some 0
             /\ dict_get "id" (objects s' 0)
                = Some (VStr (dec (Z.of_nat (List.length (claims s) + 1)))))
  /\ ~ numbered (objects s') (claims s').
Proof.
  intro s.
  apply (stored_twice_shares_one_id "2026-11-04T10:00:00"
           "2026-11-04T10:00:00" 0 s).
  cbn. left. reflexivity.
Defined.

End MockStoreFacts.

(** ** The claims processor on the record store *)

Module ClaimsOnStoreFacts.
Import PyStr PyDate PyNum ClaimsProcessor ClaimsProcessorFacts.
Import MockStore ClaimsOnStore.
Local Open Scope nat_scope.

(** X28. A call of [process_claim] on the record store leaves exactly one
    record in the activity log, whether it succeeds or not, and one record
    in the claims table exactly when it succeeds; it succeeds exactly when
    the vision service returns; policies and escalations are not
    touched, and no dictionary that was alive before is written to. *)
Theorem process_claim_logs_once
    (claim_record : db_claim -> record) (log_record : log_data -> record)
    (c u l : string) (analyze_image : string -> outcome string)
    (nr nc : datetime) (ip pn desc : string) (s : db) :
  exists r s',
    process_claim db analyze_image (store_claim claim_record c u)
      (store_log log_record l) nr nc ip pn desc s = (Returned r, s')
    /\ List.length (agent_activities s')
       = List.length (agent_activities s) + 1
    /\ List.length (claims s')
       = List.length (claims s) + (if success r then 1 else 0)
    /\ policies s' = policies s
    /\ escalations s' = escalations s
    /\ (forall d, d < unused s -> objects s' d = objects s d)
    /\ (success r = true <-> exists raw, analyze_image ip = Returned raw).
Proof.
  assert (W : forall (o : ref -> record) k v d n, d < n ->
                assign n k v o d = o d).
  { intros o k v d n L. apply MockStoreFacts.assign_elsewhere. lia. }
  unfold process_claim, process_claim_body, _log_agent_activity, try_except,
    bind, lift, ret, store_claim, store_log, create_claim, new_dict,
    MockStore.log_agent_activity.
  destruct (analyze_image ip) as [raw|e].
  - rewrite assess_claim_returns.
    cbn [fst snd policies claims agent_activities escalations objects unused].
    eexists. eexists. split; [reflexivity|].
    cbn [policies claims agent_activities escalations success objects unused].
    rewrite !length_app. cbn [List.length].
    split; [reflexivity|]. split; [reflexivity|]. split; [reflexivity|].
    split; [reflexivity|]. split.
    + intros d L. unfold stamped.
      repeat first
        [ rewrite W by lia
        | progress cbv beta
        | match goal with
          | |- context [Nat.eqb d ?n] =>
              destruct (Nat.eqb_spec d n); [lia|]
          end ].
      reflexivity.
    + split; eauto.
  - cbn [fst snd policies claims agent_activities escalations objects unused].
    eexists. eexists. split; [reflexivity|].
    cbn [policies claims agent_activities escalations success objects unused].
    rewrite !length_app. cbn [List.length].
    split; [reflexivity|]. split; [lia|]. split; [reflexivity|].
    split; [reflexivity|]. split.
    + intros d L.
      repeat first
        [ rewrite W by lia
        | progress cbv beta
        | match goal with
          | |- context [Nat.eqb d ?n] =>
              destruct (Nat.eqb_spec d n); [lia|]
          end ].
      reflexivity.
    + split; [discriminate|]. intros [raw H]. discriminate H.
Qed.

End ClaimsOnStoreFacts.

(** ** Policy look-up *)

Module PolicyLookupFacts.
Import PyStr PyDate PyNum PolicyLookup.
Local Open Scope Z_scope.

(** The answer of [lookup_policy] by cases. *)
Lemma lookup_policy_cases
    (number name email : option string) :
  match lookup_policy number name email with
  | Found p =>
      exists n, number = Some n /\ is_empty n = false
                /\ dict_get n sample_policies = Some p
                /\ policy_number p = n
  | FoundMany ps =>
      ps <> []
      /\ (forall p, In p ps
                    <-> In p (map snd sample_policies)
                        /\ (name_match name p = true
                            \/ email_match email p = true))
  | NotFound _ =>
      forall p, In p (map snd sample_policies) ->
                name_match name p = false /\ email_match email p = false
  end
  /\ (given name = false -> given email = false ->
      forall ps, lookup_policy number name email <> FoundMany ps).
Proof.
  assert (K : forall n p, dict_get n sample_policies = Some p ->
                          policy_number p = n).
  { intros n p. unfold sample_policies, dict_get.
    repeat match goal with
           | |- context [String.eqb ?a ?b] =>
               destruct (String.eqb a b) eqn:?
           end; intro H; try discriminate H; injection H as <-;
      match goal with
      | E : String.eqb _ _ = true |- _ => apply String.eqb_eq in E; subst
      end; reflexivity. }
  assert (M : forall p, name_match name p || email_match email p = true ->
                        given name || given email = true).
  { intros p H. apply orb_true_iff in H. apply orb_true_iff.
    destruct H as [H|H]; [left | right].
    - unfold name_match in H. unfold given. destruct name; [|discriminate H].
      apply andb_true_iff in H. tauto.
    - unfold email_match in H. unfold given. destruct email; [|discriminate H].
      apply andb_true_iff in H. tauto. }
  unfold lookup_policy.
  set (by_number := match number with
                    | Some n => if negb (is_empty n)
                                then dict_get n sample_policies else None
                    | None => None
                    end).
  destruct by_number as [p|] eqn:B.
  - split.
    + subst by_number. destruct number as [n|]; [|discriminate B].
      destruct (is_empty n) eqn:E; [discriminate B|]. cbn [negb] in B.
      exists n. repeat split; try assumption. exact (K n p B).
    + intros _ _ ps H. discriminate H.
  - destruct (given name || given email) eqn:G.
    + destruct (filter (fun p => name_match name p || email_match email p)
                  (map snd sample_policies)) as [|x l] eqn:F.
      * split; [|intros _ _ ps H; discriminate H].
        intros p I.
        assert (N : name_match name p || email_match email p = false).
        { destruct (name_match name p || email_match email p) eqn:X;
            [|reflexivity].
          assert (I' : In p (filter (fun p => name_match name p
                                              || email_match email p)
                               (map snd sample_policies)))
            by (apply filter_In; split; assumption).
          rewrite F in I'. destruct I'. }
        apply orb_false_iff in N. exact N.
      * split.
        -- split; [discriminate|]. intro p. rewrite <- F.
           rewrite filter_In, orb_true_iff. reflexivity.
        -- intros Gn Ge. rewrite Gn, Ge in G. discriminate G.
    + cbv beta iota zeta.
      split; [|intros _ _ ps H; discriminate H].
      intros p I.
      destruct (name_match name p || email_match email p) eqn:X.
      * discriminate (M p X).
      * apply orb_false_iff in X. exact X.
Qed.

(** X29. What [lookup_policy] answers. A number that is in the table
    gives that policy, whatever name and e-mail say. Otherwise the answer
    holds exactly the policies of the table whose holder name contains
    the given name or whose e-mail is the given e-mail, letter case aside;
    when there is none, or neither name nor e-mail is given, nothing is
    found. *)
Theorem lookup_policy_answers
    (number name email : option string) :
  match lookup_policy number name email with
  | Found p =>
      exists n, number = Some n /\ is_empty n = false
                /\ dict_get n sample_policies = Some p
                /\ policy_number p = n
  | FoundMany ps =>
      ps <> []
      /\ (forall p, In p ps
                    <-> In p (map snd sample_policies)
                        /\ (name_match name p = true
                            \/ email_match email p = true))
  | NotFound _ =>
      forall p, In p (map snd sample_policies) ->
                name_match name p = false /\ email_match email p = false
  end
  /\ (forall n p, dict_get n sample_policies = Some p ->
                  lookup_policy (Some n) name email = Found p)
  /\ (given name = false -> given email = false ->
      forall ps, lookup_policy number name email <> FoundMany ps).
Proof.
  destruct (lookup_policy_cases number name email) as [A N].
  split; [exact A|]. split; [|exact N].
  intros n p H. unfold lookup_policy.
  destruct n as [|c n]; [discriminate H|].
  cbn [is_empty negb]. rewrite H. reflexivity.
Qed.

(** X30. The days that remain on a policy of the table are always a
    number, never "Unknown"; with a clock inside its day they are the
    calendar days up to the end date, less one as soon as the day of the
    clock has begun, and so negative from the first instant after the
    midnight that starts the end date. *)
Theorem days_remaining_counts_whole_days (now : datetime) (p : policy) :
  In p (map snd sample_policies) ->
  0 <= dt_micro now < micros_per_day ->
  exists end_day,
    strptime_Ymd (end_date p) = Some end_day
    /\ days_remaining now p
       = Some (toordinal end_day - toordinal (dt_date now)
               - (if dt_micro now =? 0 then 0 else 1)).
Proof.
  intros I C.
  assert (E : exists end_day, strptime_Ymd (end_date p) = Some end_day).
  { cbn [map snd sample_policies In] in I.
    destruct I as [<-|[<-|[<-|[]]]]; eexists; vm_compute; reflexivity. }
  destruct E as [end_day E]. exists end_day. split; [exact E|].
  unfold days_remaining. rewrite E. f_equal. unfold days_until.
  set (d := toordinal end_day - toordinal (dt_date now)).
  destruct (dt_micro now =? 0) eqn:Z0.
  - apply Z.eqb_eq in Z0. rewrite Z0, Z.sub_0_r.
    rewrite Z.div_mul by (unfold micros_per_day; lia). lia.
  - apply Z.eqb_neq in Z0.
    replace (d * micros_per_day - dt_micro now)
      with ((d - 1) * micros_per_day + (micros_per_day - dt_micro now)) by lia.
    rewrite Z.div_add_l by (unfold micros_per_day; lia).
    rewrite Z.div_small by lia. lia.
Qed.

(** X30 on the home policy, read at noon of its last day. *)
Lemma days_remaining_counts_whole_days_run :
  exists end_day,
    strptime_Ymd "2026-01-01" = Some end_day
    /\ days_remaining (mk_datetime (mk_date 2026 1 1) 43200000000)
         (mk_policy "POL-20250101-1234" "Home Insurance" 250000 1200
            "2025-01-01" "2026-01-01" "Active"
            "John Smith" "john.smith@example.com" "555-123-4567"
            "123 Main St, Anytown, USA"
            [ ("dwelling", 200000%Q); ("personal_property", 100000%Q);
              ("liability", 300000%Q); ("deductible", 1000%Q) ])
       = Some (toordinal end_day - toordinal (mk_date 2026 1 1)
               - (if 43200000000 =? 0 then 0 else 1)).
Proof.
  apply (days_remaining_counts_whole_days
           (mk_datetime (mk_date 2026 1 1) 43200000000)
           (mk_policy "POL-20250101-1234" "Home Insurance" 250000 1200
              "2025-01-01" "2026-01-01" "Active"
              "John Smith" "john.smith@example.com" "555-123-4567"
              "123 Main St, Anytown, USA"
              [ ("dwelling", 200000%Q); ("personal_property", 100000%Q);
                ("liability", 300000%Q); ("deductible", 1000%Q) ])).
  - left. reflexivity.
  - vm_compute. split; [discriminate | reflexivity].
Defined.

End PolicyLookupFacts.
